(** * local-chat-companion: the multi-session streaming chat manager

    A shallow embedding of
      - src/lib/api.ts            (completion client and event-stream decoder),
      - the backend client and its decoder (lib/backendApi),
      - src/lib/storage.ts        (chat persistence helpers),
      - src/hooks/useChatManager.ts (per-conversation session manager),
      - src/components/Sidebar.tsx  (import guard, groups of the list),
    followed by the properties of the specification that concern them,
    and by further properties of the same code.

    Conventions.  JavaScript strings are embedded as [string]; text is
    taken as its sequence of bytes, which for ASCII input is the sequence
    of UTF-16 code units the source manipulates.  [undefined] is [None]
    in an [option JSON].  A promise is embedded by its settlement, a
    [Result]: [inl e] is a rejection (or a thrown exception), [inr v] a
    fulfilment. *)

From Stdlib Require Import ZArith QArith String Ascii List Bool.
From stdpp Require Import base option gmap strings list pretty.

Set Warnings "-register-all".

Local Open Scope string_scope.
Local Open Scope list_scope.
Local Open Scope Z_scope.

(** ** JavaScript string primitives used by the sources *)

Module Js.

Definition newline : ascii := "010"%char.

(** [s.split('\n')]: never returns the empty list. *)
Fixpoint split_lines (s : string) : list string :=
  match s with
  | EmptyString => [EmptyString]
  | String c rest =>
      if Ascii.eqb c newline then EmptyString :: split_lines rest
      else match split_lines rest with
           | [] => [String c EmptyString]
           | h :: t => String c h :: t
           end
  end.

(** [s.slice(n)] for [0 <= n]. *)
Fixpoint slice_from (n : nat) (s : string) : string :=
  match n, s with
  | O, _ => s
  | S n', String _ rest => slice_from n' rest
  | S _, EmptyString => EmptyString
  end.

(** [s.slice(0, n)]. *)
Fixpoint slice_to (n : nat) (s : string) : string :=
  match n, s with
  | S n', String c rest => String c (slice_to n' rest)
  | _, _ => EmptyString
  end.

(** [s.startsWith(p)]. *)
Definition startsWith (p s : string) : bool := String.prefix p s.

(** White space removed by [trim] (the ASCII part of the ECMAScript
    WhiteSpace and LineTerminator classes). *)
Definition is_space (c : ascii) : bool :=
  match nat_of_ascii c with
  | 9%nat | 10%nat | 11%nat | 12%nat | 13%nat | 32%nat => true
  | _ => false
  end.

Fixpoint trimStart (s : string) : string :=
  match s with
  | String c rest => if is_space c then trimStart rest else s
  | EmptyString => EmptyString
  end.

Fixpoint trimEnd (s : string) : string :=
  match s with
  | EmptyString => EmptyString
  | String c rest =>
      match trimEnd rest with
      | EmptyString => if is_space c then EmptyString else String c EmptyString
      | r => String c r
      end
  end.

Definition trim (s : string) : string := trimEnd (trimStart s).

(** [a.join(sep)]. *)
Fixpoint join (sep : string) (l : list string) : string :=
  match l with
  | [] => EmptyString
  | [x] => x
  | x :: rest => x +:+ sep +:+ join sep rest
  end.

(** An exception value: its [name] and [message]. *)
Record Error := mkError { name : string; message : string }.

(** [new Error(msg)]. *)
Definition newError (msg : string) : Error := mkError "Error" msg.
Definition TypeError (msg : string) : Error := mkError "TypeError" msg.
Definition SyntaxError (msg : string) : Error := mkError "SyntaxError" msg.
(** The [DOMException] with which an aborted fetch or read rejects. *)
Definition AbortError : Error :=
  mkError "AbortError" "The operation was aborted.".

(** Settlement of a promise, or outcome of a call that may throw. *)
Definition Result (A : Type) : Type := Error + A.

End Js.

(** ** JSON values, [JSON.parse] and the dynamic operations applied to them *)

Module Json.

(** A parsed JSON value.  A number keeps the text of its literal. *)
Inductive JSON : Type :=
| JNull
| JBool (b : bool)
| JNum (lit : string)
| JStr (s : string)
| JArr (items : list JSON)
| JObj (fields : list (string * JSON)).

Definition dquote : ascii := "034"%char.

Definition is_digit (c : ascii) : bool :=
  let n := nat_of_ascii c in (48 <=? n)%nat && (n <=? 57)%nat.

Definition is_ws (c : ascii) : bool :=
  match nat_of_ascii c with
  | 9%nat | 10%nat | 13%nat | 32%nat => true
  | _ => false
  end.

Fixpoint skip_ws (s : string) : string :=
  match s with
  | String c rest => if is_ws c then skip_ws rest else s
  | EmptyString => EmptyString
  end.

Definition hex_value (c : ascii) : option N :=
  let n := N_of_ascii c in
  if (48 <=? n)%N && (n <=? 57)%N then Some (n - 48)%N
  else if (65 <=? n)%N && (n <=? 70)%N then Some (n - 55)%N
  else if (97 <=? n)%N && (n <=? 102)%N then Some (n - 87)%N
  else None.

(** UTF-8 bytes of a code point of the Basic Multilingual Plane. *)
Definition utf8 (cp : N) : string :=
  if (cp <? 128)%N then String (ascii_of_N cp) EmptyString
  else if (cp <? 2048)%N then
    String (ascii_of_N (192 + cp / 64))
      (String (ascii_of_N (128 + cp mod 64)) EmptyString)
  else
    String (ascii_of_N (224 + cp / 4096))
      (String (ascii_of_N (128 + (cp / 64) mod 64))
         (String (ascii_of_N (128 + cp mod 64)) EmptyString)).

(** Body of a string literal, after the opening quote: the decoded text
    and the input after the closing quote. *)
Fixpoint parse_string_body (s : string) : option (string * string) :=
  match s with
  | EmptyString => None
  | String c rest =>
      if Ascii.eqb c dquote then Some (EmptyString, rest)
      else if Ascii.eqb c "\"%char then
        match rest with
        | String e rest' =>
            let simple (d : ascii) :=
              match parse_string_body rest' with
              | Some (t, r) => Some (String d t, r)
              | None => None
              end in
            if Ascii.eqb e dquote then simple dquote
            else if Ascii.eqb e "\"%char then simple "\"%char
            else if Ascii.eqb e "/"%char then simple "/"%char
            else if Ascii.eqb e "b"%char then simple "008"%char
            else if Ascii.eqb e "f"%char then simple "012"%char
            else if Ascii.eqb e "n"%char then simple "010"%char
            else if Ascii.eqb e "r"%char then simple "013"%char
            else if Ascii.eqb e "t"%char then simple "009"%char
            else if Ascii.eqb e "u"%char then
              match rest' with
              | String h1 (String h2 (String h3 (String h4 rest''))) =>
                  match hex_value h1, hex_value h2, hex_value h3, hex_value h4 with
                  | Some a, Some b, Some c', Some d =>
                      match parse_string_body rest'' with
                      | Some (t, r) =>
                          Some (utf8 (((a * 16 + b) * 16 + c') * 16 + d)%N +:+ t, r)
                      | None => None
                      end
                  | _, _, _, _ => None
                  end
              | _ => None
              end
            else None
        | EmptyString => None
        end
      else if (N_of_ascii c <? 32)%N then None
      else
        match parse_string_body rest with
        | Some (t, r) => Some (String c t, r)
        | None => None
        end
  end.

(** Longest run of digits at the head of the input. *)
Fixpoint span_digits (s : string) : string * string :=
  match s with
  | String c rest =>
      if is_digit c then
        let '(d, r) := span_digits rest in (String c d, r)
      else (EmptyString, s)
  | EmptyString => (EmptyString, EmptyString)
  end.

(** A number literal of the JSON grammar: an optional minus sign, an
    integer part without a leading zero, an optional fraction and an
    optional exponent. *)
Definition parse_number (s : string) : option (string * string) :=
  let '(sign, s1) :=
    match s with
    | String "-"%char r => ("-", r)
    | _ => (EmptyString, s)
    end in
  let '(int, s2) := span_digits s1 in
  match int with
  | EmptyString => None
  | String "0"%char (String _ _) => None
  | _ =>
      let frac :=
        match s2 with
        | String "."%char r =>
            let '(f, r') := span_digits r in
            match f with
            | EmptyString => None
            | _ => Some ("." +:+ f, r')
            end
        | _ => Some (EmptyString, s2)
        end in
      match frac with
      | None => None
      | Some (f, s3) =>
          let with_exp (e : string) (r : string) :=
            let '(esign, r1) :=
              match r with
              | String "+"%char r' => ("+", r')
              | String "-"%char r' => ("-", r')
              | _ => (EmptyString, r)
              end in
            let '(ds, r2) := span_digits r1 in
            match ds with
            | EmptyString => None
            | _ => Some (sign +:+ int +:+ f +:+ e +:+ esign +:+ ds, r2)
            end in
          match s3 with
          | String "e"%char r => with_exp "e" r
          | String "E"%char r => with_exp "E" r
          | _ => Some (sign +:+ int +:+ f, s3)
          end
      end
  end.

(** [expect kw s]: the input after the keyword [kw]. *)
Definition expect (kw s : string) : option string :=
  if String.prefix kw s then Some (Js.slice_from (String.length kw) s) else None.

(** Recursive descent; [fuel] bounds the depth of the calls.
    [JSON_parse] supplies two units for every character of the text: of
    any two nested calls, one has consumed a character. *)
Fixpoint parse_value (fuel : nat) (s : string) : option (JSON * string) :=
  match fuel with
  | O => None
  | S fuel' =>
      match skip_ws s with
      | String "{"%char rest =>
          match skip_ws rest with
          | String "}"%char r => Some (JObj [], r)
          | _ => parse_members fuel' rest []
          end
      | String "["%char rest =>
          match skip_ws rest with
          | String "]"%char r => Some (JArr [], r)
          | _ => parse_elements fuel' rest []
          end
      | String "034"%char rest =>
          match parse_string_body rest with
          | Some (t, r) => Some (JStr t, r)
          | None => None
          end
      | String "t"%char _ as s' =>
          match expect "true" s' with Some r => Some (JBool true, r) | None => None end
      | String "f"%char _ as s' =>
          match expect "false" s' with Some r => Some (JBool false, r) | None => None end
      | String "n"%char _ as s' =>
          match expect "null" s' with Some r => Some (JNull, r) | None => None end
      | s' =>
          match parse_number s' with
          | Some (lit, r) => Some (JNum lit, r)
          | None => None
          end
      end
  end
with parse_elements (fuel : nat) (s : string) (acc : list JSON)
  : option (JSON * string) :=
  match fuel with
  | O => None
  | S fuel' =>
      match parse_value fuel' s with
      | Some (v, r) =>
          match skip_ws r with
          | String ","%char r' => parse_elements fuel' r' (acc ++ [v])
          | String "]"%char r' => Some (JArr (acc ++ [v]), r')
          | _ => None
          end
      | None => None
      end
  end
with parse_members (fuel : nat) (s : string) (acc : list (string * JSON))
  : option (JSON * string) :=
  match fuel with
  | O => None
  | S fuel' =>
      match skip_ws s with
      | String "034"%char r0 =>
          match parse_string_body r0 with
          | Some (k, r1) =>
              match skip_ws r1 with
              | String ":"%char r2 =>
                  match parse_value fuel' r2 with
                  | Some (v, r3) =>
                      match skip_ws r3 with
                      | String ","%char r4 => parse_members fuel' r4 (acc ++ [(k, v)])
                      | String "}"%char r4 => Some (JObj (acc ++ [(k, v)]), r4)
                      | _ => None
                      end
                  | None => None
                  end
              | _ => None
              end
          | None => None
          end
      | _ => None
      end
  end.

(** [JSON.parse(text)]: [None] stands for the [SyntaxError] it throws. *)
Definition JSON_parse (text : string) : option JSON :=
  match parse_value (2 * String.length text + 2) text with
  | Some (v, r) =>
      match skip_ws r with
      | EmptyString => Some v
      | _ => None
      end
  | None => None
  end.

(** *** Dynamic operations

    [undefined] is [None].  The property names read by the sources are
    [choices], [delta], [message], [content], [messages], [error] and the
    index [0]; none of them is inherited from a prototype. *)

(** The mantissa of a number literal has a digit other than zero. *)
Fixpoint mantissa_nonzero (lit : string) : bool :=
  match lit with
  | EmptyString => false
  | String c rest =>
      if Ascii.eqb c "e"%char || Ascii.eqb c "E"%char then false
      else if is_digit c && negb (Ascii.eqb c "0"%char) then true
      else mantissa_nonzero rest
  end.

(** [Boolean(v)].  A number is taken by its literal: exact unless the
    literal underflows to zero. *)
Definition truthy (v : JSON) : bool :=
  match v with
  | JNull => false
  | JBool b => b
  | JNum lit => mantissa_nonzero lit
  | JStr s => negb (String.eqb s EmptyString)
  | JArr _ | JObj _ => true
  end.

Definition truthy_opt (o : option JSON) : bool :=
  match o with
  | Some v => truthy v
  | None => false
  end.

(** [String(v)], the conversion applied by [+=] on a string.  A number
    prints as its literal, which is what JavaScript prints for the
    canonical decimal literals of safe integers. *)
Fixpoint toString (v : JSON) : string :=
  match v with
  | JNull => "null"
  | JBool true => "true"
  | JBool false => "false"
  | JNum lit => lit
  | JStr s => s
  | JArr items =>
      Js.join ","
        (List.map (fun x => match x with
                            | JNull => EmptyString
                            | _ => toString x
                            end) items)
  | JObj _ => "[object Object]"
  end.

(** Own property [k] of an object literal: the last occurrence wins. *)
Fixpoint lookup_field (k : string) (fields : list (string * JSON)) : option JSON :=
  match fields with
  | [] => None
  | (k', v) :: rest =>
      match lookup_field k rest with
      | Some v' => Some v'
      | None => if String.eqb k k' then Some v else None
      end
  end.

(** [v.k] on a value that is neither [null] nor [undefined]. *)
Definition field (v : JSON) (k : string) : option JSON :=
  match v with
  | JObj fields => lookup_field k fields
  | _ => None
  end.

(** [v[0]] on a value that is neither [null] nor [undefined]. *)
Definition first (v : JSON) : option JSON :=
  match v with
  | JArr items => head items
  | JStr (String c _) => Some (JStr (String c EmptyString))
  | JObj fields => lookup_field "0" fields
  | _ => None
  end.

Definition cannot_read (what : string) : Js.Error :=
  Js.TypeError ("Cannot read properties of undefined (reading '" +:+ what +:+ "')").

(** [o.k]: throws a [TypeError] on [null] and [undefined]. *)
Definition member (o : option JSON) (k : string) : Js.Result (option JSON) :=
  match o with
  | None | Some JNull => inl (cannot_read k)
  | Some v => inr (field v k)
  end.

(** [o[0]]. *)
Definition index0 (o : option JSON) : Js.Result (option JSON) :=
  match o with
  | None | Some JNull => inl (cannot_read "0")
  | Some v => inr (first v)
  end.

(** [o?.k] and [o?.[0]]. *)
Definition opt_member (o : option JSON) (k : string) : option JSON :=
  match o with
  | None | Some JNull => None
  | Some v => field v k
  end.

Definition opt_index0 (o : option JSON) : option JSON :=
  match o with
  | None | Some JNull => None
  | Some v => first v
  end.

(** [o || d]. *)
Definition or_else (o : option JSON) (d : JSON) : JSON :=
  match o with
  | Some v => if truthy v then v else d
  | None => d
  end.

(** [Array.isArray(o)]. *)
Definition isArray (o : option JSON) : bool :=
  match o with
  | Some (JArr _) => true
  | _ => false
  end.

End Json.

(** ** src/types/chat.ts *)

Inductive Role : Type := user | assistant | system.

#[global] Instance Role_eq_dec : EqDecision Role.
Proof. solve_decision. Defined.

Module Message.
Record t : Type := mk {
  id : string;
  role : Role;
  content : string;
  timestamp : Z
}.
End Message.

Module Chat.
Record t : Type := mk {
  id : string;
  title : string;
  messages : list Message.t;
  createdAt : Z;
  updatedAt : Z;
  pinned : bool;
  archived : bool
}.

(** [{ ...c, title }], [{ ...c, messages, updatedAt }] and the like. *)
Definition with_title (v : string) (c : t) : t :=
  mk (id c) v (messages c) (createdAt c) (updatedAt c) (pinned c) (archived c).
Definition with_messages (v : list Message.t) (c : t) : t :=
  mk (id c) (title c) v (createdAt c) (updatedAt c) (pinned c) (archived c).
Definition with_updatedAt (v : Z) (c : t) : t :=
  mk (id c) (title c) (messages c) (createdAt c) v (pinned c) (archived c).
Definition with_pinned (v : bool) (c : t) : t :=
  mk (id c) (title c) (messages c) (createdAt c) (updatedAt c) v (archived c).
Definition with_archived (v : bool) (c : t) : t :=
  mk (id c) (title c) (messages c) (createdAt c) (updatedAt c) (pinned c) v.
End Chat.

(** An [AbortController] object, named by its allocation number. *)
Definition AbortController : Type := nat.

Record ChatState : Type := mkChatState {
  isLoading : bool;
  streamingContent : string;
  abortController : option AbortController
}.

(** [Partial<ChatState>]: the fields an update carries. *)
Record PartialChatState : Type := mkPartial {
  set_isLoading : option bool;
  set_streamingContent : option string;
  set_abortController : option (option AbortController)
}.

Module MemoryItem.
Record t : Type := mk { id : string; content : string; createdAt : Z }.
End MemoryItem.

Inductive Theme : Type := light | dark.

(** [temperature] is a floating-point number in the source; it is only
    forwarded to the endpoint and is kept here as a rational. *)
Record Settings : Type := mkSettings {
  systemPrompt : string;
  temperature : Q;
  maxTokens : Z;
  streamingEnabled : bool;
  baseUrl : string;
  useMemory : bool;
  theme : Theme
}.

(** ** The event-stream decoder

    [handleStreamingResponse] exists twice in the sources, in
    src/lib/api.ts and in the backend client (lib/backendApi).  The two
    copies read the text fragment out of a parsed frame by different
    expressions and are otherwise the same loop, which is embedded once,
    over that expression.  Chunks are taken after [TextDecoder] has
    decoded them. *)

Module Decoder.
Import Json.

(** What the network delivers to a suspended request. *)
Inductive NetEvent : Type :=
| Fails (e : Js.Error)                    (* the awaited promise rejects *)
| Responds (status : Z) (hasBody : bool)  (* [fetch] resolves; [hasBody]: [response.body] is not null *)
| Body (text : string)                    (* [response.json()]: the body has been read *)
| Chunk (text : string)                   (* [reader.read()] yields a decoded chunk *)
| Done.                                   (* [reader.read()] reports the end of the stream *)

Section Loop.

Context {S : Type}.

(** The fragment carried by a parsed frame, evaluated inside the [try]:
    [None] when the evaluation throws or yields [undefined]. *)
Variable content : JSON -> option JSON.

(** The optional per-delta callback, acting on the caller's state. *)
Variable onStream : option (string -> S -> S).

(** [onStream?.(fullContent)]. *)
Definition notify (fullContent : string) (s : S) : S :=
  match onStream with
  | Some f => f fullContent s
  | None => s
  end.

(** Body of the [for (const line of lines)] loop. *)
Definition processLine (st : string * S) (line : string) : string * S :=
  let '(fullContent, s) := st in
  if Js.startsWith "data: " line then
    let data := Js.trim (Js.slice_from 6 line) in
    if String.eqb data "[DONE]" then st
    else
      match JSON_parse data with
      | None => st
      | Some parsed =>
          match content parsed with
          | None => st
          | Some c =>
              if truthy c then
                let fullContent' := fullContent +:+ toString c in
                (fullContent', notify fullContent' s)
              else st
          end
      end
  else st.

(** Body of the [while (true)] loop once a chunk has been read. *)
Definition processChunk (fullContent buffer value : string) (s : S)
  : string * string * S :=
  let buffer := buffer +:+ value in
  let lines := Js.split_lines buffer in
  let buffer' := List.last lines EmptyString in
  let lines' := List.removelast lines in
  let '(fullContent', s') := fold_left processLine lines' (fullContent, s) in
  (fullContent', buffer', s').

(** One turn of the reading loop: [reader.read()] has settled with [ev].
    [inl] carries [fullContent] and [buffer] into the next turn, [inr] is
    the settlement of [handleStreamingResponse].  An event that a read
    cannot receive leaves the loop suspended. *)
Definition read_step (fullContent buffer : string) (ev : NetEvent) (s : S)
  : (string * string + Js.Result string) * S :=
  match ev with
  | Chunk value =>
      let '(fullContent', buffer', s') := processChunk fullContent buffer value s in
      (inl (fullContent', buffer'), s')
  | Done => (inr (inr fullContent), s)
  | Fails error => (inr (inl error), s)
  | _ => (inl (fullContent, buffer), s)
  end.

(** The loop driven by a script of events: [inl] when the script ends
    with the loop still awaiting a read. *)
Fixpoint read_loop (fullContent buffer : string) (evs : list NetEvent) (s : S)
  : (string * string + Js.Result string) * S :=
  match evs with
  | [] => (inl (fullContent, buffer), s)
  | ev :: evs' =>
      match read_step fullContent buffer ev s with
      | (inl (fullContent', buffer'), s') => read_loop fullContent' buffer' evs' s'
      | (inr r, s') => (inr r, s')
      end
  end.

Definition handleStreamingResponse (evs : list NetEvent) (s : S)
  : (string * string + Js.Result string) * S :=
  read_loop EmptyString EmptyString evs s.

End Loop.

End Decoder.

(** ** The backend client: the fragment read by its decoder *)

Module BackendApi.
Import Json.

(** [parsed.content].  The test of [parsed.error] that follows it in
    the source throws inside the same [try], whose [catch] clause is
    empty: it changes neither the text nor the callbacks. *)
Definition content (parsed : JSON) : option JSON :=
  match member (Some parsed) "content" with
  | inl _ => None
  | inr c => c
  end.

Definition handleStreamingResponse {S : Type} (onStream : option (string -> S -> S)) :=
  Decoder.handleStreamingResponse content onStream.

End BackendApi.

(** ** src/lib/api.ts *)

Module Api.
Import Json.
Export Decoder.

(** An entry of the [messages] array of the request. *)
Inductive ApiRole : Type := api_system | api_role (r : Role).

Record ApiMessage : Type := mkApiMessage { api_role_of : ApiRole; api_content : string }.

(** The request issued by [fetch]: its URL and the body that is
    serialised into it. *)
Record Request : Type := mkRequest {
  url : string;
  model : string;
  req_messages : list ApiMessage;
  req_temperature : Q;
  max_tokens : Z;
  stream : bool
}.

Definition buildSystemPrompt (settings : Settings) (memory : list MemoryItem.t) : string :=
  let systemPrompt := systemPrompt settings in
  if useMemory settings && (0 <? length memory)%nat then
    let memorySection :=
      Js.join (String Js.newline EmptyString)
        (List.map (fun m => "- " +:+ MemoryItem.content m) memory) in
    systemPrompt +:+ String Js.newline (String Js.newline EmptyString)
      +:+ "MEMORY (facts about the user):" +:+ String Js.newline EmptyString
      +:+ memorySection
  else systemPrompt.

(** The synchronous prefix of [sendMessage]: the request handed to
    [fetch]. *)
Definition request (messages : list Message.t) (settings : Settings)
    (memory : list MemoryItem.t) : Request :=
  let systemPrompt := buildSystemPrompt settings memory in
  let apiMessages :=
    mkApiMessage api_system systemPrompt
      :: List.map (fun m => mkApiMessage (api_role (Message.role m)) (Message.content m))
           messages in
  mkRequest (baseUrl settings +:+ "/v1/chat/completions") "local" apiMessages
    (temperature settings) (maxTokens settings) (streamingEnabled settings).

(** The await at which [sendMessage] is suspended, with the live local
    variables of [handleStreamingResponse]. *)
Inductive Await : Type :=
| AwaitFetch
| AwaitJson
| AwaitRead (fullContent buffer : string).

(** An aborted signal rejects the pending operation with an
    [AbortError], whatever the network was about to deliver. *)
Definition settle (signalAborted : bool) (ev : NetEvent) : NetEvent :=
  if signalAborted then Fails Js.AbortError else ev.

(** [response.ok]. *)
Definition ok (status : Z) : bool := (200 <=? status) && (status <=? 299).

(** The [catch] clause of [sendMessage]. *)
Definition rethrow (error : Js.Error) : Js.Error :=
  if String.eqb (Js.name error) "AbortError" then Js.newError "Request cancelled"
  else error.

(** [data.choices[0]?.message?.content || ''].  The source declares the
    value a string; a truthy value of another type is recorded by its
    string conversion. *)
Definition completionText (data : JSON) : Js.Result string :=
  match member (Some data) "choices" with
  | inl e => inl e
  | inr choices =>
      match index0 choices with
      | inl e => inl e
      | inr choice =>
          inr (toString
                 (or_else (opt_member (opt_member choice "message") "content")
                    (JStr EmptyString)))
      end
  end.

(** [parsed.choices?.[0]?.delta?.content || '']. *)
Definition deltaContent (parsed : JSON) : option JSON :=
  match member (Some parsed) "choices" with
  | inl _ => None
  | inr choices =>
      Some (or_else (opt_member (opt_member (opt_index0 choices) "delta") "content")
              (JStr EmptyString))
  end.

Section Client.

Context {S : Type}.
Variable onStream : option (string -> S -> S).

Definition handleStreamingResponse (evs : list NetEvent) (s : S)
  : (string * string + Js.Result string) * S :=
  Decoder.handleStreamingResponse deltaContent onStream evs s.

(** One resumption of [sendMessage]: the awaited promise has settled
    with [ev].  The result is the next await or the settlement of
    [sendMessage] itself; every exception passes through the [catch]
    clause.  An event that the current await cannot receive leaves the
    call suspended. *)
Definition sendMessage_step (settings : Settings) (a : Await) (ev : NetEvent) (s : S)
  : (Await + Js.Result string) * S :=
  match a, ev with
  | AwaitFetch, Fails error => (inr (inl (rethrow error)), s)
  | AwaitFetch, Responds status hasBody =>
      if negb (ok status) then
        (inr (inl (rethrow (Js.newError ("HTTP error! status: " +:+ pretty status)))), s)
      else if streamingEnabled settings && hasBody then
        (inl (AwaitRead EmptyString EmptyString), s)
      else (inl AwaitJson, s)
  | AwaitJson, Fails error => (inr (inl (rethrow error)), s)
  | AwaitJson, Body text =>
      match JSON_parse text with
      | None =>
          (inr (inl (rethrow (Js.SyntaxError "Unexpected token in JSON"))), s)
      | Some data =>
          match completionText data with
          | inl e => (inr (inl (rethrow e)), s)
          | inr text => (inr (inr text), s)
          end
      end
  | AwaitRead fullContent buffer, _ =>
      match read_step deltaContent onStream fullContent buffer ev s with
      | (inl (fullContent', buffer'), s') => (inl (AwaitRead fullContent' buffer'), s')
      | (inr (inl error), s') => (inr (inl (rethrow error)), s')
      | (inr (inr text), s') => (inr (inr text), s')
      end
  | _, _ => (inl a, s)
  end.

(** [sendMessage] driven by a script of network events: [inl a] when
    the script ends with the call still suspended at [a]. *)
Fixpoint sendMessage_from (settings : Settings) (a : Await) (evs : list NetEvent) (s : S)
  : (Await + Js.Result string) * S :=
  match evs with
  | [] => (inl a, s)
  | ev :: evs' =>
      match sendMessage_step settings a ev s with
      | (inl a', s') => sendMessage_from settings a' evs' s'
      | (inr r, s') => (inr r, s')
      end
  end.

Definition sendMessage (settings : Settings) (evs : list NetEvent) (s : S)
  : (Await + Js.Result string) * S :=
  sendMessage_from settings AwaitFetch evs s.

End Client.

(** *** [checkHealth] *)

(** [v === s] for a string [s]. *)
Definition is_string (v : option JSON) (s : string) : bool :=
  match v with
  | Some (JStr t) => String.eqb t s
  | _ => false
  end.

(** One resumption of [checkHealth]; [inr] is the value its promise
    fulfils with.  Every exception ends in the [catch] clause, which
    returns [false]. *)
Definition checkHealth_step (a : Await) (ev : NetEvent) : Await + bool :=
  match a, ev with
  | AwaitFetch, Fails _ => inr false
  | AwaitFetch, Responds _ _ => inl AwaitJson
  | AwaitJson, Fails _ => inr false
  | AwaitJson, Body text =>
      match JSON_parse text with
      | None => inr false
      | Some data =>
          match member (Some data) "status" with
          | inl _ => inr false
          | inr status => inr (is_string status "ok")
          end
      end
  | _, _ => inl a
  end.

Fixpoint checkHealth_from (a : Await) (evs : list NetEvent) : Await + bool :=
  match evs with
  | [] => inl a
  | ev :: evs' =>
      match checkHealth_step a ev with
      | inl a' => checkHealth_from a' evs'
      | inr r => inr r
      end
  end.

(** [checkHealth] driven by a script of network events. *)
Definition checkHealth (evs : list NetEvent) : Await + bool :=
  checkHealth_from AwaitFetch evs.

End Api.

(** ** The backend client: sending a message *)

Module BackendClient.
Import Json.
Import Api.

(** [data.message?.content || ''], read as [completionText] is. *)
Definition messageText (data : JSON) : Js.Result string :=
  match member (Some data) "message" with
  | inl e => inl e
  | inr message =>
      inr (toString (or_else (opt_member message "content") (JStr EmptyString)))
  end.

Section Client.

Context {S : Type}.
Variable onStream : option (string -> S -> S).

(** One resumption of [sendMessageToBackend], which has no [catch]
    clause: an exception is the rejection of its promise. *)
Definition sendMessageToBackend_step (settings : Settings) (a : Await) (ev : NetEvent) (s : S)
  : (Await + Js.Result string) * S :=
  match a, ev with
  | AwaitFetch, Fails error => (inr (inl error), s)
  | AwaitFetch, Responds status hasBody =>
      if negb (ok status) then (inr (inl (Js.newError "Failed to send message")), s)
      else if streamingEnabled settings && hasBody then
        (inl (AwaitRead EmptyString EmptyString), s)
      else (inl AwaitJson, s)
  | AwaitJson, Fails error => (inr (inl error), s)
  | AwaitJson, Body text =>
      match JSON_parse text with
      | None => (inr (inl (Js.SyntaxError "Unexpected token in JSON")), s)
      | Some data => (inr (messageText data), s)
      end
  | AwaitRead fullContent buffer, _ =>
      match read_step BackendApi.content onStream fullContent buffer ev s with
      | (inl (fullContent', buffer'), s') => (inl (AwaitRead fullContent' buffer'), s')
      | (inr r, s') => (inr r, s')
      end
  | _, _ => (inl a, s)
  end.

Fixpoint sendMessageToBackend_from (settings : Settings) (a : Await)
    (evs : list NetEvent) (s : S) : (Await + Js.Result string) * S :=
  match evs with
  | [] => (inl a, s)
  | ev :: evs' =>
      match sendMessageToBackend_step settings a ev s with
      | (inl a', s') => sendMessageToBackend_from settings a' evs' s'
      | (inr r, s') => (inr r, s')
      end
  end.

Definition sendMessageToBackend (settings : Settings) (evs : list NetEvent) (s : S)
  : (Await + Js.Result string) * S :=
  sendMessageToBackend_from settings AwaitFetch evs s.

End Client.

End BackendClient.

(** ** The state the hook and its collaborators act on *)

(** The three generation operations of the hook share the code that
    runs after [await sendMessage(...)]; [Op] tells them apart. *)
Inductive Op : Type := OpSend | OpRegenerate | OpEdit.

Record World : Type := mkWorld {
  chats : list Chat.t;                             (* [useState<Chat[]>] *)
  chatStates : gmap string ChatState;              (* [useState<Map<string, ChatState>>] *)
  abortControllers : gmap string AbortController;  (* [abortControllersRef.current] *)
  aborted : gset AbortController;                  (* controllers whose signal is aborted *)
  nextController : AbortController;                (* allocation counter of [new AbortController()] *)
  localStorage : gmap string (list Chat.t);        (* the entries written by [saveChats] *)
  console : list (string * Js.Error);              (* [console.error] *)
  fetched : list Api.Request;                      (* requests handed to [fetch] *)
  ids : nat -> string;                             (* the values [generateId()] returns, in order *)
  idsDrawn : nat;
  clock : nat -> Z;                                (* the values [Date.now()] returns, in order *)
  clockReads : nat
}.

Definition set_chats (v : list Chat.t) (w : World) : World :=
  mkWorld v (chatStates w) (abortControllers w) (aborted w) (nextController w)
    (localStorage w) (console w) (fetched w) (ids w) (idsDrawn w) (clock w) (clockReads w).
Definition set_chatStates (v : gmap string ChatState) (w : World) : World :=
  mkWorld (chats w) v (abortControllers w) (aborted w) (nextController w)
    (localStorage w) (console w) (fetched w) (ids w) (idsDrawn w) (clock w) (clockReads w).
Definition set_abortControllers (v : gmap string AbortController) (w : World) : World :=
  mkWorld (chats w) (chatStates w) v (aborted w) (nextController w)
    (localStorage w) (console w) (fetched w) (ids w) (idsDrawn w) (clock w) (clockReads w).
Definition set_aborted (v : gset AbortController) (w : World) : World :=
  mkWorld (chats w) (chatStates w) (abortControllers w) v (nextController w)
    (localStorage w) (console w) (fetched w) (ids w) (idsDrawn w) (clock w) (clockReads w).
Definition set_nextController (v : AbortController) (w : World) : World :=
  mkWorld (chats w) (chatStates w) (abortControllers w) (aborted w) v
    (localStorage w) (console w) (fetched w) (ids w) (idsDrawn w) (clock w) (clockReads w).
Definition set_localStorage (v : gmap string (list Chat.t)) (w : World) : World :=
  mkWorld (chats w) (chatStates w) (abortControllers w) (aborted w) (nextController w)
    v (console w) (fetched w) (ids w) (idsDrawn w) (clock w) (clockReads w).
Definition set_console (v : list (string * Js.Error)) (w : World) : World :=
  mkWorld (chats w) (chatStates w) (abortControllers w) (aborted w) (nextController w)
    (localStorage w) v (fetched w) (ids w) (idsDrawn w) (clock w) (clockReads w).
Definition set_fetched (v : list Api.Request) (w : World) : World :=
  mkWorld (chats w) (chatStates w) (abortControllers w) (aborted w) (nextController w)
    (localStorage w) (console w) v (ids w) (idsDrawn w) (clock w) (clockReads w).
Definition set_idsDrawn (v : nat) (w : World) : World :=
  mkWorld (chats w) (chatStates w) (abortControllers w) (aborted w) (nextController w)
    (localStorage w) (console w) (fetched w) (ids w) v (clock w) (clockReads w).
Definition set_clockReads (v : nat) (w : World) : World :=
  mkWorld (chats w) (chatStates w) (abortControllers w) (aborted w) (nextController w)
    (localStorage w) (console w) (fetched w) (ids w) (idsDrawn w) (clock w) v.

(** Computations on the world. *)
Definition M (A : Type) : Type := World -> A * World.

#[global] Instance M_ret : MRet M := fun A a w => (a, w).
#[global] Instance M_bind : MBind M :=
  fun A B k m w => let '(a, w') := m w in k a w'.
#[global] Instance M_fmap : FMap M :=
  fun A B f m w => let '(a, w') := m w in (f a, w').

Definition gets {A : Type} (f : World -> A) : M A := fun w => (f w, w).
Definition modify (f : World -> World) : M unit := fun w => (tt, f w).
Definition exec {A : Type} (m : M A) (w : World) : World := snd (m w).
Definition eval {A : Type} (m : M A) (w : World) : A := fst (m w).

(** [Date.now()]. *)
Definition Date_now : M Z :=
  fun w => (clock w (clockReads w), set_clockReads (S (clockReads w)) w).

(** [console.error(label, error)]. *)
Definition console_error (label : string) (error : Js.Error) : M unit :=
  modify (fun w => set_console (console w ++ [(label, error)]) w).

(** [new AbortController()]. *)
Definition new_AbortController : M AbortController :=
  fun w => (nextController w, set_nextController (S (nextController w)) w).

(** [controller.abort()]. *)
Definition abort (controller : AbortController) : M unit :=
  modify (fun w => set_aborted ({[controller]} ∪ aborted w) w).

(** ** src/lib/storage.ts *)

Module Storage.

Definition getStorageKey (profileId key : string) : string :=
  "chatgpt_clone_" +:+ profileId +:+ "_" +:+ key.

(** The chats are stored as their JSON text; the embedding keeps the
    value that text denotes. *)
Definition getChats (profileId : string) : M (list Chat.t) :=
  gets (fun w => default [] (localStorage w !! getStorageKey profileId "chats")).

Definition saveChats (profileId : string) (chats : list Chat.t) : M unit :=
  modify (fun w =>
    set_localStorage (<[getStorageKey profileId "chats" := chats]> (localStorage w)) w).

(** [Date.now().toString(36) + Math.random().toString(36).substr(2)]:
    the next value of the identifier supply. *)
Definition generateId : M string :=
  fun w => (ids w (idsDrawn w), set_idsDrawn (S (idsDrawn w)) w).

(** [slice] and [length] count UTF-16 code units and [trim] removes
    the Unicode white space; on the embedded strings they count bytes and
    remove the ASCII white space, which is the same for a message of
    ASCII characters. *)
Definition generateChatTitle (firstMessage : string) : string :=
  let cleaned := Js.slice_to 50 (Js.trim firstMessage) in
  if (String.length cleaned <? String.length (Js.trim firstMessage))%nat
  then cleaned +:+ "..." else cleaned.

End Storage.

(** ** src/hooks/useChatManager.ts *)

Module ChatManager.
Import Storage.

(** A generation operation suspended at [await sendMessage(...)]: the
    local variables its continuation reads, and the await inside
    [sendMessage] at which the request stands. *)
Record Task : Type := mkTask {
  task_op : Op;
  task_chatId : string;           (* [targetChatId], [chatId] *)
  task_chat : Chat.t;             (* [chat], [updatedChat] *)
  task_newChats : list Chat.t;    (* [newChats] *)
  task_controller : AbortController;
  task_await : Api.Await
}.

Definition with_await (a : Api.Await) (t : Task) : Task :=
  mkTask (task_op t) (task_chatId t) (task_chat t) (task_newChats t)
    (task_controller t) a.

(** [Array.prototype.findIndex]. *)
Fixpoint findIndex {A : Type} (p : A -> bool) (l : list A) : option nat :=
  match l with
  | [] => None
  | x :: rest => if p x then Some O else S <$> findIndex p rest
  end.

(** The index found by the downward loop of [regenerateLastResponse]:
    the last position whose element satisfies [p]. *)
Fixpoint findLastIndex {A : Type} (p : A -> bool) (l : list A) : option nat :=
  match l with
  | [] => None
  | x :: rest =>
      match findLastIndex p rest with
      | Some j => Some (S j)
      | None => if p x then Some O else None
      end
  end.

(** [chats.find(c => c.id === chatId)]. *)
Definition findChat (chatId : string) (chats : list Chat.t) : option Chat.t :=
  List.find (fun c => String.eqb (Chat.id c) chatId) chats.

(** [chatId ? chats.find(c => c.id === chatId) : null]: [None] is
    [null], and the empty string is falsy as well. *)
Definition lookupChat (chatId : option string) (chats : list Chat.t) : option Chat.t :=
  match chatId with
  | Some id => if String.eqb id EmptyString then None else findChat id chats
  | None => None
  end.

(** [chats.map(c => c.id === chat.id ? chat : c)]. *)
Definition replaceChat (chat : Chat.t) (chats : list Chat.t) : list Chat.t :=
  List.map (fun c => if String.eqb (Chat.id c) (Chat.id chat) then chat else c) chats.

Definition idle : ChatState := mkChatState false EmptyString None.

(** [{ ...current, ...update }]. *)
Definition merge (current : ChatState) (update : PartialChatState) : ChatState :=
  mkChatState
    (default (isLoading current) (set_isLoading update))
    (default (streamingContent current) (set_streamingContent update))
    (default (abortController current) (set_abortController update)).

(** [{ isLoading: true, streamingContent: '' }] and its siblings. *)
Definition loadingUpdate : PartialChatState :=
  mkPartial (Some true) (Some EmptyString) None.
Definition idleUpdate : PartialChatState :=
  mkPartial (Some false) (Some EmptyString) None.
Definition streamUpdate (content : string) : PartialChatState :=
  mkPartial None (Some content) None.

Definition label (op : Op) : string :=
  match op with
  | OpSend => "Error sending message:"
  | OpRegenerate => "Error regenerating:"
  | OpEdit => "Error editing and resending:"
  end.

Section Hook.

Variable profileId : string.
Variable settings : Settings.
Variable memory : list MemoryItem.t.

Definition getChatState (chatId : string) (w : World) : ChatState :=
  default idle (chatStates w !! chatId).

Definition updateChatState (chatId : string) (update : PartialChatState) : M unit :=
  modify (fun w =>
    let prev := chatStates w in
    let current := default idle (prev !! chatId) in
    set_chatStates (<[chatId := merge current update]> prev) w).

Definition persistChats (newChats : list Chat.t) : M unit :=
  modify (set_chats newChats);;
  saveChats profileId newChats.

Definition getChat (chatId : string) (w : World) : option Chat.t :=
  findChat chatId (chats w).


Definition createNewChat : M Chat.t :=
  id ← generateId;
  createdAt ← Date_now;
  updatedAt ← Date_now;
  let newChat := Chat.mk id "New chat" [] createdAt updatedAt false false in
  chats ← gets chats;
  persistChats (newChat :: chats);;
  mret newChat.

Definition deleteChat (chatId : string) : M unit :=
  controller ← gets (fun w => abortControllers w !! chatId);
  match controller with
  | Some controller =>
      abort controller;;
      modify (fun w => set_abortControllers (delete chatId (abortControllers w)) w)
  | None => mret tt
  end;;
  chats ← gets chats;
  persistChats (List.filter (fun c => negb (String.eqb (Chat.id c) chatId)) chats);;
  modify (fun w => set_chatStates (delete chatId (chatStates w)) w).

(** [chats.map(c => c.id === chatId ? f(c, Date.now()) : c)]: the clock
    is read once for every chat that matches. *)
Fixpoint mapMatching (chatId : string) (f : Chat.t -> Z -> Chat.t) (chats : list Chat.t)
  : M (list Chat.t) :=
  match chats with
  | [] => mret []
  | c :: rest =>
      c' ← (if String.eqb (Chat.id c) chatId
            then now ← Date_now; mret (f c now)
            else mret c);
      rest' ← mapMatching chatId f rest;
      mret (c' :: rest')
  end.

Definition renameChat (chatId newTitle : string) : M unit :=
  chats ← gets chats;
  newChats ← mapMatching chatId
    (fun c now => Chat.with_updatedAt now (Chat.with_title newTitle c)) chats;
  persistChats newChats.

Definition togglePinChat (chatId : string) : M unit :=
  chats ← gets chats;
  newChats ← mapMatching chatId
    (fun c now => Chat.with_updatedAt now (Chat.with_pinned (negb (Chat.pinned c)) c)) chats;
  persistChats newChats.

Definition toggleArchiveChat (chatId : string) : M unit :=
  chats ← gets chats;
  newChats ← mapMatching chatId
    (fun c now => Chat.with_updatedAt now (Chat.with_archived (negb (Chat.archived c)) c)) chats;
  persistChats newChats.

Definition deleteMessage (chatId messageId : string) : M unit :=
  chats ← gets chats;
  newChats ← mapMatching chatId
    (fun c now =>
       Chat.with_updatedAt now
         (Chat.with_messages
            (List.filter (fun m => negb (String.eqb (Message.id m) messageId))
               (Chat.messages c)) c)) chats;
  persistChats newChats.

(** The lines shared by the three generation operations between
    [persistChats(newChats)] and the await: the controller is created and
    registered, the session marked loading, and [sendMessage] called,
    which hands its request to [fetch] and suspends. *)
Definition launch (op : Op) (chatId : string) (chat : Chat.t) (newChats : list Chat.t)
    (messages : list Message.t) : M Task :=
  abortController ← new_AbortController;
  modify (fun w =>
    set_abortControllers (<[chatId := abortController]> (abortControllers w)) w);;
  updateChatState chatId loadingUpdate;;
  modify (fun w => set_fetched (fetched w ++ [Api.request messages settings memory]) w);;
  mret (mkTask op chatId chat newChats abortController Api.AwaitFetch).

(** [sendUserMessage] up to its await. *)
Definition sendUserMessage_start (chatId : option string) (content : string) : M Task :=
  chats ← gets chats;
  '(chat, newChats, targetChatId) ←
    match lookupChat chatId chats, chatId with
    | Some chat, Some id => mret (chat, chats, id)
    | _, _ =>
        id ← generateId;
        createdAt ← Date_now;
        updatedAt ← Date_now;
        let chat := Chat.mk id (generateChatTitle content) [] createdAt updatedAt false false in
        mret (chat, chat :: chats, Chat.id chat)
    end;
  id ← generateId;
  timestamp ← Date_now;
  let userMessage := Message.mk id user content timestamp in
  let chat :=
    if (length (Chat.messages chat) =? 0)%nat && String.eqb (Chat.title chat) "New chat"
    then Chat.with_title (generateChatTitle content) chat
    else chat in
  updatedAt ← Date_now;
  let chat :=
    Chat.with_updatedAt updatedAt
      (Chat.with_messages (Chat.messages chat ++ [userMessage]) chat) in
  let newChats := replaceChat chat newChats in
  persistChats newChats;;
  launch OpSend targetChatId chat newChats (Chat.messages chat).

(** [regenerateLastResponse] up to its await; [None] when it returns
    early. *)
Definition regenerateLastResponse_start (chatId : string) : M (option Task) :=
  chats ← gets chats;
  match findChat chatId chats with
  | None => mret None
  | Some chat =>
      if (length (Chat.messages chat) <? 2)%nat then mret None
      else
        match findLastIndex (fun m => bool_decide (Message.role m = assistant))
                (Chat.messages chat) with
        | None => mret None
        | Some lastAssistantIndex =>
            let messagesWithoutLast := take lastAssistantIndex (Chat.messages chat) in
            updatedAt ← Date_now;
            let updatedChat :=
              Chat.with_updatedAt updatedAt (Chat.with_messages messagesWithoutLast chat) in
            let newChats := replaceChat updatedChat chats in
            persistChats newChats;;
            Some <$> launch OpRegenerate chatId updatedChat newChats messagesWithoutLast
        end
  end.

(** [editAndResend] up to its await; [None] when it returns early. *)
Definition editAndResend_start (chatId messageId newContent : string) : M (option Task) :=
  chats ← gets chats;
  match findChat chatId chats with
  | None => mret None
  | Some chat =>
      match findIndex (fun m => String.eqb (Message.id m) messageId) (Chat.messages chat) with
      | None => mret None
      | Some messageIndex =>
          match Chat.messages chat !! messageIndex with
          | Some old =>
              if bool_decide (Message.role old = user) then
                let messagesUpToEdit := take messageIndex (Chat.messages chat) in
                timestamp ← Date_now;
                let editedMessage :=
                  Message.mk (Message.id old) (Message.role old) newContent timestamp in
                updatedAt ← Date_now;
                let updatedChat :=
                  Chat.with_updatedAt updatedAt
                    (Chat.with_messages (messagesUpToEdit ++ [editedMessage]) chat) in
                let newChats := replaceChat updatedChat chats in
                persistChats newChats;;
                Some <$> launch OpEdit chatId updatedChat newChats (Chat.messages updatedChat)
              else mret None
          | None => mret None
          end
      end
  end.

(** The continuation after [await sendMessage(...)]: the rest of the
    [try] block when the call fulfils, the [catch] clause when it
    rejects, then the [finally] clause.  The value is the settlement of
    the promise the operation returned to its caller: [targetChatId] for
    [sendUserMessage], [undefined] for the two others. *)
Definition resume (t : Task) (r : Js.Result string) : M (Js.Result (option string)) :=
  match r with
  | inr response =>
      id ← generateId;
      timestamp ← Date_now;
      let assistantMessage := Message.mk id assistant response timestamp in
      updatedAt ← Date_now;
      let finalChat :=
        Chat.with_updatedAt updatedAt
          (Chat.with_messages (Chat.messages (task_chat t) ++ [assistantMessage])
             (task_chat t)) in
      persistChats (replaceChat finalChat (task_newChats t))
  | inl error => console_error (label (task_op t)) error
  end;;
  updateChatState (task_chatId t) idleUpdate;;
  modify (fun w => set_abortControllers (delete (task_chatId t) (abortControllers w)) w);;
  mret (inr (match task_op t with
             | OpSend => Some (task_chatId t)
             | _ => None
             end)).

(** The callback handed to [sendMessage]. *)
Definition onStream (t : Task) : option (string -> World -> World) :=
  Some (fun content => exec (updateChatState (task_chatId t) (streamUpdate content))).

(** The network delivers [ev] to the request of [t]: the request takes
    one step, and when [sendMessage] settles the operation runs to its
    end.  [inl] is the operation still suspended. *)
Definition deliver (t : Task) (ev : Decoder.NetEvent)
  : M (Task + Js.Result (option string)) :=
  signalAborted ← gets (fun w => bool_decide (task_controller t ∈ aborted w));
  step ← (fun w =>
    Api.sendMessage_step (onStream t) settings (task_await t)
      (Api.settle signalAborted ev) w);
  match step with
  | inl a => mret (inl (with_await a t))
  | inr r => inr <$> resume t r
  end.

(** An operation driven by a script of network events, no other
    handler running in between. *)
Fixpoint drive (t : Task) (evs : list Decoder.NetEvent)
  : M (Task + Js.Result (option string)) :=
  match evs with
  | [] => mret (inl t)
  | ev :: evs' =>
      r ← deliver t ev;
      match r with
      | inl t' => drive t' evs'
      | inr v => mret (inr v)
      end
  end.

Definition sendUserMessage (chatId : option string) (content : string)
    (evs : list Decoder.NetEvent) : M (Task + Js.Result (option string)) :=
  t ← sendUserMessage_start chatId content;
  drive t evs.

Definition regenerateLastResponse (chatId : string) (evs : list Decoder.NetEvent)
  : M (Task + Js.Result (option string)) :=
  t ← regenerateLastResponse_start chatId;
  match t with
  | Some t => drive t evs
  | None => mret (inr (inr None))
  end.

Definition editAndResend (chatId messageId newContent : string)
    (evs : list Decoder.NetEvent) : M (Task + Js.Result (option string)) :=
  t ← editAndResend_start chatId messageId newContent;
  match t with
  | Some t => drive t evs
  | None => mret (inr (inr None))
  end.

Definition stopGeneration (chatId : string) : M unit :=
  controller ← gets (fun w => abortControllers w !! chatId);
  match controller with
  | Some controller =>
      abort controller;;
      modify (fun w => set_abortControllers (delete chatId (abortControllers w)) w)
  | None => mret tt
  end;;
  updateChatState chatId idleUpdate.

Definition importChat (chatData : Chat.t) : M string :=
  id ← generateId;
  createdAt ← Date_now;
  updatedAt ← Date_now;
  let newChat :=
    Chat.mk id (Chat.title chatData) (Chat.messages chatData) createdAt updatedAt
      (Chat.pinned chatData) (Chat.archived chatData) in
  chats ← gets chats;
  persistChats (newChat :: chats);;
  mret (Chat.id newChat).

End Hook.

End ChatManager.

(** ** src/components/Sidebar.tsx: importing a conversation, grouping the list *)

Module Sidebar.
Import Json.

Fixpoint digits_value (acc : Z) (s : string) : option Z :=
  match s with
  | EmptyString => Some acc
  | String c rest =>
      if is_digit c then digits_value (acc * 10 + (Z.of_nat (nat_of_ascii c) - 48)) rest
      else None
  end.

(** The cast [data as Chat] is unchecked.  The embedding reads every
    field at its declared type: a string where one is declared, the
    integer an integer literal denotes, and the truth value of whatever
    stands in a boolean field; a field that is absent or of another type
    reads as the empty string, as zero, or as [false].  A role other than
    ['user'] and ['assistant'] reads as [system]: the hook compares roles
    with these two only. *)
Definition asString (o : option JSON) : string :=
  match o with
  | Some (JStr s) => s
  | _ => EmptyString
  end.

Definition asNumber (o : option JSON) : Z :=
  match o with
  | Some (JNum lit) =>
      default 0
        (match lit with
         | String "-"%char digits => Z.opp <$> digits_value 0 digits
         | _ => digits_value 0 lit
         end)
  | _ => 0
  end.

Definition asRole (o : option JSON) : Role :=
  match o with
  | Some (JStr s) =>
      if String.eqb s "user" then user
      else if String.eqb s "assistant" then assistant
      else system
  | _ => system
  end.

Definition asMessage (v : JSON) : Message.t :=
  Message.mk (asString (field v "id")) (asRole (field v "role"))
    (asString (field v "content")) (asNumber (field v "timestamp")).

Definition asChat (data : JSON) : Chat.t :=
  Chat.mk (asString (field data "id")) (asString (field data "title"))
    (match field data "messages" with
     | Some (JArr items) => List.map asMessage items
     | _ => []
     end)
    (asNumber (field data "createdAt")) (asNumber (field data "updatedAt"))
    (truthy_opt (field data "pinned")) (truthy_opt (field data "archived")).

Section Props.

(** The [onImportChat] property of the component. *)
Variable onImportChat : Chat.t -> M unit.

(** The [onchange] handler installed by [handleImportChat]; [file] is
    the text of the selected file, [None] when no file was selected. *)
Definition handleImportChat (file : option string) : M unit :=
  match file with
  | None => mret tt
  | Some text =>
      match JSON_parse text with
      | None =>
          console_error "Error importing chat:"
            (Js.SyntaxError "Unexpected token in JSON")
      | Some data =>
          match member (Some data) "messages" with
          | inl error => console_error "Error importing chat:" error
          | inr messages =>
              if truthy_opt messages && isArray messages
              then onImportChat (asChat data)
              else mret tt
          end
      end
  end.

End Props.

(** *** The groups of the list of conversations *)

(** [groups.key.push(chat)]. *)
Definition push (key : string) (chat : Chat.t) (groups : gmap string (list Chat.t))
  : gmap string (list Chat.t) :=
  <[key := groups !!! key ++ [chat]]> groups.

(** [today] is the start of the current day in local time, in
    milliseconds, which the source computes from [new Date()]. *)
Definition groupChatsByDate (today : Z) (chats : list Chat.t) : gmap string (list Chat.t) :=
  let yesterday := today - 86400000 in
  let lastWeek := today - 7 * 86400000 in
  let groups : gmap string (list Chat.t) :=
    {["pinned" := []; "today" := []; "yesterday" := []; "lastWeek" := []; "older" := [];
      "archived" := []]} in
  fold_left
    (fun groups chat =>
       if Chat.archived chat then push "archived" chat groups
       else if Chat.pinned chat then push "pinned" chat groups
       else if today <=? Chat.updatedAt chat then push "today" chat groups
       else if yesterday <=? Chat.updatedAt chat then push "yesterday" chat groups
       else if lastWeek <=? Chat.updatedAt chat then push "lastWeek" chat groups
       else push "older" chat groups)
    chats groups.

End Sidebar.

(** ** The application: handlers interleaved with network events *)

Module App.
Import ChatManager.

(** The manager's world together with the operations in flight, each
    named by the controller it created. *)
Record System : Type := mkSystem {
  world : World;
  tasks : gmap AbortController Task
}.

Inductive Event : Type :=
| Send (chatId : option string) (content : string)
| Stop (chatId : string)
| Regenerate (chatId : string)
| EditAndResend (chatId messageId newContent : string)
| DeleteMessage (chatId messageId : string)
| DeleteChat (chatId : string)
| NewChat
| Rename (chatId newTitle : string)
| TogglePin (chatId : string)
| ToggleArchive (chatId : string)
| ImportFile (file : option string)
| Net (task : AbortController) (ev : Decoder.NetEvent).

Section Run.

Variable profileId : string.
Variable settings : Settings.
Variable memory : list MemoryItem.t.

(** The [onImportChat] handler of [ChatApp]; the selection of the new
    conversation in the split view is outside the embedding. *)
Definition onImportChat (chat : Chat.t) : M unit :=
  _ ← importChat profileId chat; mret tt.

Definition only_world (m : M unit) (sys : System) : System :=
  mkSystem (exec m (world sys)) (tasks sys).

Definition start (m : M (option Task)) (sys : System) : System :=
  match m (world sys) with
  | (Some t, w) => mkSystem w (<[task_controller t := t]> (tasks sys))
  | (None, w) => mkSystem w (tasks sys)
  end.

(** Every handler runs to its next await before another one starts. *)
Definition step (sys : System) (e : Event) : System :=
  match e with
  | Send chatId content =>
      start (Some <$> sendUserMessage_start profileId settings memory chatId content) sys
  | Regenerate chatId =>
      start (regenerateLastResponse_start profileId settings memory chatId) sys
  | EditAndResend chatId messageId newContent =>
      start (editAndResend_start profileId settings memory chatId messageId newContent) sys
  | Stop chatId => only_world (stopGeneration chatId) sys
  | DeleteMessage chatId messageId => only_world (deleteMessage profileId chatId messageId) sys
  | DeleteChat chatId => only_world (deleteChat profileId chatId) sys
  | NewChat => only_world (_ ← createNewChat profileId; mret tt) sys
  | Rename chatId newTitle => only_world (renameChat profileId chatId newTitle) sys
  | TogglePin chatId => only_world (togglePinChat profileId chatId) sys
  | ToggleArchive chatId => only_world (toggleArchiveChat profileId chatId) sys
  | ImportFile file => only_world (Sidebar.handleImportChat onImportChat file) sys
  | Net c ev =>
      match tasks sys !! c with
      | None => sys
      | Some t =>
          match deliver profileId settings t ev (world sys) with
          | (inl t', w) => mkSystem w (<[c := t']> (tasks sys))
          | (inr _, w) => mkSystem w (delete c (tasks sys))
          end
      end
  end.

Definition run (sys : System) (es : list Event) : System := fold_left step es sys.

End Run.

End App.

(** * Definitions used by the statements *)

(** The messages of a conversation as the presentation layer reads
    them through [getChat]; none when the conversation does not exist. *)
Definition messagesOf (chatId : string) (w : World) : list Message.t :=
  from_option Chat.messages [] (ChatManager.getChat chatId w).

(** A callback that records every value it is called with. *)
Definition recording : option (string -> list string -> list string) :=
  Some (fun content trace => (trace ++ [content])%list).

(** [next] extends [prev] at its end. *)
Definition extends (prev next : string) : Prop :=
  exists delta : string, next = prev +:+ delta.

(** Each recorded value extends the one before it. *)
Definition chain (trace : list string) : Prop :=
  forall (i : nat) (prev next : string),
    trace !! i = Some prev -> trace !! S i = Some next -> extends prev next.

(** The loop invariant: the trace is a chain and its last value, if
    any, is the text accumulated so far; [start] is the text the loop
    started from. *)
Definition tracked (start : string) (st : string * list string) : Prop :=
  chain st.2 /\ List.last st.2 start = st.1.

(** The parts of the world a streamed delta does not touch. *)
Definition durable (w : World) :=
  (chats w, localStorage w, abortControllers w, aborted w, console w).

(** The messages the conversation of a send holds before the send:
    those of the conversation found, none for a conversation the send
    creates. *)
Definition priorMessages (chatId : option string) (w : World) : list Message.t :=
  from_option Chat.messages [] (ChatManager.lookupChat chatId (chats w)).

(** [removed], at index [i], is the most recent assistant message. *)
Definition LastAssistant (messages : list Message.t) (i : nat) (removed : Message.t) : Prop :=
  messages !! i = Some removed
  /\ Message.role removed = assistant
  /\ forall (j : nat) (m : Message.t),
       (i < j)%nat -> messages !! j = Some m -> Message.role m <> assistant.

(** [old], at index [i], is the first message with identifier
    [messageId]. *)
Definition FirstWithId (messageId : string) (messages : list Message.t) (i : nat)
    (old : Message.t) : Prop :=
  messages !! i = Some old
  /\ Message.id old = messageId
  /\ forall (j : nat) (m : Message.t),
       (j < i)%nat -> messages !! j = Some m -> Message.id m <> messageId.

(** [t] is an operation on [chatId] just launched from [w], suspended
    at its [fetch] in [w1]: it created the next controller and registered
    it, it captured the list of conversations now in the store, in which
    its conversation is found, and the session is loading with no
    streamed text. *)
Definition Launched (op : Op) (chatId : string) (w w1 : World) (t : ChatManager.Task)
  : Prop :=
  ChatManager.task_op t = op
  /\ ChatManager.task_chatId t = chatId
  /\ ChatManager.task_await t = Api.AwaitFetch
  /\ ChatManager.task_controller t = nextController w
  /\ ChatManager.task_newChats t = chats w1
  /\ ChatManager.getChat chatId w1 = Some (ChatManager.task_chat t)
  /\ abortControllers w1 !! chatId = Some (ChatManager.task_controller t)
  /\ aborted w1 = aborted w
  /\ isLoading (ChatManager.getChatState chatId w1) = true
  /\ streamingContent (ChatManager.getChatState chatId w1) = EmptyString.

(** A line of the event stream whose payload is the sentinel. *)
Definition is_sentinel (line : string) : bool :=
  Js.startsWith "data: " line && String.eqb (Js.trim (Js.slice_from 6 line)) "[DONE]".

(** A session is idle: no controller is registered for it, it is not
    loading and it holds no streamed text. *)
Definition Idle (chatId : string) (w : World) : Prop :=
  abortControllers w !! chatId = None
  /\ isLoading (ChatManager.getChatState chatId w) = false
  /\ streamingContent (ChatManager.getChatState chatId w) = EmptyString.

(** The await [a] receives a failure of the endpoint: a rejection of the
    pending promise, or a response whose status is not a success. *)
Inductive EndpointFailure : Api.Await -> Decoder.NetEvent -> Prop :=
| failure_rejects (a : Api.Await) (e : Js.Error) :
    EndpointFailure a (Decoder.Fails e)
| failure_status (status : Z) (hasBody : bool) :
    Api.ok status = false ->
    EndpointFailure Api.AwaitFetch (Decoder.Responds status hasBody).

(** [w'] results from [w] by steps that leave the list of conversations
    and the store alone or end by persisting the list for the profile. *)
Definition Persisted (profileId : string) (w w' : World) : Prop :=
  (chats w' = chats w /\ localStorage w' = localStorage w)
  \/ localStorage w'
     = <[Storage.getStorageKey profileId "chats" := chats w']> (localStorage w).

(** The controllers of a world: those registered, those aborted and the
    allocation counter. *)
Definition controllers (w : World) :=
  (abortControllers w, aborted w, nextController w).

(** The bookkeeping of controllers is sound: a registered controller
    has been allocated and is not aborted, no controller is registered
    for two conversations, every aborted controller has been allocated,
    and every operation in flight is filed under its own controller, which
    has been allocated. *)
Definition Wellformed (sys : App.System) : Prop :=
  let w := App.world sys in
  (forall (chatId : string) (c : AbortController),
      abortControllers w !! chatId = Some c ->
      (c < nextController w)%nat /\ c ∉ aborted w)
  /\ (forall (chatId1 chatId2 : string) (c : AbortController),
         abortControllers w !! chatId1 = Some c ->
         abortControllers w !! chatId2 = Some c -> chatId1 = chatId2)
  /\ (forall c : AbortController, c ∈ aborted w -> (c < nextController w)%nat)
  /\ (forall (c : AbortController) (t : ChatManager.Task),
         App.tasks sys !! c = Some t ->
         ChatManager.task_controller t = c /\ (c < nextController w)%nat).

(** A start either returns early, leaving the controllers alone, or
    allocates the next controller and registers it for the conversation
    of the operation. *)
Definition started (chatId : option string) (w : World)
    (r : option ChatManager.Task * World) : Prop :=
  match r.1 with
  | None => controllers r.2 = controllers w
  | Some t =>
      ChatManager.task_controller t = nextController w
      /\ (forall id : string, chatId = Some id -> ChatManager.task_chatId t = id)
      /\ controllers r.2
         = (<[ChatManager.task_chatId t := nextController w]> (abortControllers w), aborted w,
            S (nextController w))
  end.



(** The group of the sidebar a conversation is listed in. *)
Definition groupOf (today : Z) (chat : Chat.t) : string :=
  if Chat.archived chat then "archived"
  else if Chat.pinned chat then "pinned"
  else if today <=? Chat.updatedAt chat then "today"
  else if today - 86400000 <=? Chat.updatedAt chat then "yesterday"
  else if today - 7 * 86400000 <=? Chat.updatedAt chat then "lastWeek"
  else "older".

(** The session shows [fullContent] and its loading flag is [loading]. *)
Definition shows (chatId : string) (loading : bool) (fullContent : string) (w : World)
  : Prop :=
  streamingContent (ChatManager.getChatState chatId w) = fullContent
  /\ isLoading (ChatManager.getChatState chatId w) = loading.

(** What the session shows while its request is suspended at [a]: it
    is loading, and the streamed text is the text decoded so far. *)
Definition displayed (chatId : string) (a : Api.Await) (w : World) : Prop :=
  isLoading (ChatManager.getChatState chatId w) = true
  /\ streamingContent (ChatManager.getChatState chatId w)
     = match a with
       | Api.AwaitRead fullContent _ => fullContent
       | _ => EmptyString
       end.

(** A text that stands for itself inside a JSON string literal: no
    quote, no backslash and no control character. *)
Definition literal (text : string) : bool :=
  forallb
    (fun c =>
       negb (Ascii.eqb c Json.dquote) && negb (Ascii.eqb c "\"%char)
       && negb (N_of_ascii c <? 32)%N)
    (list_ascii_of_string text).

(** The state of the caller after the per-delta callback has run for
    the fragments [texts], received after [fullContent]: an empty
    fragment is not announced. *)
Fixpoint announced {S : Type} (onStream : option (string -> S -> S))
    (fullContent : string) (texts : list string) (s : S) : S :=
  match texts with
  | [] => s
  | text :: texts' =>
      if String.eqb text EmptyString then announced onStream fullContent texts' s
      else
        announced onStream (fullContent +:+ text) texts'
          (Decoder.notify onStream (fullContent +:+ text) s)
  end.

(** A text of ASCII characters: its bytes are the UTF-16 code units of
    the JavaScript string, and the white space [trim] removes from it is
    the white space [Js.trim] removes. *)
Definition ascii_text (s : string) : bool :=
  forallb (fun c => (N_of_ascii c <? 128)%N) (list_ascii_of_string s).



(** * Sample inputs *)

Module Sample.
Import ChatManager.

Definition quote : string := String Json.dquote EmptyString.
Definition nl : string := String Js.newline EmptyString.

(** An event of the stream: a data line and the blank line that ends it. *)
Definition frame (payload : string) : string := "data: " +:+ payload +:+ nl +:+ nl.

(** The payload [{"content":"<text>"}] read by the backend decoder. *)
Definition plain (text : string) : string :=
  "{" +:+ quote +:+ "content" +:+ quote +:+ ":" +:+ quote +:+ text +:+ quote +:+ "}".

(** The payload [{"choices":[{"delta":{"content":"<text>"}}]}] read by
    the decoder of src/lib/api.ts. *)
Definition delta (text : string) : string :=
  "{" +:+ quote +:+ "choices" +:+ quote +:+ ":[{" +:+ quote +:+ "delta" +:+ quote
  +:+ ":{" +:+ quote +:+ "content" +:+ quote +:+ ":" +:+ quote +:+ text +:+ quote +:+ "}}]}".

Definition done : string := frame "[DONE]".

Definition streaming : Settings :=
  mkSettings "You are a helpful AI assistant." (7 # 10) 2048 true
    "http://127.0.0.1:8081" true dark.

Definition blocking : Settings :=
  mkSettings "You are a helpful AI assistant." (7 # 10) 2048 false
    "http://127.0.0.1:8081" true dark.

Definition profile : string := "p".

(** A fresh profile: nothing stored, nothing in flight; identifiers
    [id0], [id1], ... and a clock that starts at 1000. *)
Definition w0 : World :=
  mkWorld [] ∅ ∅ ∅ O ∅ [] [] (fun n => "id" +:+ pretty n) O
    (fun n => 1000 + Z.of_nat n) O.

Definition u1 : Message.t := Message.mk "m1" user "Hi" 1.
Definition a1 : Message.t := Message.mk "m2" assistant "Hello" 2.
Definition u2 : Message.t := Message.mk "m3" user "And then?" 3.

(** A profile holding one conversation [c] with the given messages. *)
Definition holding (messages : list Message.t) : World :=
  set_chats [Chat.mk "c" "Hi" messages 1 3 false false] w0.

(** A JSON string literal and a member of an object literal. *)
Definition str (text : string) : string := quote +:+ text +:+ quote.
Definition member (key value : string) : string := str key +:+ ":" +:+ value.

(** An exported conversation with the given [messages] array. *)
Definition exported (messages : string) : string :=
  "{" +:+ member "id" (str "old") +:+ "," +:+ member "title" (str "Trip")
  +:+ "," +:+ member "messages" messages
  +:+ "," +:+ member "createdAt" "1" +:+ "," +:+ member "updatedAt" "3"
  +:+ "," +:+ member "pinned" "false" +:+ "," +:+ member "archived" "false"
  +:+ "," +:+ member "exportedAt" "4" +:+ "}".

(** The message [{"id":"m1","role":"user","content":"Hi","timestamp":1}]. *)
Definition exportedMessage : string :=
  "{" +:+ member "id" (str "m1") +:+ "," +:+ member "role" (str "user")
  +:+ "," +:+ member "content" (str "Hi") +:+ "," +:+ member "timestamp" "1" +:+ "}".

(** A send on the fresh profile, suspended at its await: the operation
    and the world it left. *)
Definition sent : Task * World :=
  sendUserMessage_start profile streaming [] None "Hi" w0.

(** The same send after the response has arrived and a first delta has
    been streamed. *)
Definition midstream : Task * World :=
  match drive profile streaming sent.1
          [Decoder.Responds 200 true; Decoder.Chunk (frame (delta "He"))] sent.2 with
  | (inl t, w) => (t, w)
  | (inr _, w) => (sent.1, w)
  end.

(** Two conversations, each with a send in flight mid-stream. *)
Definition two_sessions : App.System :=
  App.run profile streaming [] (App.mkSystem w0 ∅)
    [App.Send None "first"; App.Send None "second";
     App.Net 0%nat (Decoder.Responds 200 true);
     App.Net 1%nat (Decoder.Responds 200 true);
     App.Net 0%nat (Decoder.Chunk (frame (delta "He")));
     App.Net 1%nat (Decoder.Chunk (frame (delta "Bon")))].

(** The fresh profile after 'New chat' has been pressed: one empty
    conversation [id0], titled 'New chat'. *)
Definition untitled : World := exec (createNewChat profile) w0.

(** A send is stopped and, before the network has answered it, a second
    message is sent in the same conversation: the first operation, under
    controller 0, is aborted and still in flight; the second, under
    controller 1, is the one registered for the conversation. *)
Definition superseded : App.System :=
  App.run profile streaming [] (App.mkSystem w0 ∅)
    [App.Send None "Hi"; App.Stop "id0"; App.Send (Some "id0") "again"].

(** The first of the two operations. *)
Definition stopped : Task := default sent.1 (App.tasks superseded !! 0%nat).

(** The network answers the request under controller [c] with a stream
    that carries [text] and ends. *)
Definition answered (c : AbortController) (text : string) : list App.Event :=
  [App.Net c (Decoder.Responds 200 true);
   App.Net c (Decoder.Chunk (frame (delta text)));
   App.Net c Decoder.Done].

(** The superseded send has ended and the second one streams: the
    first operation, ending, has unregistered controller 1 and marked the
    session idle, and the delta "He" has since arrived for the second,
    which is still in flight. *)
Definition orphaned : App.System :=
  App.run profile streaming [] superseded
    [App.Net 0%nat Decoder.Done;
     App.Net 1%nat (Decoder.Responds 200 true);
     App.Net 1%nat (Decoder.Chunk (frame (delta "He")))].

(** A split view.  Conversation [id0] holds a question and its answer;
    a send on a new conversation, [id3], is in flight under controller 1. *)
Definition split_view : App.System :=
  App.run profile streaming [] (App.mkSystem w0 ∅)
    ([App.Send None "Hi"] ++ answered 0%nat "Hello" ++ [App.Send None "Yo"]).

(** A second question is sent in [id0], under controller 2. *)
Definition asked : App.System :=
  App.step profile streaming [] split_view (App.Send (Some "id0") "And then?").

(** The send of [id3] completes, then the send of [id0] is stopped and
    the network delivers the end of its stream. *)
Definition overtaken : App.System :=
  App.run profile streaming [] asked
    (answered 1%nat "Hey" ++ [App.Stop "id0"; App.Net 2%nat Decoder.Done]).

End Sample.

(** * Properties *)

(** ** Computation rules of the monad *)

Ltac run_m :=
  unfold mbind, M_bind, mret, M_ret, fmap, M_fmap, gets, modify, exec, eval in *;
  cbn [fst snd] in *.

(** ** The decoder leaves alone whatever its callback leaves alone *)

Section DecoderFrame.

Context {S X : Type}.
Variable content : Json.JSON -> option Json.JSON.
Variable onStream : option (string -> S -> S).
Variable obs : S -> X.
Hypothesis obs_notify : forall v s, obs (Decoder.notify onStream v s) = obs s.

Lemma processLine_obs (st : string * S) (line : string) :
  obs (Decoder.processLine content onStream st line).2 = obs st.2.
Proof.
  unfold Decoder.processLine. destruct st as [fullContent s].
  repeat case_match; simpl; auto.
Qed.

Lemma processLines_obs (lines : list string) (st : string * S) :
  obs (fold_left (Decoder.processLine content onStream) lines st).2 = obs st.2.
Proof.
  revert st. induction lines as [|line lines IH]; intros st; simpl; [done|].
  rewrite IH. apply processLine_obs.
Qed.

Lemma processChunk_obs (fullContent buffer value : string) (s : S) :
  obs (Decoder.processChunk content onStream fullContent buffer value s).2 = obs s.
Proof.
  unfold Decoder.processChunk.
  pose proof (processLines_obs
    (removelast (Js.split_lines (buffer +:+ value))) (fullContent, s)) as H.
  destruct (fold_left _ _ _) as [f s']. simpl in *. exact H.
Qed.

Lemma read_step_obs (fullContent buffer : string) (ev : Decoder.NetEvent) (s : S) :
  obs (Decoder.read_step content onStream fullContent buffer ev s).2 = obs s.
Proof.
  unfold Decoder.read_step. destruct ev; simpl; auto.
  pose proof (processChunk_obs fullContent buffer text s) as H.
  destruct (Decoder.processChunk _ _ _ _ _ _) as [[f b] s']. exact H.
Qed.

End DecoderFrame.

Lemma sendMessage_step_obs {S X : Type} (onStream : option (string -> S -> S))
    (obs : S -> X) (settings : Settings) (a : Api.Await) (ev : Decoder.NetEvent) (s : S) :
  (forall v s, obs (Decoder.notify onStream v s) = obs s) ->
  obs (Api.sendMessage_step onStream settings a ev s).2 = obs s.
Proof.
  intros Hn. unfold Api.sendMessage_step.
  destruct a.
  - destruct ev; simpl; auto. repeat case_match; auto.
  - destruct ev; simpl; auto. repeat case_match; auto.
  - pose proof (read_step_obs Api.deltaContent onStream obs Hn fullContent buffer ev s) as H.
    destruct (Decoder.read_step _ _ _ _ _ _) as [[[f b]|[e|t]] s']; exact H.
Qed.

(** ** The session registry *)

Section Registry.

Import ChatManager.

Variable profileId : string.
Variable settings : Settings.
Variable memory : list MemoryItem.t.

Lemma getChatState_updateChatState_ne (A B : string) (update : PartialChatState) (w : World) :
  A <> B ->
  getChatState B (exec (updateChatState A update) w) = getChatState B w.
Proof.
  intros Hne. unfold getChatState, updateChatState. run_m. simpl.
  by rewrite lookup_insert_ne.
Qed.

Lemma getChatState_updateChatState_eq (A : string) (update : PartialChatState) (w : World) :
  getChatState A (exec (updateChatState A update) w) = merge (getChatState A w) update.
Proof.
  unfold getChatState, updateChatState. run_m. simpl.
  by rewrite lookup_insert_eq.
Qed.

Lemma getChatState_onStream_ne (t : Task) (B : string) (v : string) (w : World) :
  task_chatId t <> B ->
  getChatState B (Decoder.notify (onStream t) v w) = getChatState B w.
Proof. intros Hne. simpl. by apply getChatState_updateChatState_ne. Qed.

Lemma getChatState_resume_ne (t : Task) (B : string) (r : Js.Result string) (w : World) :
  task_chatId t <> B ->
  getChatState B (exec (resume profileId t r) w) = getChatState B w.
Proof.
  intros Hne. unfold resume, getChatState, updateChatState, persistChats, console_error,
    Storage.saveChats, Storage.generateId, Date_now.
  destruct r as [error|response]; run_m; simpl; by rewrite lookup_insert_ne.
Qed.

Lemma getChatState_deliver_ne (t : Task) (B : string) (ev : Decoder.NetEvent) (w : World) :
  task_chatId t <> B ->
  getChatState B (exec (deliver profileId settings t ev) w) = getChatState B w.
Proof.
  intros Hne. unfold deliver. run_m.
  pose proof (sendMessage_step_obs (onStream t) (getChatState B) settings (task_await t)
    (Api.settle (bool_decide (task_controller t ∈ aborted w)) ev) w
    (fun v s => getChatState_onStream_ne t B v s Hne)) as Hstep.
  destruct (Api.sendMessage_step _ _ _ _ _) as [[a|r] w']; simpl in *.
  - exact Hstep.
  - rewrite <- Hstep.
    pose proof (getChatState_resume_ne t B r w' Hne) as Hr.
    unfold exec in Hr. destruct (resume profileId t r w') as [v w'']. exact Hr.
Qed.

Lemma getChatState_stopGeneration_ne (A B : string) (w : World) :
  A <> B ->
  getChatState B (exec (stopGeneration A) w) = getChatState B w.
Proof.
  intros Hne. unfold stopGeneration, getChatState, updateChatState, abort. run_m.
  destruct (abortControllers w !! A); simpl; by rewrite lookup_insert_ne.
Qed.

Lemma getChatState_launch_ne (op : Op) (A B : string) (chat : Chat.t)
    (newChats : list Chat.t) (messages : list Message.t) (w : World) :
  A <> B ->
  getChatState B (exec (launch settings memory op A chat newChats messages) w)
  = getChatState B w.
Proof.
  intros Hne. unfold launch, getChatState, updateChatState, new_AbortController. run_m.
  simpl. by rewrite lookup_insert_ne.
Qed.

End Registry.

(** C1.  Updates of the session registry keyed by one conversation are
    invisible through any other identifier: for distinct identifiers [A]
    and [B], [getChatState B] returns the same value before and after a
    registry update on [A], after any step of an operation in flight on
    [A] (each streamed delta, and the clearing of the loading flag when it
    ends), after the launch of an operation on [A] and after
    [stopGeneration A].  With sends in flight on both, whatever the
    network delivers to the one on [A] leaves the state read through [B]
    as it was. *)
Theorem registry_updates_do_not_cross (profileId : string) (settings : Settings)
    (memory : list MemoryItem.t) (A B : string) (w : World) :
  A <> B ->
  (forall update : PartialChatState,
      ChatManager.getChatState B (exec (ChatManager.updateChatState A update) w)
      = ChatManager.getChatState B w)
  /\ (forall (t : ChatManager.Task) (ev : Decoder.NetEvent),
         ChatManager.task_chatId t = A ->
         ChatManager.getChatState B (exec (ChatManager.deliver profileId settings t ev) w)
         = ChatManager.getChatState B w)
  /\ (forall (op : Op) (chat : Chat.t) (newChats : list Chat.t) (messages : list Message.t),
         ChatManager.getChatState B
           (exec (ChatManager.launch settings memory op A chat newChats messages) w)
         = ChatManager.getChatState B w)
  /\ ChatManager.getChatState B (exec (ChatManager.stopGeneration A) w)
     = ChatManager.getChatState B w
  /\ (forall (sys : App.System) (c : AbortController) (t : ChatManager.Task)
             (ev : Decoder.NetEvent),
         App.tasks sys !! c = Some t ->
         ChatManager.task_chatId t = A ->
         ChatManager.getChatState B
           (App.world (App.step profileId settings memory sys (App.Net c ev)))
         = ChatManager.getChatState B (App.world sys)).
Proof.
  intros Hne. repeat split.
  - intros update. by apply getChatState_updateChatState_ne.
  - intros t ev <-. by apply getChatState_deliver_ne.
  - intros op chat newChats messages. by apply getChatState_launch_ne.
  - by apply getChatState_stopGeneration_ne.
  - intros sys c t ev Ht <-. simpl. rewrite Ht.
    pose proof (getChatState_deliver_ne profileId settings t B ev (App.world sys) Hne) as H.
    unfold exec in H.
    by destruct (ChatManager.deliver profileId settings t ev (App.world sys)) as [[t'|v] w'].
Qed.

(** Two sends in flight, [id0] streaming "He" and [id2] streaming
    "Bon": a further delta delivered to the send on [id0] leaves the state
    read through [id2] at its own loading flag and streamed text. *)
Lemma registry_updates_do_not_cross_witness :
  "id0" <> "id2"
  /\ ChatManager.getChatState "id0"
       (App.world
          (App.step Sample.profile Sample.streaming [] Sample.two_sessions
             (App.Net 0%nat (Decoder.Chunk (Sample.frame (Sample.delta "llo"))))))
     = mkChatState true "Hello" None
  /\ ChatManager.getChatState "id2"
       (App.world
          (App.step Sample.profile Sample.streaming [] Sample.two_sessions
             (App.Net 0%nat (Decoder.Chunk (Sample.frame (Sample.delta "llo"))))))
     = mkChatState true "Bon" None.
Proof.
  split; [discriminate|]. split; [vm_compute; reflexivity|].
  assert (exists t : ChatManager.Task,
             App.tasks Sample.two_sessions !! 0%nat = Some t
             /\ ChatManager.task_chatId t = "id0") as (t & Ht & Hid)
    by (eexists; split; vm_compute; reflexivity).
  rewrite (proj2 (proj2 (proj2 (proj2
             (registry_updates_do_not_cross Sample.profile Sample.streaming [] "id0" "id2"
                Sample.w0 ltac:(discriminate)))))
             Sample.two_sessions 0%nat t
             (Decoder.Chunk (Sample.frame (Sample.delta "llo"))) Ht Hid).
  vm_compute. reflexivity.
Defined.

(** ** The values delivered to the per-delta callback *)

Section Trace.

Variable content : Json.JSON -> option Json.JSON.

Lemma chain_snoc (start : string) (trace : list string) (delta : string) :
  chain trace ->
  chain (trace ++ [List.last trace start +:+ delta]).
Proof.
  intros Hc i prev next Hp Hn.
  destruct (decide (S i < length trace)%nat) as [Hlt|Hge].
  - rewrite lookup_app_l in Hp by lia. rewrite lookup_app_l in Hn by lia. eauto.
  - assert (S i = length trace) as Hi.
    { apply lookup_lt_Some in Hn. rewrite length_app in Hn. simpl in Hn. lia. }
    rewrite lookup_app_l in Hp by lia.
    rewrite lookup_app_r in Hn by lia.
    rewrite Hi, Nat.sub_diag in Hn. simpl in Hn. injection Hn as <-.
    exists delta. f_equal.
    destruct trace as [|x trace] using rev_ind; [simpl in Hi; lia|].
    rewrite last_last. rewrite length_app in Hi. simpl in Hi.
    rewrite lookup_app_r in Hp by lia.
    replace (i - length trace)%nat with O in Hp by lia. simpl in Hp. congruence.
Qed.

Lemma processLine_tracked (start : string) (st : string * list string) (line : string) :
  tracked start st -> tracked start (Decoder.processLine content recording st line).
Proof.
  intros [Hc Hl]. unfold Decoder.processLine. destruct st as [fullContent trace].
  simpl in *. repeat case_match; try (split; assumption).
  all: subst fullContent; split; simpl;
    [by apply chain_snoc | by rewrite last_last].
Qed.

Lemma processLines_tracked (start : string) (lines : list string) (st : string * list string) :
  tracked start st ->
  tracked start (fold_left (Decoder.processLine content recording) lines st).
Proof.
  revert st. induction lines as [|line lines IH]; intros st Ht; simpl; [done|].
  apply IH. by apply processLine_tracked.
Qed.

Lemma read_loop_tracked (start : string) (evs : list Decoder.NetEvent)
    (fullContent buffer : string) (trace : list string) :
  tracked start (fullContent, trace) ->
  let '(r, trace') := Decoder.read_loop content recording fullContent buffer evs trace in
  chain trace'
  /\ (forall text : string, r = inr (inr text) -> text = List.last trace' start).
Proof.
  revert fullContent buffer trace.
  induction evs as [|ev evs IH]; intros fullContent buffer trace Ht; simpl.
  - split; [apply Ht | discriminate].
  - destruct ev as [e|status hasBody|text|value|]; simpl;
      try (apply IH; exact Ht).
    + split; [apply Ht | discriminate].
    + unfold Decoder.processChunk.
      pose proof (processLines_tracked start
        (removelast (Js.split_lines (buffer +:+ value))) (fullContent, trace) Ht) as H.
      destruct (fold_left _ _ _) as [f tr]. apply IH. exact H.
    + destruct Ht as [Hc Hl]. simpl in *. split; [exact Hc|].
      intros text [= <-]. by rewrite Hl.
Qed.

End Trace.

Lemma extends_length (prev next : string) :
  extends prev next -> (String.length prev <= String.length next)%nat.
Proof.
  intros [delta ->]. induction prev as [|c prev IH]; simpl; lia.
Qed.

Lemma extends_prefix (prev next : string) :
  extends prev next -> String.prefix prev next = true.
Proof.
  intros [delta ->]. induction prev as [|c prev IH]; simpl.
  - by destruct delta.
  - destruct (Ascii.ascii_dec c c); [exact IH | contradiction].
Qed.

(** C5.  During one streaming generation every value passed to the
    per-delta callback extends the value passed before it (it has the
    previous value as a prefix and is never shorter), and the value
    [handleStreamingResponse] returns is the last value the callback
    received, the empty string when it received none. *)
Theorem streaming_is_monotone (evs : list Decoder.NetEvent) :
  let '(r, trace) := Api.handleStreamingResponse recording evs [] in
  (forall (i : nat) (prev next : string),
      trace !! i = Some prev -> trace !! S i = Some next ->
      extends prev next
      /\ String.prefix prev next = true
      /\ (String.length prev <= String.length next)%nat)
  /\ (forall text : string, r = inr (inr text) -> text = List.last trace EmptyString).
Proof.
  unfold Api.handleStreamingResponse, Decoder.handleStreamingResponse.
  pose proof (read_loop_tracked Api.deltaContent EmptyString evs EmptyString EmptyString []) as H.
  destruct (Decoder.read_loop _ _ _ _ _ _) as [r trace].
  destruct H as [Hc Hr]; [split; [intros i ? ? Hp; by destruct i | done]|].
  split; [|exact Hr].
  intros i prev next Hp Hn. pose proof (Hc i prev next Hp Hn) as He.
  auto using extends_length, extends_prefix.
Qed.

(** On a recorded run: the second value extends the first, and the
    value returned is the last one. *)
Lemma streaming_is_monotone_witness :
  extends "He" "Hello"
  /\ (Api.handleStreamingResponse recording
        [Decoder.Chunk (Sample.frame (Sample.delta "He"));
         Decoder.Chunk (Sample.frame (Sample.delta "llo"));
         Decoder.Done] []).1 = inr (inr "Hello").
Proof.
  pose proof (streaming_is_monotone
    [Decoder.Chunk (Sample.frame (Sample.delta "He"));
     Decoder.Chunk (Sample.frame (Sample.delta "llo"));
     Decoder.Done]) as H.
  vm_compute in H. destruct H as [Hchain Hlast].
  split.
  - exact (proj1 (Hchain O "He" "Hello" eq_refl eq_refl)).
  - vm_compute. reflexivity.
Defined.

(** ** The sentinel *)

Lemma sentinel_line_processLine {S : Type} (content : Json.JSON -> option Json.JSON)
    (onStream : option (string -> S -> S)) (st : string * S) (line : string) :
  is_sentinel line = true ->
  Decoder.processLine content onStream st line = st.
Proof.
  unfold is_sentinel, Decoder.processLine. intros [Hd Hs]%andb_prop.
  destruct st as [fullContent s]. by rewrite Hd, Hs.
Qed.

(** C4, as the code has it.  A data line whose payload is the sentinel
    [[DONE]] is skipped without error: it is not parsed, the callback is
    not called and the accumulated text is unchanged.  Decoding goes on
    with the lines that follow, exactly as if the sentinel line were not
    there, and ends when the stream ends, returning the text accumulated
    so far.  For the frames [{"choices":[{"delta":{"content":"He"}}]}],
    [{"choices":[{"delta":{"content":"llo"}}]}], [[DONE]] the decoder of
    src/lib/api.ts yields "He", then "Hello", and returns "Hello"; the
    backend decoder does so for [{"content":"He"}], [{"content":"llo"}],
    [[DONE]]. *)
Theorem sentinel_is_skipped {S : Type} (content : Json.JSON -> option Json.JSON)
    (onStream : option (string -> S -> S)) (line : string) :
  is_sentinel line = true ->
  (forall st : string * S, Decoder.processLine content onStream st line = st)
  /\ (forall (st : string * S) (before after : list string),
         fold_left (Decoder.processLine content onStream) (before ++ line :: after) st
         = fold_left (Decoder.processLine content onStream) (before ++ after) st)
  /\ (forall (fullContent buffer : string) (s : S),
         Decoder.read_step content onStream fullContent buffer Decoder.Done s
         = (inr (inr fullContent), s))
  /\ Api.handleStreamingResponse recording
       [Decoder.Chunk (Sample.frame (Sample.delta "He"));
        Decoder.Chunk (Sample.frame (Sample.delta "llo"));
        Decoder.Chunk Sample.done; Decoder.Done] []
     = (inr (inr "Hello"), ["He"; "Hello"])
  /\ BackendApi.handleStreamingResponse recording
       [Decoder.Chunk (Sample.frame (Sample.plain "He"));
        Decoder.Chunk (Sample.frame (Sample.plain "llo"));
        Decoder.Chunk Sample.done; Decoder.Done] []
     = (inr (inr "Hello"), ["He"; "Hello"]).
Proof.
  intros Hs. repeat split.
  - intros st. by apply sentinel_line_processLine.
  - intros st before after. rewrite !fold_left_app. simpl.
    by rewrite sentinel_line_processLine.
Qed.

(** The sentinel line of a stream, in the middle of a chunk: the frame
    after it is decoded as if the sentinel were absent. *)
Lemma sentinel_is_skipped_witness :
  is_sentinel "data: [DONE]" = true
  /\ fold_left (Decoder.processLine Api.deltaContent recording)
       (["data: " +:+ Sample.delta "He"] ++ "data: [DONE]" :: ["data: " +:+ Sample.delta "llo"])
       (EmptyString, [])
     = ("Hello", ["He"; "Hello"]).
Proof.
  split; [reflexivity|].
  rewrite (proj1 (proj2 (sentinel_is_skipped Api.deltaContent recording "data: [DONE]"
                           eq_refl))).
  vm_compute. reflexivity.
Defined.

(** C4 as stated fails on the code.  A data line after the sentinel is
    still parsed and yielded: the stream [[DONE]] followed by a frame
    carrying "late" yields "late" and returns it.  And the stream of the
    claim, whose frames carry [content] at the top level, yields nothing
    in the decoder of src/lib/api.ts, which reads
    [choices[0].delta.content]. *)
Lemma sentinel_does_not_end_decoding :
  Api.handleStreamingResponse recording
    [Decoder.Chunk (Sample.done +:+ Sample.frame (Sample.delta "late")); Decoder.Done] []
  = (inr (inr "late"), ["late"])
  /\ Api.handleStreamingResponse recording
       [Decoder.Chunk (Sample.frame (Sample.plain "He"));
        Decoder.Chunk (Sample.frame (Sample.plain "llo"));
        Decoder.Chunk Sample.done; Decoder.Done] []
     = (inr (inr EmptyString), []).
Proof. split; vm_compute; reflexivity. Qed.

(** ** Extraction of the text of a response that is not streamed *)

Lemma completionText_of_choices (data : Json.JSON) (items : list Json.JSON) :
  Json.field data "choices" = Some (Json.JArr items) ->
  Api.completionText data
  = inr (Json.toString
           (Json.or_else
              (Json.opt_member (Json.opt_member (head items) "message") "content")
              (Json.JStr EmptyString))).
Proof.
  intros H. unfold Api.completionText, Json.member.
  destruct data; try discriminate H. simpl in H |- *. by rewrite H.
Qed.

(** With a [choices] array in the body the extraction is total: a
    missing first choice, message or content gives the empty string. *)
Lemma completionText_defaults (data : Json.JSON) (items : list Json.JSON) :
  Json.field data "choices" = Some (Json.JArr items) ->
  Json.opt_member (Json.opt_member (head items) "message") "content" = None ->
  Api.completionText data = inr EmptyString.
Proof.
  intros H Hc. rewrite (completionText_of_choices data items H). by rewrite Hc.
Qed.

(** Without a [choices] field [data.choices[0]] throws. *)
Lemma completionText_without_choices (data : Json.JSON) :
  Json.field data "choices" = None ->
  exists e : Js.Error, Api.completionText data = inl e /\ Js.name e = "TypeError".
Proof.
  intros H. unfold Api.completionText, Json.member.
  destruct data; simpl in *; rewrite ?H; eauto.
Qed.

(** C10 fails on the code for a body without [choices].  With streaming
    disabled and a success status, the body [{}] makes [sendMessage]
    reject with a [TypeError] instead of returning the empty string, and
    [sendUserMessage] then commits no assistant message: the conversation
    holds the user message alone and the error is on the console.  A body
    whose [choices] array is empty does give the empty string, and an
    assistant message with empty content is committed. *)
Theorem body_without_choices_raises :
  (Api.sendMessage (S := unit) None Sample.blocking
     [Decoder.Responds 200 true; Decoder.Body "{}"] tt).1
  = inr (inl (Js.TypeError "Cannot read properties of undefined (reading '0')"))
  /\ List.map Message.role
       (messagesOf "id0"
          (exec (ChatManager.sendUserMessage Sample.profile Sample.blocking [] None "Hi"
                   [Decoder.Responds 200 true; Decoder.Body "{}"]) Sample.w0))
     = [user]
  /\ List.map snd
       (console
          (exec (ChatManager.sendUserMessage Sample.profile Sample.blocking [] None "Hi"
                   [Decoder.Responds 200 true; Decoder.Body "{}"]) Sample.w0))
     = [Js.TypeError "Cannot read properties of undefined (reading '0')"]
  /\ (Api.sendMessage (S := unit) None Sample.blocking
        [Decoder.Responds 200 true;
         Decoder.Body ("{" +:+ Sample.quote +:+ "choices" +:+ Sample.quote +:+ ":[]}")] tt).1
     = inr (inr EmptyString)
  /\ List.map (fun m => (Message.role m, Message.content m))
       (messagesOf "id0"
          (exec (ChatManager.sendUserMessage Sample.profile Sample.blocking [] None "Hi"
                   [Decoder.Responds 200 true;
                    Decoder.Body ("{" +:+ Sample.quote +:+ "choices" +:+ Sample.quote +:+ ":[]}")])
             Sample.w0))
     = [(user, "Hi"); (assistant, EmptyString)].
Proof. repeat split; vm_compute; reflexivity. Qed.

(** ** What an operation in flight does to the world *)

Section InFlight.

Import ChatManager.

Variable profileId : string.
Variable settings : Settings.
Variable memory : list MemoryItem.t.

Lemma durable_onStream (t : Task) (v : string) (w : World) :
  durable (Decoder.notify (onStream t) v w) = durable w.
Proof. reflexivity. Qed.

Lemma deliver_unfold (t : Task) (ev : Decoder.NetEvent) (w : World) :
  deliver profileId settings t ev w
  = match Api.sendMessage_step (onStream t) settings (task_await t)
            (Api.settle (bool_decide (task_controller t ∈ aborted w)) ev) w with
    | (inl a, w') => (inl (with_await a t), w')
    | (inr r, w') => let '(v, w'') := resume profileId t r w' in (inr v, w'')
    end.
Proof.
  unfold deliver. run_m.
  destruct (Api.sendMessage_step _ _ _ _ _) as [[a|r] w']; reflexivity.
Qed.

(** While the request stays suspended only the registry entry of its
    own conversation changes, and the closure of the operation is kept. *)
Lemma deliver_suspended (t t' : Task) (ev : Decoder.NetEvent) (w w' : World) :
  deliver profileId settings t ev w = (inl t', w') ->
  durable w' = durable w /\ exists a, t' = with_await a t.
Proof.
  rewrite deliver_unfold.
  pose proof (sendMessage_step_obs (onStream t) durable settings (task_await t)
    (Api.settle (bool_decide (task_controller t ∈ aborted w)) ev) w
    (durable_onStream t)) as Hq.
  destruct (Api.sendMessage_step _ _ _ _ _) as [[a|r] w1]; simpl in Hq.
  - intros [= <- <-]. eauto.
  - destruct (resume profileId t r w1). discriminate.
Qed.

Lemma drive_suspended (evs : list Decoder.NetEvent) (t t' : Task) (w w' : World) :
  drive profileId settings t evs w = (inl t', w') ->
  durable w' = durable w /\ exists a, t' = with_await a t.
Proof.
  revert t w. induction evs as [|ev evs IH]; intros t w; simpl.
  - intros [= <- <-]. split; [done|]. exists (task_await t). by destruct t.
  - run_m. destruct (deliver profileId settings t ev w) as [[t1|v] w1] eqn:Hd.
    + intros H. apply IH in H as [Hq [a ->]].
      apply deliver_suspended in Hd as [Hq1 [a1 ->]].
      split; [congruence|]. by exists a.
    + discriminate.
Qed.

(** As long as nothing aborts its controller, an operation driven by a
    script ends as [sendMessage] ends on that script. *)
Lemma drive_not_aborted (evs : list Decoder.NetEvent) (t : Task) (w : World) :
  task_controller t ∉ aborted w ->
  drive profileId settings t evs w
  = match Api.sendMessage_from (onStream t) settings (task_await t) evs w with
    | (inl a, w') => (inl (with_await a t), w')
    | (inr r, w') => let '(v, w'') := resume profileId t r w' in (inr v, w'')
    end.
Proof.
  revert t w. induction evs as [|ev evs IH]; intros t w Hna; simpl.
  - by destruct t.
  - run_m. rewrite deliver_unfold. rewrite (bool_decide_eq_false_2 _ Hna). simpl.
    pose proof (sendMessage_step_obs (onStream t) aborted settings (task_await t) ev w
      (fun v s => eq_refl)) as Hab.
    destruct (Api.sendMessage_step _ _ _ _ _) as [[a|r] w1]; simpl in Hab.
    + rewrite IH by (simpl; by rewrite Hab). simpl.
      destruct (Api.sendMessage_from _ _ _ _ _) as [[a'|r'] w2]; reflexivity.
    + by destruct (resume profileId t r w1).
Qed.

(** The continuation after a rejection: the error goes to the console,
    the session is cleared, and the promise of the operation fulfils. *)
Lemma resume_rejected (t : Task) (error : Js.Error) (w : World) :
  resume profileId t (inl error) w
  = (inr (match task_op t with OpSend => Some (task_chatId t) | _ => None end),
     set_abortControllers (delete (task_chatId t) (abortControllers w))
       (set_chatStates
          (<[task_chatId t := merge (getChatState (task_chatId t) w) idleUpdate]>
             (chatStates w))
          (set_console (console w ++ [(label (task_op t), error)]) w))).
Proof. reflexivity. Qed.

(** The continuation after a fulfilment: one assistant message is
    appended to the conversation the operation captured, in the list of
    conversations it captured. *)
Lemma resume_fulfilled (t : Task) (response : string) (w : World) :
  chats (exec (resume profileId t (inr response)) w)
  = replaceChat
      (Chat.with_updatedAt (clock w (S (clockReads w)))
         (Chat.with_messages
            (Chat.messages (task_chat t)
               ++ [Message.mk (ids w (idsDrawn w)) assistant response
                     (clock w (clockReads w))])
            (task_chat t)))
      (task_newChats t).
Proof. reflexivity. Qed.

(** A failure of the endpoint, or an aborted signal, makes
    [sendMessage] reject. *)
Lemma sendMessage_step_failure {S : Type} (callback : option (string -> S -> S))
    (a : Api.Await) (ev : Decoder.NetEvent) (signalAborted : bool) (s : S) :
  signalAborted = true \/ EndpointFailure a ev ->
  exists error : Js.Error,
    Api.sendMessage_step callback settings a (Api.settle signalAborted ev) s
    = (inr (inl error), s)
    /\ (signalAborted = true -> error = Js.newError "Request cancelled").
Proof.
  intros [->|H].
  - exists (Js.newError "Request cancelled"). split; [|done]. by destruct a.
  - destruct signalAborted.
    + exists (Js.newError "Request cancelled"). split; [|done]. by destruct a.
    + simpl. destruct H as [a e|status hasBody Hok].
      * exists (Api.rethrow e). split; [|discriminate]. by destruct a.
      * eexists. split; [|discriminate]. simpl. rewrite Hok. simpl. reflexivity.
Qed.

End InFlight.

(** ** Failures of the endpoint *)

(** C3, as the code has it.  When the completion endpoint answers with
    a status that is not a success, or the pending request fails at the
    network level, the failure does not reach the caller of
    [sendUserMessage], [regenerateLastResponse] or [editAndResend]: the
    manager catches it and writes it to the console, and the promise of
    the operation fulfils (with the conversation identifier for
    [sendUserMessage]).  The manager clears the loading state and the
    streamed text and drops the controller, leaves the stored
    conversations as they were, and appends no assistant message. *)
Theorem endpoint_failure_is_caught (profileId : string) (settings : Settings)
    (t : ChatManager.Task) (ev : Decoder.NetEvent) (w : World) :
  EndpointFailure (ChatManager.task_await t) ev ->
  let r := eval (ChatManager.deliver profileId settings t ev) w in
  let w' := exec (ChatManager.deliver profileId settings t ev) w in
  r = inr (inr (match ChatManager.task_op t with
                | OpSend => Some (ChatManager.task_chatId t)
                | _ => None
                end))
  /\ (exists error : Js.Error,
         console w'
         = (console w ++ [(ChatManager.label (ChatManager.task_op t), error)])%list)
  /\ chats w' = chats w
  /\ localStorage w' = localStorage w
  /\ isLoading (ChatManager.getChatState (ChatManager.task_chatId t) w') = false
  /\ streamingContent (ChatManager.getChatState (ChatManager.task_chatId t) w') = EmptyString
  /\ abortControllers w' !! ChatManager.task_chatId t = None.
Proof.
  intros Hf. cbv zeta. unfold eval, exec. rewrite deliver_unfold.
  destruct (sendMessage_step_failure settings (ChatManager.onStream t)
              (ChatManager.task_await t) ev
              (bool_decide (ChatManager.task_controller t ∈ aborted w)) w
              (or_intror Hf)) as [error [-> _]].
  rewrite resume_rejected. unfold ChatManager.getChatState. simpl.
  rewrite lookup_insert_eq, lookup_delete_eq. repeat split; eauto.
Qed.

(** A send on a fresh profile answered with status 500: the promise
    fulfils with the identifier of the conversation, which keeps the user
    message alone. *)
Lemma endpoint_failure_is_caught_witness :
  EndpointFailure (ChatManager.task_await Sample.sent.1) (Decoder.Responds 500 true)
  /\ eval (ChatManager.deliver Sample.profile Sample.streaming Sample.sent.1
             (Decoder.Responds 500 true)) Sample.sent.2
     = inr (inr (Some "id0"))
  /\ List.map Message.role
       (messagesOf "id0"
          (exec (ChatManager.deliver Sample.profile Sample.streaming Sample.sent.1
                   (Decoder.Responds 500 true)) Sample.sent.2))
     = [user].
Proof.
  assert (EndpointFailure (ChatManager.task_await Sample.sent.1) (Decoder.Responds 500 true))
    as Hf by (by constructor).
  split; [exact Hf|]. split.
  - exact (proj1 (endpoint_failure_is_caught Sample.profile Sample.streaming Sample.sent.1
                    (Decoder.Responds 500 true) Sample.sent.2 Hf)).
  - vm_compute. reflexivity.
Defined.

(** C3 as stated fails on the code: the endpoint answers 500 and the
    promise of [sendUserMessage] fulfils with the identifier of the
    conversation; it does not reject, and the error is found on the
    console only. *)
Lemma endpoint_failure_does_not_surface :
  eval (ChatManager.sendUserMessage Sample.profile Sample.streaming [] None "Hi"
          [Decoder.Responds 500 true]) Sample.w0
  = inr (inr (Some "id0"))
  /\ console
       (exec (ChatManager.sendUserMessage Sample.profile Sample.streaming [] None "Hi"
                [Decoder.Responds 500 true]) Sample.w0)
     = [("Error sending message:", Js.newError "HTTP error! status: 500")].
Proof. split; vm_compute; reflexivity. Qed.

(** ** Stopping a generation *)

Lemma stopGeneration_twice (chatId : string) (w : World) :
  exec (ChatManager.stopGeneration chatId) (exec (ChatManager.stopGeneration chatId) w)
  = exec (ChatManager.stopGeneration chatId) w.
Proof.
  unfold ChatManager.stopGeneration, ChatManager.updateChatState, abort. run_m.
  destruct (abortControllers w !! chatId) as [controller|] eqn:Hc; simpl.
  - rewrite lookup_delete_eq. simpl. unfold set_chatStates. simpl.
    by rewrite lookup_insert_eq, insert_insert_eq.
  - rewrite Hc. simpl. unfold set_chatStates. simpl.
    by rewrite lookup_insert_eq, insert_insert_eq.
Qed.

Lemma stopGeneration_idle (chatId : string) (w : World) :
  Idle chatId w ->
  forall other : string,
    ChatManager.getChatState other (exec (ChatManager.stopGeneration chatId) w)
    = ChatManager.getChatState other w.
Proof.
  intros (Hc & Hl & Hs) other.
  destruct (decide (chatId = other)) as [<-|Hne];
    [|by apply getChatState_stopGeneration_ne].
  unfold ChatManager.stopGeneration, abort. run_m. rewrite Hc. simpl.
  change (ChatManager.getChatState chatId
            (exec (ChatManager.updateChatState chatId ChatManager.idleUpdate) w)
          = ChatManager.getChatState chatId w).
  rewrite getChatState_updateChatState_eq.
  destruct (ChatManager.getChatState chatId w) as [l s a]. simpl in *. by subst.
Qed.

(** C9, as the code has it.  [stopGeneration] is idempotent: on any
    session, a streaming one in particular, stopping twice leaves exactly
    the world that stopping once leaves, in which the session is not
    loading, has no streamed text and has no controller.  Without a
    registered controller a stop is the reset of the session and nothing
    else.  It touches nothing but the two flags of the session, which it
    clears: the conversations, the store, the registered controllers, the
    aborted signals, the console and every other session are the same,
    and the session itself reads as before exactly when it was not
    loading and had no streamed text.  On a session that is idle in this
    sense (no controller registered, not loading, no streamed text) a stop
    changes nothing that can be observed. *)
Theorem stopGeneration_is_idempotent (chatId : string) (w : World) :
  (Idle chatId w ->
   (forall other : string,
       ChatManager.getChatState other (exec (ChatManager.stopGeneration chatId) w)
       = ChatManager.getChatState other w)
   /\ durable (exec (ChatManager.stopGeneration chatId) w) = durable w)
  /\ exec (ChatManager.stopGeneration chatId) (exec (ChatManager.stopGeneration chatId) w)
     = exec (ChatManager.stopGeneration chatId) w
  /\ isLoading (ChatManager.getChatState chatId (exec (ChatManager.stopGeneration chatId) w))
     = false
  /\ streamingContent
       (ChatManager.getChatState chatId (exec (ChatManager.stopGeneration chatId) w))
     = EmptyString
  /\ abortControllers (exec (ChatManager.stopGeneration chatId) w) !! chatId = None
  /\ (abortControllers w !! chatId = None ->
      exec (ChatManager.stopGeneration chatId) w
      = exec (ChatManager.updateChatState chatId ChatManager.idleUpdate) w
      /\ durable (exec (ChatManager.stopGeneration chatId) w) = durable w
      /\ ChatManager.getChatState chatId (exec (ChatManager.stopGeneration chatId) w)
         = ChatManager.merge (ChatManager.getChatState chatId w) ChatManager.idleUpdate
      /\ (forall other : string,
             other <> chatId ->
             ChatManager.getChatState other (exec (ChatManager.stopGeneration chatId) w)
             = ChatManager.getChatState other w)
      /\ (ChatManager.getChatState chatId (exec (ChatManager.stopGeneration chatId) w)
          = ChatManager.getChatState chatId w
          <-> isLoading (ChatManager.getChatState chatId w) = false
              /\ streamingContent (ChatManager.getChatState chatId w) = EmptyString)).
Proof.
  split; [|split; [apply stopGeneration_twice|]].
  - intros Hi. split; [by apply stopGeneration_idle|].
    destruct Hi as (Hc & _). unfold ChatManager.stopGeneration. run_m. by rewrite Hc.
  - assert (forall other : string,
              other <> chatId ->
              ChatManager.getChatState other (exec (ChatManager.stopGeneration chatId) w)
              = ChatManager.getChatState other w) as Hother.
    { intros other Hne. apply getChatState_stopGeneration_ne. congruence. }
    revert Hother.
    unfold ChatManager.stopGeneration, ChatManager.getChatState,
      ChatManager.updateChatState, abort. run_m.
    destruct (abortControllers w !! chatId) as [controller|] eqn:Hc; simpl;
      rewrite ?lookup_insert_eq, ?lookup_delete_eq; intros Hother;
      (split; [done|]); (split; [done|]); (split; [done|]); [done|].
    intros _. split; [done|]. split; [done|]. split; [done|]. split; [exact Hother|].
    destruct (default ChatManager.idle (chatStates w !! chatId)) as [l s a]. simpl.
    split; [by intros [= <- <-]|]. intros [-> ->]. reflexivity.
Qed.

(** Conversation [id0] is streaming "He" and [c] has no session: a
    stop on [c] changes no state read, and a second stop on [id0] changes
    nothing after the first. *)
Lemma stopGeneration_is_idempotent_witness :
  Idle "c" (App.world Sample.two_sessions)
  /\ ChatManager.getChatState "id0"
       (exec (ChatManager.stopGeneration "c") (App.world Sample.two_sessions))
     = mkChatState true "He" None
  /\ exec (ChatManager.stopGeneration "id0")
       (exec (ChatManager.stopGeneration "id0") (App.world Sample.two_sessions))
     = exec (ChatManager.stopGeneration "id0") (App.world Sample.two_sessions).
Proof.
  assert (Idle "c" (App.world Sample.two_sessions)) as Hi
    by (repeat split; vm_compute; reflexivity).
  split; [exact Hi|]. split.
  - rewrite (proj1 (proj1 (stopGeneration_is_idempotent "c" (App.world Sample.two_sessions))
                      Hi) "id0").
    vm_compute. reflexivity.
  - exact (proj1 (proj2 (stopGeneration_is_idempotent "id0" (App.world Sample.two_sessions)))).
Defined.

(** C9 as stated fails on the code: a session without a cancellation
    handle need not be idle, and a stop is then no no-op.  A send is
    stopped and a second message sent in the same conversation before the
    network has answered the first; the first operation ends and its
    [finally] clause drops the controller of the second, which goes on
    streaming.  No controller is registered for the conversation, its
    session shows the streamed text "He", and a stop clears that text. *)
Lemma stop_without_handle_clears_streamed_text :
  let w := App.world Sample.orphaned in
  abortControllers w !! "id0" = None
  /\ ChatManager.getChatState "id0" w = mkChatState false "He" None
  /\ ChatManager.getChatState "id0" (exec (ChatManager.stopGeneration "id0") w)
     = mkChatState false EmptyString None
  /\ ChatManager.getChatState "id0" (exec (ChatManager.stopGeneration "id0") w)
     <> ChatManager.getChatState "id0" w.
Proof. repeat split; vm_compute; (reflexivity || discriminate). Qed.

(** ** Conversations in the store *)

Section Store.

Import ChatManager.

Lemma findChat_id (chatId : string) (chats : list Chat.t) (chat : Chat.t) :
  findChat chatId chats = Some chat -> Chat.id chat = chatId.
Proof.
  unfold findChat. intros H. apply find_some in H as [_ H]. by apply String.eqb_eq.
Qed.

(** Replacing a conversation that is in the list puts the replacement
    where [find] will reach it. *)
Lemma findChat_replaceChat (chatId : string) (chats : list Chat.t) (chat chat' : Chat.t) :
  findChat chatId chats = Some chat ->
  Chat.id chat' = chatId ->
  findChat chatId (replaceChat chat' chats) = Some chat'.
Proof.
  intros Hf Hid. subst chatId. unfold findChat, replaceChat in *.
  induction chats as [|c chats IH]; simpl in *; [discriminate|].
  destruct (String.eqb (Chat.id c) (Chat.id chat')) eqn:He.
  - simpl. by rewrite String.eqb_refl.
  - simpl. rewrite He. by apply IH.
Qed.

Lemma lookupChat_Some (chatId : option string) (chats : list Chat.t) (chat : Chat.t) :
  lookupChat chatId chats = Some chat ->
  exists id, chatId = Some id /\ findChat id chats = Some chat.
Proof.
  unfold lookupChat. destruct chatId as [id|]; [|discriminate].
  destruct (String.eqb id EmptyString); [discriminate|]. eauto.
Qed.

End Store.

(** ** [sendUserMessage] up to its await *)

Section Send.

Import ChatManager.

Variable profileId : string.
Variable settings : Settings.
Variable memory : list MemoryItem.t.

Lemma sendUserMessage_start_spec (chatId : option string) (content : string)
    (w w1 : World) (t : Task) :
  sendUserMessage_start profileId settings memory chatId content w = (t, w1) ->
  Launched OpSend (task_chatId t) w w1 t
  /\ exists userMessage : Message.t,
      Message.role userMessage = user
      /\ Message.content userMessage = content
      /\ Chat.messages (task_chat t) = priorMessages chatId w ++ [userMessage].
Proof.
  unfold Launched, sendUserMessage_start, priorMessages, launch, persistChats,
    updateChatState, getChat, getChatState, Storage.saveChats, Storage.generateId,
    Date_now, new_AbortController.
  run_m.
  destruct (lookupChat chatId (chats w)) as [chat|] eqn:Hl.
  - destruct (lookupChat_Some _ _ _ Hl) as (id & -> & Hf).
    pose proof (findChat_id _ _ _ Hf) as Hid.
    simpl. intros [= <- <-]. simpl. rewrite !lookup_insert_eq. split.
    + repeat split.
      eapply findChat_replaceChat; [exact Hf|]. by destruct (_ && _).
    + exists (Message.mk (ids w (idsDrawn w)) user content (clock w (clockReads w))).
      repeat split. by destruct (_ && _).
  - simpl. intros [= <- <-]. simpl. rewrite !lookup_insert_eq. split.
    + repeat split. unfold findChat, replaceChat. simpl.
      destruct (String.eqb (Storage.generateChatTitle content) _); simpl;
        by rewrite !String.eqb_refl.
    + exists (Message.mk (ids w (S (idsDrawn w))) user content
                (clock w (S (S (clockReads w))))).
      repeat split. by destruct (String.eqb _ _).
Qed.

End Send.

(** ** Cancellation *)

Section Cancel.

Import ChatManager.

Variable profileId : string.
Variable settings : Settings.
Variable memory : list MemoryItem.t.

(** Stopping aborts the controller registered for the conversation and
    leaves the store alone. *)
Lemma stopGeneration_registered (chatId : string) (controller : AbortController) (w : World) :
  abortControllers w !! chatId = Some controller ->
  controller ∈ aborted (exec (stopGeneration chatId) w)
  /\ chats (exec (stopGeneration chatId) w) = chats w
  /\ console (exec (stopGeneration chatId) w) = console w.
Proof.
  intros Hc. unfold stopGeneration, abort, updateChatState. run_m. rewrite Hc. simpl.
  repeat split. set_solver.
Qed.

(** Once its signal is aborted, whatever the network delivers next ends
    the operation through the [catch] clause, with the error
    ['Request cancelled']. *)
Lemma deliver_aborted (t : Task) (ev : Decoder.NetEvent) (w : World) :
  task_controller t ∈ aborted w ->
  deliver profileId settings t ev w
  = (inr (eval (resume profileId t (inl (Js.newError "Request cancelled"))) w),
     exec (resume profileId t (inl (Js.newError "Request cancelled"))) w).
Proof.
  intros Ha. rewrite deliver_unfold.
  destruct (sendMessage_step_failure settings (onStream t) (task_await t) ev
              (bool_decide (task_controller t ∈ aborted w)) w
              (or_introl (bool_decide_eq_true_2 _ Ha))) as [error [-> He]].
  rewrite (He (bool_decide_eq_true_2 _ Ha)). reflexivity.
Qed.

End Cancel.

(** Whatever the network delivers to an operation whose signal is
    aborted ends it through the [catch] clause, which writes neither the
    conversations nor the store and resets the session. *)
Lemma deliver_cancelled (profileId : string) (settings : Settings) (t : ChatManager.Task)
    (ev : Decoder.NetEvent) (w : World) :
  ChatManager.task_controller t ∈ aborted w ->
  let w' := exec (ChatManager.deliver profileId settings t ev) w in
  eval (ChatManager.deliver profileId settings t ev) w
  = inr (inr (match ChatManager.task_op t with
              | OpSend => Some (ChatManager.task_chatId t)
              | _ => None
              end))
  /\ chats w' = chats w
  /\ localStorage w' = localStorage w
  /\ console w'
     = console w ++ [(ChatManager.label (ChatManager.task_op t), Js.newError "Request cancelled")]
  /\ isLoading (ChatManager.getChatState (ChatManager.task_chatId t) w') = false
  /\ streamingContent (ChatManager.getChatState (ChatManager.task_chatId t) w') = EmptyString
  /\ abortControllers w' !! ChatManager.task_chatId t = None.
Proof.
  intros Ha. cbv zeta. unfold eval, exec.
  rewrite (deliver_aborted profileId settings t ev w Ha).
  unfold eval, exec. rewrite resume_rejected. unfold ChatManager.getChatState. simpl.
  rewrite lookup_insert_eq, lookup_delete_eq. by repeat split.
Qed.

(** C2, as the code has it.  A send that is cancelled before it
    completes commits no assistant message.  The send appends the user
    message to its conversation.  A stop issued while the send is the
    operation registered for the conversation aborts its request and
    writes neither the conversations nor the store; a delivery of the
    network that leaves the operation in flight writes neither.
    Whatever the network delivers to the aborted operation, in whatever
    world, ends it through its [catch] clause: the conversations and the
    store are left as they were the moment before, the cancellation goes
    to the console, the promise fulfils, and the session is not loading,
    has no streamed text and no controller; if the conversations are then
    still those the send wrote, the conversation holds exactly one message
    more than before the send.  That is so when nothing but the events of
    this send has happened since its launch: let the network deliver any
    events that leave the request in flight, stop the generation, and let
    the network deliver anything more; the conversation then holds the
    messages it held right after the user message was appended, the last
    of them being that user message. *)
Theorem cancelled_send_commits_nothing (profileId : string) (settings : Settings)
    (memory : list MemoryItem.t) (chatId : option string) (content : string)
    (w w1 : World) (t : ChatManager.Task) :
  ChatManager.sendUserMessage_start profileId settings memory chatId content w = (t, w1) ->
  let target := ChatManager.task_chatId t in
  (exists userMessage : Message.t,
      Message.role userMessage = user
      /\ Message.content userMessage = content
      /\ messagesOf target w1 = priorMessages chatId w ++ [userMessage])
  /\ (forall w2 : World,
         abortControllers w2 !! target = Some (ChatManager.task_controller t) ->
         let w3 := exec (ChatManager.stopGeneration target) w2 in
         ChatManager.task_controller t ∈ aborted w3
         /\ chats w3 = chats w2
         /\ localStorage w3 = localStorage w2
         /\ console w3 = console w2)
  /\ (forall (a : Api.Await) (ev : Decoder.NetEvent) (w2 w2' : World)
        (t' : ChatManager.Task),
         ChatManager.deliver profileId settings (ChatManager.with_await a t) ev w2
         = (inl t', w2') ->
         chats w2' = chats w2 /\ localStorage w2' = localStorage w2)
  /\ (forall (a : Api.Await) (ev : Decoder.NetEvent) (w3 : World),
         ChatManager.task_controller t ∈ aborted w3 ->
         let t' := ChatManager.with_await a t in
         let w4 := exec (ChatManager.deliver profileId settings t' ev) w3 in
         eval (ChatManager.deliver profileId settings t' ev) w3 = inr (inr (Some target))
         /\ chats w4 = chats w3
         /\ localStorage w4 = localStorage w3
         /\ console w4
            = console w3 ++ [("Error sending message:", Js.newError "Request cancelled")]
         /\ isLoading (ChatManager.getChatState target w4) = false
         /\ streamingContent (ChatManager.getChatState target w4) = EmptyString
         /\ abortControllers w4 !! target = None
         /\ (chats w3 = chats w1 ->
             messagesOf target w4 = messagesOf target w1
             /\ length (messagesOf target w4) = S (length (priorMessages chatId w))))
  /\ (forall (evs : list Decoder.NetEvent) (ev : Decoder.NetEvent) (w2 : World)
        (t' : ChatManager.Task),
         ChatManager.drive profileId settings t evs w1 = (inl t', w2) ->
         let w3 := exec (ChatManager.stopGeneration target) w2 in
         let w4 := exec (ChatManager.deliver profileId settings t' ev) w3 in
         messagesOf target w4 = messagesOf target w1
         /\ length (messagesOf target w4) = S (length (priorMessages chatId w))
         /\ isLoading (ChatManager.getChatState target w4) = false
         /\ streamingContent (ChatManager.getChatState target w4) = EmptyString
         /\ abortControllers w4 !! target = None
         /\ eval (ChatManager.deliver profileId settings t' ev) w3 = inr (inr (Some target))
         /\ console w4
            = console w1 ++ [("Error sending message:", Js.newError "Request cancelled")]).
Proof.
  intros Hs. cbv zeta.
  destruct (sendUserMessage_start_spec _ _ _ _ _ _ _ _ Hs)
    as ((Hop & _ & _ & _ & _ & Hget & Hctl & _) & userMessage & Hrole & Hcontent & Hmsgs).
  assert (messagesOf (ChatManager.task_chatId t) w1
          = priorMessages chatId w ++ [userMessage]) as Hm1.
  { unfold messagesOf. rewrite Hget. exact Hmsgs. }
  assert (forall (a : Api.Await) (ev : Decoder.NetEvent) (w3 : World),
            ChatManager.task_controller t ∈ aborted w3 ->
            eval (ChatManager.deliver profileId settings (ChatManager.with_await a t) ev) w3
            = inr (inr (Some (ChatManager.task_chatId t)))
            /\ chats (exec (ChatManager.deliver profileId settings
                              (ChatManager.with_await a t) ev) w3) = chats w3
            /\ localStorage (exec (ChatManager.deliver profileId settings
                                     (ChatManager.with_await a t) ev) w3) = localStorage w3
            /\ console (exec (ChatManager.deliver profileId settings
                                (ChatManager.with_await a t) ev) w3)
               = console w3 ++ [("Error sending message:", Js.newError "Request cancelled")]
            /\ isLoading (ChatManager.getChatState (ChatManager.task_chatId t)
                            (exec (ChatManager.deliver profileId settings
                                     (ChatManager.with_await a t) ev) w3)) = false
            /\ streamingContent (ChatManager.getChatState (ChatManager.task_chatId t)
                                   (exec (ChatManager.deliver profileId settings
                                            (ChatManager.with_await a t) ev) w3))
               = EmptyString
            /\ abortControllers (exec (ChatManager.deliver profileId settings
                                         (ChatManager.with_await a t) ev) w3)
               !! ChatManager.task_chatId t = None) as Hend.
  { intros a ev w3 Ha.
    pose proof (deliver_cancelled profileId settings (ChatManager.with_await a t) ev w3 Ha)
      as H.
    cbv zeta in H. simpl in H. rewrite Hop in H. exact H. }
  assert (forall w3 w4 : World,
            chats w4 = chats w3 -> chats w3 = chats w1 ->
            messagesOf (ChatManager.task_chatId t) w4
            = messagesOf (ChatManager.task_chatId t) w1
            /\ length (messagesOf (ChatManager.task_chatId t) w4)
               = S (length (priorMessages chatId w))) as Hcount.
  { intros w3 w4 H43 H31.
    assert (messagesOf (ChatManager.task_chatId t) w4
            = messagesOf (ChatManager.task_chatId t) w1) as ->
      by (unfold messagesOf, ChatManager.getChat; by rewrite H43, H31).
    split; [done|]. rewrite Hm1, length_app. simpl. lia. }
  split; [eauto|]. split; [|split; [|split]].
  - intros w2 Hreg.
    destruct (stopGeneration_registered _ _ _ Hreg) as (Haborted & Hchats & Hconsole).
    split; [exact Haborted|]. split; [exact Hchats|]. split; [|exact Hconsole].
    unfold ChatManager.stopGeneration, abort, ChatManager.updateChatState. run_m.
    by rewrite Hreg.
  - intros a ev w2 w2' t' Hd.
    destruct (deliver_suspended _ _ _ _ _ _ _ Hd) as [Hq _].
    by injection Hq as -> -> _.
  - intros a ev w3 Ha.
    destruct (Hend a ev w3 Ha) as (Hr & Hc & Hl & Hk & Hload & Hstream & Hnone).
    repeat (split; [assumption|]). intros H31. by apply (Hcount w3).
  - intros evs ev w2 t' Hd.
    destruct (drive_suspended _ _ _ _ _ _ _ Hd) as [Hq [a ->]].
    injection Hq as Hchats _ Hacs _ Hconsole.
    rewrite <- Hacs in Hctl.
    destruct (stopGeneration_registered _ _ _ Hctl) as (Haborted & Hchats3 & Hconsole3).
    destruct (Hend a ev _ Haborted) as (Hr & Hc & Hl & Hk & Hload & Hstream & Hnone).
    destruct (Hcount _ _ Hc (eq_trans Hchats3 Hchats)) as [Hm4 Hlen].
    rewrite Hk, Hconsole3, Hconsole. by repeat split.
Qed.

(** A send on the fresh profile, stopped after the delta "He": the new
    conversation holds one message, the user message. *)
Lemma cancelled_send_commits_nothing_witness :
  ChatManager.sendUserMessage_start Sample.profile Sample.streaming [] None "Hi" Sample.w0
  = (Sample.sent.1, Sample.sent.2)
  /\ ChatManager.drive Sample.profile Sample.streaming Sample.sent.1
       [Decoder.Responds 200 true; Decoder.Chunk (Sample.frame (Sample.delta "He"))]
       Sample.sent.2
     = (inl Sample.midstream.1, Sample.midstream.2)
  /\ streamingContent (ChatManager.getChatState "id0" Sample.midstream.2) = "He"
  /\ length
       (messagesOf (ChatManager.task_chatId Sample.sent.1)
          (exec (ChatManager.deliver Sample.profile Sample.streaming Sample.midstream.1
                   (Decoder.Chunk (Sample.frame (Sample.delta "llo"))))
             (exec (ChatManager.stopGeneration (ChatManager.task_chatId Sample.sent.1))
                Sample.midstream.2)))
     = S (length (priorMessages None Sample.w0)).
Proof.
  assert (ChatManager.sendUserMessage_start Sample.profile Sample.streaming [] None "Hi"
            Sample.w0 = (Sample.sent.1, Sample.sent.2)) as Hs by (vm_compute; reflexivity).
  assert (ChatManager.drive Sample.profile Sample.streaming Sample.sent.1
            [Decoder.Responds 200 true; Decoder.Chunk (Sample.frame (Sample.delta "He"))]
            Sample.sent.2
          = (inl Sample.midstream.1, Sample.midstream.2)) as Hd by (vm_compute; reflexivity).
  split; [exact Hs|]. split; [exact Hd|]. split; [vm_compute; reflexivity|].
  exact (proj1 (proj2 (proj2 (proj2 (proj2 (proj2
    (cancelled_send_commits_nothing Sample.profile Sample.streaming [] None "Hi" _ _ _ Hs))))
    _ (Decoder.Chunk (Sample.frame (Sample.delta "llo"))) _ _ Hd))).
Defined.

(** C2 as stated fails on the code in a split view.  Conversation
    [id0] holds a question and its answer while a send on another
    conversation, [id3], is in flight; a second question is sent in
    [id0], which then holds three messages.  The send of [id3] completes
    and writes the conversations it captured at its launch, in which
    [id0] holds two messages.  The send of [id0] is then stopped: it ends
    through its [catch] clause, no operation is left in flight, and the
    conversation holds the two messages it held before the send, not
    three. *)
Lemma cancelled_send_can_lose_its_user_message :
  List.map Message.content (messagesOf "id0" (App.world Sample.split_view))
  = ["Hi"; "Hello"]
  /\ List.map Message.content (messagesOf "id0" (App.world Sample.asked))
     = ["Hi"; "Hello"; "And then?"]
  /\ abortControllers (App.world Sample.asked) !! "id0" = Some 2%nat
  /\ App.tasks Sample.overtaken = ∅
  /\ console (App.world Sample.overtaken)
     = [("Error sending message:", Js.newError "Request cancelled")]
  /\ List.map Message.content (messagesOf "id0" (App.world Sample.overtaken))
     = ["Hi"; "Hello"]
  /\ length (messagesOf "id0" (App.world Sample.overtaken))
     <> length (messagesOf "id0" (App.world Sample.asked))
  /\ length (messagesOf "id0" (App.world Sample.overtaken))
     <> S (length (messagesOf "id0" (App.world Sample.split_view))).
Proof. repeat split; vm_compute; (reflexivity || discriminate). Qed.

(** ** Searching a message list *)

Section Search.

Import ChatManager.

Context {A : Type}.
Variable p : A -> bool.

Lemma findIndex_None (l : list A) :
  findIndex p l = None <-> Forall (fun x => p x = false) l.
Proof.
  induction l as [|x l IH]; simpl; [by split; [constructor|]|].
  destruct (p x) eqn:Hp.
  - split; [discriminate|]. intros H. inversion H; congruence.
  - destruct (findIndex p l); simpl.
    + split; [discriminate|]. intros H. inversion H as [|? ? _ Hl]; subst.
      by apply IH in Hl.
    + split; [|done]. intros _. constructor; [done|]. by apply IH.
Qed.

Lemma findIndex_first (l : list A) (i : nat) (x : A) :
  l !! i = Some x -> p x = true ->
  (forall (j : nat) (y : A), (j < i)%nat -> l !! j = Some y -> p y = false) ->
  findIndex p l = Some i.
Proof.
  revert i. induction l as [|h l IH]; intros i Hi Hp Hb; [done|].
  destruct i as [|i]; simpl in *.
  - injection Hi as ->. by rewrite Hp.
  - rewrite (Hb O h) by (done || lia).
    rewrite (IH i Hi Hp); [done|].
    intros j y Hj Hy. apply (Hb (S j) y); [lia|done].
Qed.

Lemma findLastIndex_None (l : list A) :
  findLastIndex p l = None <-> Forall (fun x => p x = false) l.
Proof.
  induction l as [|x l IH]; simpl; [by split; [constructor|]|].
  destruct (findLastIndex p l).
  - split; [discriminate|]. intros H. inversion H as [|? ? _ Hl]; subst.
    by apply IH in Hl.
  - destruct (p x) eqn:Hp.
    + split; [discriminate|]. intros H. inversion H; congruence.
    + split; [|done]. intros _. constructor; [done|]. by apply IH.
Qed.

Lemma findLastIndex_last (l : list A) (i : nat) (x : A) :
  l !! i = Some x -> p x = true ->
  (forall (j : nat) (y : A), (i < j)%nat -> l !! j = Some y -> p y = false) ->
  findLastIndex p l = Some i.
Proof.
  revert i. induction l as [|h l IH]; intros i Hi Hp Ha; [done|].
  destruct i as [|i]; simpl in *.
  - injection Hi as ->.
    assert (findLastIndex p l = None) as ->.
    { apply findLastIndex_None. apply Forall_lookup. intros j y Hy.
      apply (Ha (S j) y); [lia|done]. }
    by rewrite Hp.
  - rewrite (IH i Hi Hp); [done|].
    intros j y Hj Hy. apply (Ha (S j) y); [lia|done].
Qed.

Lemma findIndex_Some (l : list A) (i : nat) :
  findIndex p l = Some i ->
  exists x : A,
    l !! i = Some x /\ p x = true
    /\ forall (j : nat) (y : A), (j < i)%nat -> l !! j = Some y -> p y = false.
Proof.
  revert i. induction l as [|h l IH]; intros i; simpl; [done|].
  destruct (p h) eqn:Hp.
  - intros [= <-]. exists h. repeat split; [done|]. intros j y Hj. lia.
  - destruct (findIndex p l) as [k|]; simpl; [|done]. intros [= <-].
    destruct (IH k eq_refl) as (x & Hx & Hpx & Hb). exists x. repeat split; [done..|].
    intros [|j] y Hj Hy; simpl in Hy; [congruence|]. apply (Hb j y); [lia|done].
Qed.

Lemma findLastIndex_Some (l : list A) (i : nat) :
  findLastIndex p l = Some i ->
  exists x : A,
    l !! i = Some x /\ p x = true
    /\ forall (j : nat) (y : A), (i < j)%nat -> l !! j = Some y -> p y = false.
Proof.
  revert i. induction l as [|h l IH]; intros i; simpl; [done|].
  destruct (findLastIndex p l) as [k|] eqn:Hl.
  - intros [= <-]. destruct (IH k eq_refl) as (x & Hx & Hpx & Ha).
    exists x. repeat split; [done..|].
    intros [|j] y Hj Hy; [lia|]. apply (Ha j y); [lia|done].
  - destruct (p h) eqn:Hp; [|done]. intros [= <-]. exists h. repeat split; [done..|].
    intros [|j] y Hj Hy; [lia|]. simpl in Hy.
    apply findLastIndex_None in Hl. rewrite Forall_lookup in Hl. eauto.
Qed.

End Search.

(** Every message list falls under one of the two cases of
    regeneration, and under one of the two cases of an edit. *)
Lemma last_assistant_or_none (messages : list Message.t) :
  (exists (i : nat) (removed : Message.t), LastAssistant messages i removed)
  \/ Forall (fun m => Message.role m <> assistant) messages.
Proof.
  destruct (ChatManager.findLastIndex
              (fun m => bool_decide (Message.role m = assistant)) messages) as [i|] eqn:Hf.
  - left. apply findLastIndex_Some in Hf as (x & Hx & Hp & Ha).
    exists i, x. repeat split; [done|by apply bool_decide_eq_true_1 in Hp|].
    intros j m Hj Hm. eapply bool_decide_eq_false_1, Ha; eauto.
  - right. apply findLastIndex_None in Hf. eapply Forall_impl; [exact Hf|].
    intros m Hm. by apply bool_decide_eq_false_1 in Hm.
Qed.

Lemma first_with_id_or_none (messageId : string) (messages : list Message.t) :
  (exists (i : nat) (old : Message.t), FirstWithId messageId messages i old)
  \/ Forall (fun m => Message.id m <> messageId) messages.
Proof.
  destruct (ChatManager.findIndex
              (fun m => String.eqb (Message.id m) messageId) messages) as [i|] eqn:Hf.
  - left. apply findIndex_Some in Hf as (x & Hx & Hp & Hb).
    exists i, x. repeat split; [done|by apply String.eqb_eq|].
    intros j m Hj Hm. eapply String.eqb_neq, Hb; eauto.
  - right. apply findIndex_None in Hf. eapply Forall_impl; [exact Hf|].
    intros m Hm. by apply String.eqb_neq.
Qed.

(** ** Regeneration and edit-and-resend *)

Section Rewrite.

Import ChatManager.

Variable profileId : string.
Variable settings : Settings.
Variable memory : list MemoryItem.t.

(** When the operation captured a list in which its conversation can
    be found, a fulfilment leaves that conversation with the captured
    messages and one assistant message after them, in whatever world the
    continuation runs. *)
Lemma resume_fulfilled_messages (t : Task) (response : string) (w : World) :
  findChat (task_chatId t) (task_newChats t) = Some (task_chat t) ->
  messagesOf (task_chatId t) (exec (resume profileId t (inr response)) w)
  = Chat.messages (task_chat t)
    ++ [Message.mk (ids w (idsDrawn w)) assistant response (clock w (clockReads w))].
Proof.
  intros Hf. unfold messagesOf, getChat. rewrite resume_fulfilled.
  erewrite findChat_replaceChat; [reflexivity|exact Hf|].
  simpl. by apply findChat_id in Hf.
Qed.

(** A launched operation whose controller is not aborted, driven by a
    script on which [sendMessage] fulfils with [response]: the
    conversation ends with the captured messages and one assistant
    message carrying [response]. *)
Lemma launched_fulfils (op : Op) (chatId : string) (w w1 w2 : World) (t : Task)
    (evs : list Decoder.NetEvent) (response : string) :
  Launched op chatId w w1 t ->
  nextController w ∉ aborted w ->
  Api.sendMessage (onStream t) settings evs w1 = (inr (inr response), w2) ->
  exists reply : Message.t,
    Message.role reply = assistant
    /\ Message.content reply = response
    /\ messagesOf chatId (exec (drive profileId settings t evs) w1)
       = Chat.messages (task_chat t) ++ [reply].
Proof.
  intros (_ & Hid & Hawait & Hctl & Hnew & Hget & _ & Hab & _) Hfresh Hsend.
  unfold exec. rewrite drive_not_aborted by (by rewrite Hctl, Hab).
  rewrite Hawait. unfold Api.sendMessage in Hsend. rewrite Hsend.
  pose proof (resume_fulfilled_messages t response w2) as Hm.
  unfold exec in Hm. destruct (resume profileId t (inr response) w2) as [v w3].
  simpl in *. eexists. split; [|split]; [| |rewrite <- Hid; apply Hm;
    by rewrite Hnew, Hid]; reflexivity.
Qed.

Lemma regenerateLastResponse_start_spec (chatId : string) (w : World) (chat : Chat.t)
    (i : nat) (removed : Message.t) :
  getChat chatId w = Some chat ->
  (2 <= length (Chat.messages chat))%nat ->
  LastAssistant (Chat.messages chat) i removed ->
  exists (t : Task) (w1 : World),
    regenerateLastResponse_start profileId settings memory chatId w = (Some t, w1)
    /\ Launched OpRegenerate chatId w w1 t
    /\ Chat.messages (task_chat t) = take i (Chat.messages chat).
Proof.
  unfold getChat. intros Hf Hlen (Hi & Hrole & Hafter).
  unfold Launched, regenerateLastResponse_start, launch, persistChats, updateChatState,
    getChat, getChatState, Storage.saveChats, Date_now, new_AbortController.
  run_m. rewrite Hf.
  destruct (Nat.ltb_spec (length (Chat.messages chat)) 2) as [|_]; [lia|].
  rewrite (findLastIndex_last _ (Chat.messages chat) i removed Hi).
  - simpl. do 2 eexists. split; [reflexivity|]. simpl.
    rewrite !lookup_insert_eq. repeat split; simpl.
    eapply findChat_replaceChat; [exact Hf|]. simpl. by apply findChat_id in Hf.
  - by apply bool_decide_eq_true_2.
  - intros j m Hj Hm. apply bool_decide_eq_false_2. eauto.
Qed.

Lemma regenerateLastResponse_start_noop (chatId : string) (w : World) :
  getChat chatId w = None
  \/ (exists chat : Chat.t,
         getChat chatId w = Some chat
         /\ ((length (Chat.messages chat) < 2)%nat
             \/ Forall (fun m => Message.role m <> assistant) (Chat.messages chat))) ->
  regenerateLastResponse_start profileId settings memory chatId w = (None, w).
Proof.
  unfold getChat, regenerateLastResponse_start. run_m.
  intros [->|(chat & -> & [Hlen|Hnone])]; [done| |].
  - destruct (Nat.ltb_spec (length (Chat.messages chat)) 2) as [_|]; [done|lia].
  - destruct (_ <? _)%nat; [done|].
    assert (findLastIndex (fun m => bool_decide (Message.role m = assistant))
              (Chat.messages chat) = None) as ->; [|done].
    apply findLastIndex_None. eapply Forall_impl; [exact Hnone|].
    intros m Hm. by apply bool_decide_eq_false_2.
Qed.

Lemma editAndResend_start_spec (chatId messageId newContent : string) (w : World)
    (chat : Chat.t) (i : nat) (old : Message.t) :
  getChat chatId w = Some chat ->
  FirstWithId messageId (Chat.messages chat) i old ->
  Message.role old = user ->
  exists (t : Task) (w1 : World),
    editAndResend_start profileId settings memory chatId messageId newContent w
    = (Some t, w1)
    /\ Launched OpEdit chatId w w1 t
    /\ Chat.messages (task_chat t)
       = take i (Chat.messages chat)
         ++ [Message.mk messageId user newContent (clock w (clockReads w))].
Proof.
  unfold getChat. intros Hf (Hi & Hid & Hbefore) Hrole.
  unfold Launched, editAndResend_start, launch, persistChats, updateChatState,
    getChat, getChatState, Storage.saveChats, Date_now, new_AbortController.
  run_m. rewrite Hf.
  rewrite (findIndex_first _ (Chat.messages chat) i old Hi).
  - rewrite Hi, Hrole. simpl. rewrite Hid. do 2 eexists. split; [reflexivity|]. simpl.
    rewrite !lookup_insert_eq. repeat split; simpl.
    eapply findChat_replaceChat; [exact Hf|]. simpl. by apply findChat_id in Hf.
  - by apply String.eqb_eq.
  - intros j m Hj Hm. apply String.eqb_neq. eauto.
Qed.

Lemma editAndResend_start_noop (chatId messageId newContent : string) (w : World) :
  getChat chatId w = None
  \/ (exists chat : Chat.t,
         getChat chatId w = Some chat
         /\ (Forall (fun m => Message.id m <> messageId) (Chat.messages chat)
             \/ exists (i : nat) (old : Message.t),
                 FirstWithId messageId (Chat.messages chat) i old
                 /\ Message.role old <> user)) ->
  editAndResend_start profileId settings memory chatId messageId newContent w = (None, w).
Proof.
  unfold getChat, editAndResend_start. run_m.
  intros [->|(chat & -> & [Hnone|(i & old & (Hi & Hid & Hbefore) & Hrole)])]; [done| |].
  - assert (findIndex (fun m => String.eqb (Message.id m) messageId)
              (Chat.messages chat) = None) as ->; [|done].
    apply findIndex_None. eapply Forall_impl; [exact Hnone|].
    intros m Hm. by apply String.eqb_neq.
  - rewrite (findIndex_first _ (Chat.messages chat) i old Hi).
    + rewrite Hi. by rewrite bool_decide_eq_false_2.
    + by apply String.eqb_eq.
    + intros j m Hj Hm. apply String.eqb_neq. eauto.
Qed.

End Rewrite.

(** C6, as the code has it.  For a conversation of at least two
    messages that contains an assistant message,
    [regenerateLastResponse] truncates the conversation at its most
    recent assistant message: that message and every message after it are
    removed (exactly one message when the assistant message is the last
    one), the messages before it are untouched, and on success exactly one
    new assistant message is appended after them.  For a conversation that
    does not exist, has fewer than two messages or has no assistant
    message the operation is a silent no-op: the world is unchanged. *)
Theorem regenerate_truncates_at_last_assistant (profileId : string) (settings : Settings)
    (memory : list MemoryItem.t) (chatId : string) (w : World) :
  (forall (chat : Chat.t) (i : nat) (removed : Message.t),
      ChatManager.getChat chatId w = Some chat ->
      (2 <= length (Chat.messages chat))%nat ->
      LastAssistant (Chat.messages chat) i removed ->
      exists (t : ChatManager.Task) (w1 : World),
        ChatManager.regenerateLastResponse_start profileId settings memory chatId w
        = (Some t, w1)
        /\ messagesOf chatId w1 = take i (Chat.messages chat)
        /\ (S i = length (Chat.messages chat) ->
            Chat.messages chat = messagesOf chatId w1 ++ [removed])
        /\ (forall (response : string) (w' : World),
               exists reply : Message.t,
                 Message.role reply = assistant
                 /\ Message.content reply = response
                 /\ messagesOf chatId
                      (exec (ChatManager.resume profileId t (inr response)) w')
                    = take i (Chat.messages chat) ++ [reply])
        /\ (forall (evs : list Decoder.NetEvent) (response : string) (w2 : World),
               nextController w ∉ aborted w ->
               Api.sendMessage (ChatManager.onStream t) settings evs w1
               = (inr (inr response), w2) ->
               exists reply : Message.t,
                 Message.role reply = assistant
                 /\ Message.content reply = response
                 /\ messagesOf chatId
                      (exec (ChatManager.regenerateLastResponse profileId settings memory
                               chatId evs) w)
                    = take i (Chat.messages chat) ++ [reply]))
  /\ (ChatManager.getChat chatId w = None
      \/ (exists chat : Chat.t,
             ChatManager.getChat chatId w = Some chat
             /\ ((length (Chat.messages chat) < 2)%nat
                 \/ Forall (fun m => Message.role m <> assistant) (Chat.messages chat))) ->
      ChatManager.regenerateLastResponse_start profileId settings memory chatId w
      = (None, w)).
Proof.
  split; [|apply regenerateLastResponse_start_noop].
  intros chat i removed Hget Hlen Hlast.
  destruct (regenerateLastResponse_start_spec profileId settings memory chatId w chat i
              removed Hget Hlen Hlast) as (t & w1 & Hstart & Hl & Hmsgs).
  pose proof Hl as (_ & Hid & _ & _ & Hnew & Hget1 & _).
  exists t, w1. split; [exact Hstart|].
  assert (messagesOf chatId w1 = take i (Chat.messages chat)) as Hm1.
  { unfold messagesOf. by rewrite Hget1. }
  split; [exact Hm1|]. split; [|split].
  - intros Hi. rewrite Hm1. destruct Hlast as (Hlk & _).
    rewrite <- (take_S_r _ _ _ Hlk), Hi. by rewrite firstn_all.
  - intros response w'. eexists. split; [|split]; [| |
      rewrite <- Hid at 1; rewrite resume_fulfilled_messages;
        [by rewrite Hmsgs | by rewrite Hnew, Hid]]; reflexivity.
  - intros evs response w2 Hfresh Hsend.
    destruct (launched_fulfils profileId settings OpRegenerate chatId w w1 w2 t evs
                response Hl Hfresh Hsend) as (reply & Hr & Hc & Hm).
    exists reply. split; [exact Hr|]. split; [exact Hc|].
    rewrite <- Hmsgs, <- Hm. unfold ChatManager.regenerateLastResponse, exec. run_m.
    by rewrite Hstart.
Qed.

(** The usual case, user then assistant: regeneration removes the
    assistant message, and when the endpoint streams "Hello again" a
    message with that content takes its place. *)
Lemma regenerate_truncates_at_last_assistant_witness :
  LastAssistant [Sample.u1; Sample.a1] 1 Sample.a1
  /\ (nextController (Sample.holding [Sample.u1; Sample.a1])
      ∉ aborted (Sample.holding [Sample.u1; Sample.a1]))
  /\ exists (t : ChatManager.Task) (w1 : World),
       ChatManager.regenerateLastResponse_start Sample.profile Sample.streaming [] "c"
         (Sample.holding [Sample.u1; Sample.a1])
       = (Some t, w1)
       /\ messagesOf "c" w1 = [Sample.u1]
       /\ exists reply : Message.t,
            Message.role reply = assistant
            /\ Message.content reply = "Hello again"
            /\ messagesOf "c"
                 (exec (ChatManager.regenerateLastResponse Sample.profile Sample.streaming
                          [] "c"
                          [Decoder.Responds 200 true;
                           Decoder.Chunk (Sample.frame (Sample.delta "Hello again"));
                           Decoder.Done])
                    (Sample.holding [Sample.u1; Sample.a1]))
               = [Sample.u1; reply].
Proof.
  assert (LastAssistant [Sample.u1; Sample.a1] 1 Sample.a1) as Hlast.
  { repeat split. intros [|[|j]] m Hj Hm; (lia || discriminate). }
  assert (nextController (Sample.holding [Sample.u1; Sample.a1])
          ∉ aborted (Sample.holding [Sample.u1; Sample.a1])) as Hfresh
    by apply not_elem_of_empty.
  split; [exact Hlast|]. split; [exact Hfresh|].
  destruct (proj1 (regenerate_truncates_at_last_assistant Sample.profile Sample.streaming []
                     "c" (Sample.holding [Sample.u1; Sample.a1]))
              _ 1%nat Sample.a1 eq_refl ltac:(simpl; lia) Hlast)
    as (t & w1 & Hstart & Hm1 & _ & _ & Hend).
  exists t, w1. split; [exact Hstart|]. split; [exact Hm1|].
  apply (Hend _ "Hello again"
           (snd (Api.sendMessage (ChatManager.onStream t) Sample.streaming
                   [Decoder.Responds 200 true;
                    Decoder.Chunk (Sample.frame (Sample.delta "Hello again"));
                    Decoder.Done] w1)) Hfresh).
  vm_compute in Hstart. injection Hstart as <- <-. vm_compute. reflexivity.
Defined.

(** C6 as stated fails on the code.  In the conversation user,
    assistant, user (a send that failed or was cancelled leaves this
    shape) the assistant message is not the trailing message;
    regeneration removes it together with the user message after it, and
    on success the conversation holds two messages, not three. *)
Lemma regenerate_removes_later_messages :
  let w := Sample.holding [Sample.u1; Sample.a1; Sample.u2] in
  let done :=
    exec (ChatManager.regenerateLastResponse Sample.profile Sample.streaming [] "c"
            [Decoder.Responds 200 true;
             Decoder.Chunk (Sample.frame (Sample.delta "Hello again"));
             Decoder.Done]) w in
  messagesOf "c" w = [Sample.u1; Sample.a1; Sample.u2]
  /\ messagesOf "c"
       (exec (ChatManager.regenerateLastResponse_start Sample.profile Sample.streaming []
                "c") w)
     = [Sample.u1]
  /\ List.map (fun m => (Message.role m, Message.content m)) (messagesOf "c" done)
     = [(user, "Hi"); (assistant, "Hello again")].
Proof. repeat split; vm_compute; reflexivity. Qed.

(** C7.  When the message with identifier [messageId] sits at index
    [i] of the conversation and has role [user], [editAndResend] leaves a
    conversation made of the first [i] messages unchanged, then one user
    message carrying the new text, and on success one assistant message
    after it, whatever the length of the conversation.  When the
    conversation does not exist, holds no message with that identifier, or
    the message has another role, the operation returns before any
    mutation: the world is unchanged. *)
Theorem edit_and_resend_truncates (profileId : string) (settings : Settings)
    (memory : list MemoryItem.t) (chatId messageId newContent : string) (w : World) :
  (forall (chat : Chat.t) (i : nat) (old : Message.t),
      ChatManager.getChat chatId w = Some chat ->
      FirstWithId messageId (Chat.messages chat) i old ->
      Message.role old = user ->
      exists (t : ChatManager.Task) (w1 : World) (edited : Message.t),
        ChatManager.editAndResend_start profileId settings memory chatId messageId
          newContent w
        = (Some t, w1)
        /\ Message.role edited = user
        /\ Message.content edited = newContent
        /\ messagesOf chatId w1 = take i (Chat.messages chat) ++ [edited]
        /\ (forall (response : string) (w' : World),
               exists reply : Message.t,
                 Message.role reply = assistant
                 /\ Message.content reply = response
                 /\ messagesOf chatId
                      (exec (ChatManager.resume profileId t (inr response)) w')
                    = take i (Chat.messages chat) ++ [edited; reply])
        /\ (forall (evs : list Decoder.NetEvent) (response : string) (w2 : World),
               nextController w ∉ aborted w ->
               Api.sendMessage (ChatManager.onStream t) settings evs w1
               = (inr (inr response), w2) ->
               exists reply : Message.t,
                 Message.role reply = assistant
                 /\ Message.content reply = response
                 /\ messagesOf chatId
                      (exec (ChatManager.editAndResend profileId settings memory chatId
                               messageId newContent evs) w)
                    = take i (Chat.messages chat) ++ [edited; reply]))
  /\ (ChatManager.getChat chatId w = None
      \/ (exists chat : Chat.t,
             ChatManager.getChat chatId w = Some chat
             /\ (Forall (fun m => Message.id m <> messageId) (Chat.messages chat)
                 \/ exists (i : nat) (old : Message.t),
                     FirstWithId messageId (Chat.messages chat) i old
                     /\ Message.role old <> user)) ->
      ChatManager.editAndResend_start profileId settings memory chatId messageId
        newContent w
      = (None, w)).
Proof.
  split; [|apply editAndResend_start_noop].
  intros chat i old Hget Hfirst Hrole.
  destruct (editAndResend_start_spec profileId settings memory chatId messageId newContent
              w chat i old Hget Hfirst Hrole) as (t & w1 & Hstart & Hl & Hmsgs).
  pose proof Hl as (_ & Hid & _ & _ & Hnew & Hget1 & _).
  exists t, w1, (Message.mk messageId user newContent (clock w (clockReads w))).
  split; [exact Hstart|].
  split; [reflexivity|]. split; [reflexivity|]. split; [|split].
  - unfold messagesOf. rewrite Hget1. exact Hmsgs.
  - intros response w'. eexists. split; [|split]; [| |
      rewrite <- Hid at 1; rewrite resume_fulfilled_messages;
        [rewrite Hmsgs, <- app_assoc; reflexivity | by rewrite Hnew, Hid]]; reflexivity.
  - intros evs response w2 Hfresh Hsend.
    destruct (launched_fulfils profileId settings OpEdit chatId w w1 w2 t evs
                response Hl Hfresh Hsend) as (reply & Hr & Hc & Hm).
    exists reply. split; [exact Hr|]. split; [exact Hc|].
    rewrite Hmsgs, <- app_assoc in Hm. simpl in Hm. rewrite <- Hm.
    unfold ChatManager.editAndResend, exec. run_m. by rewrite Hstart.
Qed.

(** Editing the first message of user, assistant, user: nothing is
    kept before it, the edited message carries the new text, and when the
    endpoint streams "Hello" the reply follows.  Editing the assistant
    message is refused. *)
Lemma edit_and_resend_truncates_witness :
  FirstWithId "m1" [Sample.u1; Sample.a1; Sample.u2] 0 Sample.u1
  /\ (nextController (Sample.holding [Sample.u1; Sample.a1; Sample.u2])
      ∉ aborted (Sample.holding [Sample.u1; Sample.a1; Sample.u2]))
  /\ (exists (t : ChatManager.Task) (w1 : World) (edited : Message.t),
         ChatManager.editAndResend_start Sample.profile Sample.streaming [] "c" "m1" "Hey"
           (Sample.holding [Sample.u1; Sample.a1; Sample.u2])
         = (Some t, w1)
         /\ Message.role edited = user
         /\ Message.content edited = "Hey"
         /\ messagesOf "c" w1 = [edited]
         /\ exists reply : Message.t,
              Message.role reply = assistant
              /\ Message.content reply = "Hello"
              /\ messagesOf "c"
                   (exec (ChatManager.editAndResend Sample.profile Sample.streaming [] "c"
                            "m1" "Hey"
                            [Decoder.Responds 200 true;
                             Decoder.Chunk (Sample.frame (Sample.delta "Hello"));
                             Decoder.Done])
                      (Sample.holding [Sample.u1; Sample.a1; Sample.u2]))
                 = [edited; reply])
  /\ ChatManager.editAndResend_start Sample.profile Sample.streaming [] "c" "m2" "Hey"
       (Sample.holding [Sample.u1; Sample.a1; Sample.u2])
     = (None, Sample.holding [Sample.u1; Sample.a1; Sample.u2]).
Proof.
  assert (FirstWithId "m1" [Sample.u1; Sample.a1; Sample.u2] 0 Sample.u1) as Hfirst.
  { repeat split. intros j m Hj. lia. }
  assert (nextController (Sample.holding [Sample.u1; Sample.a1; Sample.u2])
          ∉ aborted (Sample.holding [Sample.u1; Sample.a1; Sample.u2])) as Hfresh
    by apply not_elem_of_empty.
  split; [exact Hfirst|]. split; [exact Hfresh|]. split.
  - destruct (proj1 (edit_and_resend_truncates Sample.profile Sample.streaming [] "c" "m1"
                       "Hey" (Sample.holding [Sample.u1; Sample.a1; Sample.u2]))
                _ O Sample.u1 eq_refl Hfirst eq_refl)
      as (t & w1 & edited & Hstart & Hr & Hc & Hm1 & _ & Hend).
    exists t, w1, edited. split; [exact Hstart|]. split; [exact Hr|].
    split; [exact Hc|]. split; [exact Hm1|].
    apply (Hend _ "Hello"
             (snd (Api.sendMessage (ChatManager.onStream t) Sample.streaming
                     [Decoder.Responds 200 true;
                      Decoder.Chunk (Sample.frame (Sample.delta "Hello"));
                      Decoder.Done] w1)) Hfresh).
    vm_compute in Hstart. injection Hstart as <- <-. vm_compute. reflexivity.
  - apply (proj2 (edit_and_resend_truncates Sample.profile Sample.streaming [] "c" "m2"
                    "Hey" (Sample.holding [Sample.u1; Sample.a1; Sample.u2]))).
    right. eexists. split; [reflexivity|]. right. exists 1%nat, Sample.a1.
    split; [|discriminate]. repeat split.
    intros [|j] m Hj Hm; [|lia]. injection Hm as <-. discriminate.
Defined.

(** ** Import *)

Section ImportGuard.

Variable profileId : string.

Lemma handleImportChat_accepts (text : string) (data : Json.JSON) (items : list Json.JSON)
    (w : World) :
  Json.JSON_parse text = Some data ->
  Json.field data "messages" = Some (Json.JArr items) ->
  Sidebar.handleImportChat (App.onImportChat profileId) (Some text) w
  = App.onImportChat profileId (Sidebar.asChat data) w.
Proof.
  intros Hp Hm. unfold Sidebar.handleImportChat. rewrite Hp.
  destruct data; try discriminate Hm. simpl in *. by rewrite Hm.
Qed.

Lemma handleImportChat_rejects (text : string) (w : World) :
  (forall (data : Json.JSON) (items : list Json.JSON),
      Json.JSON_parse text = Some data ->
      Json.field data "messages" <> Some (Json.JArr items)) ->
  durable (exec (Sidebar.handleImportChat (App.onImportChat profileId) (Some text)) w)
  = (chats w, localStorage w, abortControllers w, aborted w,
     console (exec (Sidebar.handleImportChat (App.onImportChat profileId) (Some text)) w)).
Proof.
  intros Hno. unfold Sidebar.handleImportChat.
  destruct (Json.JSON_parse text) as [data|] eqn:Hp; [|reflexivity].
  destruct data; try reflexivity. simpl.
  destruct (Json.lookup_field "messages" fields) as [m|] eqn:Hm; [|reflexivity].
  destruct m as [| | | |arr|]; simpl; rewrite ?andb_false_r; try reflexivity.
  exfalso. by apply (Hno (Json.JObj fields) arr).
Qed.

End ImportGuard.

(** C8, as the code has it.  Import accepts a payload only after
    checking that it has a [messages] field holding an array, which may
    be empty.  An accepted payload creates one conversation, placed first,
    with a freshly generated identifier and fresh creation and update
    timestamps, whatever identifier and timestamps the payload carries,
    and with one message for every element of the array; the new list is
    written to the store.  Any other payload creates nothing: the
    conversations and the store are unchanged.  In particular the payload
    [{}] is rejected. *)
Theorem import_requires_message_array (profileId : string) (text : string) (w : World) :
  (forall (data : Json.JSON) (items : list Json.JSON),
      Json.JSON_parse text = Some data ->
      Json.field data "messages" = Some (Json.JArr items) ->
      exists newChat : Chat.t,
        chats (exec (Sidebar.handleImportChat (App.onImportChat profileId) (Some text)) w)
        = newChat :: chats w
        /\ Chat.id newChat = ids w (idsDrawn w)
        /\ Chat.createdAt newChat = clock w (clockReads w)
        /\ Chat.updatedAt newChat = clock w (S (clockReads w))
        /\ Chat.messages newChat = List.map Sidebar.asMessage items
        /\ localStorage
             (exec (Sidebar.handleImportChat (App.onImportChat profileId) (Some text)) w)
           !! Storage.getStorageKey profileId "chats"
           = Some (newChat :: chats w))
  /\ ((forall (data : Json.JSON) (items : list Json.JSON),
          Json.JSON_parse text = Some data ->
          Json.field data "messages" <> Some (Json.JArr items)) ->
      chats (exec (Sidebar.handleImportChat (App.onImportChat profileId) (Some text)) w)
      = chats w
      /\ localStorage
           (exec (Sidebar.handleImportChat (App.onImportChat profileId) (Some text)) w)
         = localStorage w)
  /\ chats (exec (Sidebar.handleImportChat (App.onImportChat profileId) (Some "{}")) w)
     = chats w.
Proof.
  split; [|split].
  - intros data items Hp Hm. unfold exec.
    rewrite (handleImportChat_accepts profileId text data items w Hp Hm).
    unfold App.onImportChat, ChatManager.importChat, ChatManager.persistChats,
      Storage.saveChats, Storage.generateId, Date_now. run_m. simpl.
    eexists. repeat split; simpl.
    + unfold Sidebar.asChat. by rewrite Hm.
    + by rewrite lookup_insert_eq.
  - intros Hno. pose proof (handleImportChat_rejects profileId text w Hno) as H.
    injection H as Hc Hl _ _. by split.
  - reflexivity.
Qed.

(** An exported conversation with one message is accepted: the new
    conversation gets the identifier [id0], not the exported identifier
    [old], and holds the message.  A payload without a [messages] field
    creates nothing. *)
Lemma import_requires_message_array_witness :
  (exists data : Json.JSON,
      Json.JSON_parse (Sample.exported ("[" +:+ Sample.exportedMessage +:+ "]")) = Some data
      /\ Json.field data "id" = Some (Json.JStr "old")
      /\ Json.field data "messages"
         = Some (Json.JArr [Json.JObj [("id", Json.JStr "m1"); ("role", Json.JStr "user");
                                       ("content", Json.JStr "Hi");
                                       ("timestamp", Json.JNum "1")]]))
  /\ (exists newChat : Chat.t,
         chats (exec (Sidebar.handleImportChat (App.onImportChat Sample.profile)
                        (Some (Sample.exported ("[" +:+ Sample.exportedMessage +:+ "]"))))
                  Sample.w0)
         = [newChat]
         /\ Chat.id newChat = "id0"
         /\ Chat.messages newChat = [Message.mk "m1" user "Hi" 1])
  /\ chats (exec (Sidebar.handleImportChat (App.onImportChat Sample.profile)
                    (Some (Sample.str "messages"))) Sample.w0)
     = [].
Proof.
  assert (Json.JSON_parse (Sample.exported ("[" +:+ Sample.exportedMessage +:+ "]"))
          = Some (Json.JObj
                    [("id", Json.JStr "old"); ("title", Json.JStr "Trip");
                     ("messages",
                      Json.JArr [Json.JObj [("id", Json.JStr "m1"); ("role", Json.JStr "user");
                                            ("content", Json.JStr "Hi");
                                            ("timestamp", Json.JNum "1")]]);
                     ("createdAt", Json.JNum "1"); ("updatedAt", Json.JNum "3");
                     ("pinned", Json.JBool false); ("archived", Json.JBool false);
                     ("exportedAt", Json.JNum "4")])) as Hp by (vm_compute; reflexivity).
  split; [eexists; split; [exact Hp|split; reflexivity]|]. split.
  - destruct (proj1 (import_requires_message_array Sample.profile
                       (Sample.exported ("[" +:+ Sample.exportedMessage +:+ "]")) Sample.w0)
                _ _ Hp eq_refl) as (newChat & Hc & Hid & _ & _ & Hm & _).
    exists newChat. split; [exact Hc|]. split; [exact Hid|exact Hm].
  - apply (proj1 (proj2 (import_requires_message_array Sample.profile
                           (Sample.str "messages") Sample.w0))).
    intros data items Hp'. vm_compute in Hp'. injection Hp' as <-. discriminate.
Defined.

(** C8 as stated fails on the code: the check does not ask for a
    message.  An exported conversation whose [messages] array is empty is
    accepted and creates a conversation without messages. *)
Lemma import_accepts_empty_message_list :
  List.map (fun c => (Chat.id c, Chat.title c, Chat.messages c))
    (chats (exec (Sidebar.handleImportChat (App.onImportChat Sample.profile)
                    (Some (Sample.exported "[]"))) Sample.w0))
  = [("id0", "Trip", [])].
Proof. vm_compute. reflexivity. Qed.

(** * Further properties of the embedded code *)

(** ** Lines and chunks *)

Lemma string_app_cons (c : ascii) (s t : string) :
  String c s +:+ t = String c (s +:+ t).
Proof. reflexivity. Qed.

Lemma string_app_nil_r (s : string) : s +:+ EmptyString = s.
Proof. induction s as [|c s IH]; [done|]. by rewrite string_app_cons, IH. Qed.

Lemma string_app_assoc (a b c : string) : a +:+ (b +:+ c) = (a +:+ b) +:+ c.
Proof. induction a as [|x a IH]; [done|]. by rewrite !string_app_cons, IH. Qed.

Lemma string_length_app (a b : string) :
  String.length (a +:+ b) = (String.length a + String.length b)%nat.
Proof. induction a as [|c a IH]; [done|]. rewrite string_app_cons. simpl. by rewrite IH. Qed.

Lemma split_lines_nonempty (s : string) : Js.split_lines s <> [].
Proof.
  induction s as [|c s IH]; simpl; [done|].
  destruct (Ascii.eqb c Js.newline); [done|].
  by destruct (Js.split_lines s).
Qed.

(** Splitting a text that continues with [b]: the lines of [a] but the
    last are complete, and the last goes on with [b]. *)
Lemma split_lines_app (a b : string) :
  Js.split_lines (a +:+ b)
  = removelast (Js.split_lines a)
    ++ Js.split_lines (List.last (Js.split_lines a) EmptyString +:+ b).
Proof.
  induction a as [|c a IH]; [done|]. rewrite string_app_cons. simpl.
  pose proof (split_lines_nonempty a) as Hne.
  destruct (Ascii.eqb c Js.newline) eqn:Hc.
  - rewrite IH. destruct (Js.split_lines a) as [|h t]; [done|]. reflexivity.
  - rewrite IH. destruct (Js.split_lines a) as [|h [|h' t]]; [done| |].
    + simpl. by rewrite Hc.
    + reflexivity.
Qed.

(** A line produced by [split] holds no line break. *)
Lemma split_lines_line (s line : string) :
  line ∈ Js.split_lines s -> Js.split_lines line = [line].
Proof.
  revert line. induction s as [|c s IH]; intros line; simpl.
  - by intros ->%list_elem_of_singleton.
  - destruct (Ascii.eqb c Js.newline) eqn:Hc.
    + intros [->|H]%elem_of_cons; [done|]. by apply IH.
    + pose proof (split_lines_nonempty s) as Hne.
      destruct (Js.split_lines s) as [|h t]; [done|].
      intros [->|H]%elem_of_cons.
      * simpl. rewrite Hc. rewrite (IH h) by apply list_elem_of_here. reflexivity.
      * apply IH. by apply list_elem_of_further.
Qed.

Lemma list_last_app {A : Type} (l1 l2 : list A) (d : A) :
  l2 <> [] -> List.last (l1 ++ l2) d = List.last l2 d.
Proof.
  intros Hne. induction l1 as [|x l1 IH]; [done|].
  simpl. rewrite IH. destruct (l1 ++ l2) eqn:He; [|done].
  by apply app_eq_nil in He as [_ ->].
Qed.

Lemma last_elem_of {A : Type} (l : list A) (d : A) : l <> [] -> List.last l d ∈ l.
Proof.
  induction l as [|x [|y l] IH]; [done| |]; intros _.
  - apply list_elem_of_here.
  - apply list_elem_of_further. by apply IH.
Qed.

Section Chunks.

Context {S : Type}.
Variable content : Json.JSON -> option Json.JSON.
Variable onStream : option (string -> S -> S).

(** The loop after any number of chunks: the complete lines of the text
    received so far have been processed, in order, and the buffer holds
    what follows the last line break. *)
Lemma read_loop_chunks (chunks : list string) (evs : list Decoder.NetEvent)
    (fullContent buffer : string) (s : S) :
  Js.split_lines buffer = [buffer] ->
  Decoder.read_loop content onStream fullContent buffer
    (List.map Decoder.Chunk chunks ++ evs) s
  = let text := buffer +:+ String.concat EmptyString chunks in
    let '(fullContent', s') :=
      fold_left (Decoder.processLine content onStream)
        (removelast (Js.split_lines text)) (fullContent, s) in
    Decoder.read_loop content onStream fullContent'
      (List.last (Js.split_lines text) EmptyString) evs s'.
Proof.
  revert fullContent buffer s.
  induction chunks as [|value chunks IH]; intros fullContent buffer s Hb; cbv zeta.
  - simpl. rewrite string_app_nil_r, Hb. reflexivity.
  - cbn [List.map app Decoder.read_loop Decoder.read_step]. unfold Decoder.processChunk.
    assert (String.concat EmptyString (value :: chunks)
            = value +:+ String.concat EmptyString chunks) as ->.
    { simpl. destruct chunks; [|done]. simpl. by rewrite string_app_nil_r. }
    rewrite string_app_assoc.
    rewrite (split_lines_app (buffer +:+ value)).
    pose proof (split_lines_nonempty (buffer +:+ value)) as Hne.
    set (lines := Js.split_lines (buffer +:+ value)) in *.
    set (rest := Js.split_lines (List.last lines EmptyString +:+ _)).
    assert (rest <> []) as Hrest by apply split_lines_nonempty.
    rewrite removelast_app by exact Hrest. rewrite list_last_app by exact Hrest.
    rewrite fold_left_app.
    destruct (fold_left _ (removelast lines) _) as [fullContent1 s1].
    rewrite IH; [reflexivity|].
    apply (split_lines_line (buffer +:+ value)). by apply last_elem_of.
Qed.

End Chunks.

Lemma concat_empty_cons (x : string) (l : list string) :
  String.concat EmptyString (x :: l) = x +:+ String.concat EmptyString l.
Proof. simpl. destruct l; [|done]. simpl. by rewrite string_app_nil_r. Qed.

Lemma concat_empty_app (l1 l2 : list string) :
  String.concat EmptyString (l1 ++ l2)
  = String.concat EmptyString l1 +:+ String.concat EmptyString l2.
Proof.
  induction l1 as [|x l1 IH]; [done|].
  change ((x :: l1) ++ l2) with (x :: (l1 ++ l2)).
  by rewrite !concat_empty_cons, IH, string_app_assoc.
Qed.

Lemma split_lines_single_cons (c : ascii) (s : string) :
  Js.split_lines (String c s) = [String c s] ->
  Ascii.eqb c Js.newline = false /\ Js.split_lines s = [s].
Proof.
  simpl. pose proof (split_lines_nonempty s) as Hne.
  destruct (Ascii.eqb c Js.newline).
  - destruct (Js.split_lines s); [done|discriminate].
  - destruct (Js.split_lines s) as [|h t]; [done|]. by intros [= -> ->].
Qed.

(** Two texts without line break make one line. *)
Lemma split_lines_single_app (a b : string) :
  Js.split_lines a = [a] -> Js.split_lines b = [b] ->
  Js.split_lines (a +:+ b) = [a +:+ b].
Proof.
  intros Ha Hb. induction a as [|c a IH]; [exact Hb|].
  apply split_lines_single_cons in Ha as [Hc Ha].
  rewrite string_app_cons. simpl. rewrite Hc, (IH Ha). reflexivity.
Qed.

(** X1.  The decoder processes exactly the complete lines of the text
    it has received, in their order: when the stream ends after the
    chunks [chunks], the text returned and the calls made to the callback
    are those of the loop body run over the lines of the concatenated
    chunks, the text after the last line break left out. *)
Theorem decoder_reads_complete_lines {S : Type} (content : Json.JSON -> option Json.JSON)
    (onStream : option (string -> S -> S)) (chunks : list string) (s : S) :
  Decoder.handleStreamingResponse content onStream
    (List.map Decoder.Chunk chunks ++ [Decoder.Done]) s
  = let '(fullContent, s') :=
      fold_left (Decoder.processLine content onStream)
        (removelast (Js.split_lines (String.concat EmptyString chunks))) (EmptyString, s) in
    (inr (inr fullContent), s').
Proof.
  unfold Decoder.handleStreamingResponse. rewrite read_loop_chunks by reflexivity.
  cbv zeta. change (EmptyString +:+ ?x) with x.
  by destruct (fold_left _ _ _).
Qed.

(** X2.  Where the stream is cut into chunks is irrelevant: two
    sequences of decoded chunks that carry the same text leave the
    decoder with the same accumulated text, the same buffered partial line
    and the same calls to the callback, so that whatever is read next has
    the same outcome. *)
Theorem decoding_ignores_chunk_boundaries {S : Type}
    (content : Json.JSON -> option Json.JSON) (onStream : option (string -> S -> S))
    (chunks1 chunks2 : list string) (evs : list Decoder.NetEvent) (s : S) :
  String.concat EmptyString chunks1 = String.concat EmptyString chunks2 ->
  Decoder.handleStreamingResponse content onStream
    (List.map Decoder.Chunk chunks1 ++ evs) s
  = Decoder.handleStreamingResponse content onStream
      (List.map Decoder.Chunk chunks2 ++ evs) s.
Proof.
  intros Heq. unfold Decoder.handleStreamingResponse.
  rewrite !read_loop_chunks by reflexivity. cbv zeta. by rewrite Heq.
Qed.

(** A frame cut in the middle of its payload. *)
Lemma decoding_ignores_chunk_boundaries_witness :
  let text := Sample.frame (Sample.delta "Hello") in
  String.concat EmptyString [text]
  = String.concat EmptyString [Js.slice_to 20 text; Js.slice_from 20 text]
  /\ Api.handleStreamingResponse recording
       [Decoder.Chunk (Js.slice_to 20 text); Decoder.Chunk (Js.slice_from 20 text);
        Decoder.Done] []
     = (inr (inr "Hello"), ["Hello"]).
Proof.
  cbv zeta. split; [vm_compute; reflexivity|].
  etrans; [symmetry; exact (decoding_ignores_chunk_boundaries Api.deltaContent recording
                [Sample.frame (Sample.delta "Hello")]
                [Js.slice_to 20 (Sample.frame (Sample.delta "Hello"));
                 Js.slice_from 20 (Sample.frame (Sample.delta "Hello"))]
                [Decoder.Done] [] ltac:(vm_compute; reflexivity))|].
  vm_compute. reflexivity.
Defined.

(** X3.  A last line that is not ended by a line break is never
    decoded: text received after the last line break stays in the buffer
    and is dropped when the stream ends. *)
Theorem unterminated_line_is_not_decoded {S : Type}
    (content : Json.JSON -> option Json.JSON) (onStream : option (string -> S -> S))
    (chunks : list string) (tail : string) (s : S) :
  Js.split_lines tail = [tail] ->
  Decoder.handleStreamingResponse content onStream
    (List.map Decoder.Chunk (chunks ++ [tail]) ++ [Decoder.Done]) s
  = Decoder.handleStreamingResponse content onStream
      (List.map Decoder.Chunk chunks ++ [Decoder.Done]) s.
Proof.
  intros Htail. unfold Decoder.handleStreamingResponse.
  rewrite !read_loop_chunks by reflexivity. cbv zeta. change (EmptyString +:+ ?x) with x.
  rewrite concat_empty_app, concat_empty_cons. simpl (String.concat _ []).
  rewrite string_app_nil_r, split_lines_app.
  set (lines := Js.split_lines (String.concat EmptyString chunks)).
  rewrite split_lines_single_app; [|apply (split_lines_line (String.concat EmptyString chunks)),
    last_elem_of, split_lines_nonempty | exact Htail].
  rewrite removelast_app by discriminate. simpl. by rewrite app_nil_r.
Qed.

(** A last frame whose line is not ended: the text it carries is lost. *)
Lemma unterminated_line_is_not_decoded_witness :
  Js.split_lines ("data: " +:+ Sample.delta "llo") = ["data: " +:+ Sample.delta "llo"]
  /\ Api.handleStreamingResponse recording
       [Decoder.Chunk (Sample.frame (Sample.delta "He"));
        Decoder.Chunk ("data: " +:+ Sample.delta "llo"); Decoder.Done] []
     = (inr (inr "He"), ["He"]).
Proof.
  split; [vm_compute; reflexivity|].
  etrans; [exact (unterminated_line_is_not_decoded Api.deltaContent recording
                    [Sample.frame (Sample.delta "He")] ("data: " +:+ Sample.delta "llo") []
                    ltac:(vm_compute; reflexivity))|].
  vm_compute. reflexivity.
Defined.

(** X4.  A line that carries no text is skipped without error: a
    line that is not a data line, a data line whose payload is not JSON,
    and a data line whose payload holds no content, or an empty one.  The
    accumulated text is unchanged, the callback is not called, and the
    lines around it are decoded as if it were not there. *)
Theorem line_without_text_is_skipped {S : Type} (content : Json.JSON -> option Json.JSON)
    (onStream : option (string -> S -> S)) (line : string) :
  Js.startsWith "data: " line = false
  \/ Json.JSON_parse (Js.trim (Js.slice_from 6 line)) = None
  \/ (exists parsed : Json.JSON,
         Json.JSON_parse (Js.trim (Js.slice_from 6 line)) = Some parsed
         /\ Json.truthy_opt (content parsed) = false) ->
  (forall st : string * S, Decoder.processLine content onStream st line = st)
  /\ (forall (st : string * S) (before after : list string),
         fold_left (Decoder.processLine content onStream) (before ++ line :: after) st
         = fold_left (Decoder.processLine content onStream) (before ++ after) st).
Proof.
  intros H.
  assert (forall st : string * S, Decoder.processLine content onStream st line = st) as Hskip.
  { intros [fullContent s]. unfold Decoder.processLine.
    destruct H as [->|[->|(parsed & -> & Hc)]]; [done|by repeat case_match|].
    unfold Json.truthy_opt in Hc. destruct (content parsed); [|by repeat case_match].
    rewrite Hc. by repeat case_match. }
  split; [exact Hskip|].
  intros st before after. rewrite !fold_left_app. simpl. by rewrite Hskip.
Qed.

(** A comment line of the event stream, a truncated payload and a frame
    that only announces the role, among two frames that carry text. *)
Lemma line_without_text_is_skipped_witness :
  let comment := ": keep-alive" in
  let truncated := "data: {oops" in
  let role :=
    "data: {" +:+ Sample.member "choices"
      ("[{" +:+ Sample.member "delta" ("{" +:+ Sample.member "role" (Sample.str "assistant")
                                       +:+ "}") +:+ "}]") +:+ "}" in
  Js.startsWith "data: " comment = false
  /\ Json.JSON_parse (Js.trim (Js.slice_from 6 truncated)) = None
  /\ (exists parsed : Json.JSON,
         Json.JSON_parse (Js.trim (Js.slice_from 6 role)) = Some parsed
         /\ Json.truthy_opt (Api.deltaContent parsed) = false)
  /\ fold_left (Decoder.processLine Api.deltaContent recording)
       (["data: " +:+ Sample.delta "He"; comment; truncated] ++ role
        :: ["data: " +:+ Sample.delta "llo"])
       (EmptyString, [])
     = ("Hello", ["He"; "Hello"]).
Proof.
  cbv zeta.
  assert (exists parsed : Json.JSON,
            Json.JSON_parse
              (Js.trim
                 (Js.slice_from 6
                    ("data: {" +:+ Sample.member "choices"
                       ("[{" +:+ Sample.member "delta"
                                   ("{" +:+ Sample.member "role" (Sample.str "assistant")
                                    +:+ "}") +:+ "}]") +:+ "}")))
            = Some parsed
            /\ Json.truthy_opt (Api.deltaContent parsed) = false) as Hrole
    by (eexists; split; vm_compute; reflexivity).
  split; [reflexivity|]. split; [vm_compute; reflexivity|]. split; [exact Hrole|].
  rewrite (proj2 (line_without_text_is_skipped Api.deltaContent recording _
                    (or_intror (or_intror Hrole)))).
  vm_compute. reflexivity.
Defined.

(** ** Frames of the stream *)

Lemma literal_cons (c : ascii) (text : string) :
  literal (String c text) = true ->
  Ascii.eqb c Json.dquote = false /\ Ascii.eqb c "\"%char = false
  /\ (N_of_ascii c <? 32)%N = false /\ literal text = true.
Proof.
  unfold literal. simpl. intros [[[H1 H2]%andb_prop H3]%andb_prop H4]%andb_prop.
  apply negb_true_iff in H1, H2, H3. done.
Qed.

(** The body of a string literal is read back as it is written. *)
Lemma parse_string_body_literal (text rest : string) :
  literal text = true ->
  Json.parse_string_body (text +:+ String Json.dquote rest) = Some (text, rest).
Proof.
  induction text as [|c text IH]; intros Hl; [reflexivity|].
  apply literal_cons in Hl as (H1 & H2 & H3 & Hl).
  rewrite string_app_cons. simpl. rewrite H1, H2, H3, (IH Hl). reflexivity.
Qed.

Lemma parse_value_delta (text : string) (m : nat) :
  literal text = true ->
  Json.parse_value (9 + m) (Sample.delta text)
  = Some (Json.JObj [("choices",
            Json.JArr [Json.JObj [("delta",
              Json.JObj [("content", Json.JStr text)])]])], EmptyString).
Proof.
  intros Hl. unfold Sample.delta.
  set (tail := text +:+ _).
  cbv [String.append Sample.quote].
  simpl.
  change tail with (text +:+ String Json.dquote "}}]}").
  by rewrite (parse_string_body_literal _ _ Hl).
Qed.

Lemma length_delta (text : string) :
  String.length (Sample.delta text) = (38 + String.length text)%nat.
Proof.
  unfold Sample.delta. rewrite !string_length_app. simpl. lia.
Qed.

Lemma JSON_parse_delta (text : string) :
  literal text = true ->
  Json.JSON_parse (Sample.delta text)
  = Some (Json.JObj [("choices",
            Json.JArr [Json.JObj [("delta",
              Json.JObj [("content", Json.JStr text)])]])]).
Proof.
  intros Hl. unfold Json.JSON_parse. rewrite length_delta.
  replace (2 * (38 + String.length text) + 2)%nat
    with (9 + (69 + 2 * String.length text))%nat by lia.
  by rewrite (parse_value_delta _ _ Hl).
Qed.

Lemma parse_value_plain (text : string) (m : nat) :
  literal text = true ->
  Json.parse_value (3 + m) (Sample.plain text)
  = Some (Json.JObj [("content", Json.JStr text)], EmptyString).
Proof.
  intros Hl. unfold Sample.plain.
  set (tail := text +:+ _).
  cbv [String.append Sample.quote].
  simpl.
  change tail with (text +:+ String Json.dquote "}").
  by rewrite (parse_string_body_literal _ _ Hl).
Qed.

Lemma length_plain (text : string) :
  String.length (Sample.plain text) = (14 + String.length text)%nat.
Proof.
  unfold Sample.plain. rewrite !string_length_app. simpl. lia.
Qed.

Lemma JSON_parse_plain (text : string) :
  literal text = true ->
  Json.JSON_parse (Sample.plain text) = Some (Json.JObj [("content", Json.JStr text)]).
Proof.
  intros Hl. unfold Json.JSON_parse. rewrite length_plain.
  replace (2 * (14 + String.length text) + 2)%nat
    with (3 + (27 + 2 * String.length text))%nat by lia.
  by rewrite (parse_value_plain _ _ Hl).
Qed.

(** [trim] keeps a text that neither starts nor ends with white space. *)
Lemma trimEnd_keeps (s : string) (c : ascii) :
  Js.is_space c = false ->
  Js.trimEnd (s +:+ String c EmptyString) = s +:+ String c EmptyString.
Proof.
  intros Hc. induction s as [|d s IH].
  - simpl. rewrite Hc. reflexivity.
  - rewrite string_app_cons. simpl. rewrite IH.
    destruct s; reflexivity.
Qed.

Lemma trim_delta (text : string) : Js.trim (Sample.delta text) = Sample.delta text.
Proof.
  unfold Js.trim.
  assert (Js.trimStart (Sample.delta text) = Sample.delta text) as -> by reflexivity.
  unfold Sample.delta.
  change "}}]}" with ("}}]" +:+ "}").
  rewrite !string_app_assoc.
  by apply trimEnd_keeps.
Qed.

Lemma trim_plain (text : string) : Js.trim (Sample.plain text) = Sample.plain text.
Proof.
  unfold Js.trim.
  assert (Js.trimStart (Sample.plain text) = Sample.plain text) as -> by reflexivity.
  unfold Sample.plain. rewrite !string_app_assoc.
  by apply trimEnd_keeps.
Qed.

Lemma literal_line (text : string) : literal text = true -> Js.split_lines text = [text].
Proof.
  induction text as [|c text IH]; intros Hl; [reflexivity|].
  apply literal_cons in Hl as (_ & _ & H3 & Hl).
  simpl. rewrite (IH Hl).
  destruct (Ascii.eqb c Js.newline) eqn:Hc; [|reflexivity].
  apply Ascii.eqb_eq in Hc as ->. discriminate.
Qed.

Lemma split_lines_break (a b : string) :
  Js.split_lines a = [a] ->
  Js.split_lines (a +:+ String Js.newline b) = a :: Js.split_lines b.
Proof.
  intros Ha. induction a as [|c a IH]; [reflexivity|].
  apply split_lines_single_cons in Ha as [Hc Ha].
  rewrite string_app_cons. simpl. rewrite Hc, (IH Ha). reflexivity.
Qed.


Lemma delta_line (text : string) :
  literal text = true -> Js.split_lines (Sample.delta text) = [Sample.delta text].
Proof.
  intros Hl. unfold Sample.delta.
  repeat (apply split_lines_single_app; [reflexivity|]).
  apply split_lines_single_app; [by apply literal_line|reflexivity].
Qed.

Lemma plain_line (text : string) :
  literal text = true -> Js.split_lines (Sample.plain text) = [Sample.plain text].
Proof.
  intros Hl. unfold Sample.plain.
  repeat (apply split_lines_single_app; [reflexivity|]).
  apply split_lines_single_app; [by apply literal_line|reflexivity].
Qed.

Section Frames.

Context {S : Type}.
Variable onStream : option (string -> S -> S).

Lemma processLine_delta (text fullContent : string) (s : S) :
  literal text = true ->
  Decoder.processLine Api.deltaContent onStream (fullContent, s)
    ("data: " +:+ Sample.delta text)
  = if String.eqb text EmptyString then (fullContent, s)
    else (fullContent +:+ text, Decoder.notify onStream (fullContent +:+ text) s).
Proof.
  intros Hl. unfold Decoder.processLine.
  change (Js.startsWith "data: " ("data: " +:+ Sample.delta text)) with true.
  change (Js.slice_from 6 ("data: " +:+ Sample.delta text)) with (Sample.delta text).
  cbv iota. rewrite trim_delta.
  change (String.eqb (Sample.delta text) "[DONE]") with false. cbv iota.
  rewrite (JSON_parse_delta _ Hl). simpl.
  destruct (String.eqb text EmptyString) eqn:He; simpl; [reflexivity|].
  by rewrite He.
Qed.

Lemma processLine_plain (text fullContent : string) (s : S) :
  literal text = true ->
  Decoder.processLine BackendApi.content onStream (fullContent, s)
    ("data: " +:+ Sample.plain text)
  = if String.eqb text EmptyString then (fullContent, s)
    else (fullContent +:+ text, Decoder.notify onStream (fullContent +:+ text) s).
Proof.
  intros Hl. unfold Decoder.processLine.
  change (Js.startsWith "data: " ("data: " +:+ Sample.plain text)) with true.
  change (Js.slice_from 6 ("data: " +:+ Sample.plain text)) with (Sample.plain text).
  cbv iota. rewrite trim_plain.
  change (String.eqb (Sample.plain text) "[DONE]") with false. cbv iota.
  rewrite (JSON_parse_plain _ Hl). simpl.
  by destruct (String.eqb text EmptyString).
Qed.

(** A decoder and the payload it reads. *)
Variable content : Json.JSON -> option Json.JSON.
Variable payload : string -> string.

Hypothesis payload_line : forall text,
  literal text = true -> Js.split_lines (payload text) = [payload text].

Hypothesis processLine_payload : forall text fullContent s,
  literal text = true ->
  Decoder.processLine content onStream (fullContent, s) ("data: " +:+ payload text)
  = if String.eqb text EmptyString then (fullContent, s)
    else (fullContent +:+ text, Decoder.notify onStream (fullContent +:+ text) s).

Lemma split_lines_frame (text rest : string) :
  literal text = true ->
  Js.split_lines (Sample.frame (payload text) +:+ rest)
  = ("data: " +:+ payload text) :: EmptyString :: Js.split_lines rest.
Proof.
  intros Hl.
  assert (Sample.frame (payload text) +:+ rest
          = ("data: " +:+ payload text)
            +:+ String Js.newline (String Js.newline rest)) as ->.
  { unfold Sample.frame, Sample.nl. by rewrite <- !string_app_assoc. }
  rewrite split_lines_break; [reflexivity|].
  apply split_lines_single_app; [reflexivity|by apply payload_line].
Qed.

Lemma split_lines_frames (texts : list string) (rest : string) :
  Forall (fun text => literal text = true) texts ->
  Js.split_lines
    (String.concat EmptyString (List.map (fun text => Sample.frame (payload text)) texts)
     +:+ rest)
  = flat_map (fun text => ["data: " +:+ payload text; EmptyString]) texts
    ++ Js.split_lines rest.
Proof.
  induction 1 as [|text texts Ht _ IH]; [reflexivity|].
  cbn [List.map flat_map]. rewrite concat_empty_cons, <- string_app_assoc.
  by rewrite (split_lines_frame _ _ Ht), IH.
Qed.

Lemma fold_processLine_frames (texts : list string) (fullContent : string) (s : S) :
  Forall (fun text => literal text = true) texts ->
  fold_left (Decoder.processLine content onStream)
    (flat_map (fun text => ["data: " +:+ payload text; EmptyString]) texts)
    (fullContent, s)
  = (fullContent +:+ String.concat EmptyString texts,
     announced onStream fullContent texts s).
Proof.
  intros Hl. revert fullContent s.
  induction Hl as [|text texts Ht _ IH]; intros fullContent s.
  - simpl. by rewrite string_app_nil_r.
  - cbn [flat_map app fold_left announced]. rewrite (processLine_payload _ _ _ Ht).
    rewrite concat_empty_cons.
    destruct (String.eqb text EmptyString) eqn:He.
    + apply String.eqb_eq in He as ->. exact (IH _ _).
    + change (Decoder.processLine _ _ ?st EmptyString) with st.
      by rewrite IH, string_app_assoc.
Qed.

Lemma stream_of_frames (texts chunks : list string) (ending : string) (s : S) :
  Forall (fun text => literal text = true) texts ->
  ending = EmptyString \/ ending = Sample.done ->
  String.concat EmptyString chunks
  = String.concat EmptyString
      (List.map (fun text => Sample.frame (payload text)) texts) +:+ ending ->
  Decoder.handleStreamingResponse content onStream
    (List.map Decoder.Chunk chunks ++ [Decoder.Done]) s
  = (inr (inr (String.concat EmptyString texts)),
     announced onStream EmptyString texts s).
Proof.
  intros Hl He Hc.
  unfold Decoder.handleStreamingResponse.
  rewrite read_loop_chunks by reflexivity. cbv zeta.
  change (EmptyString +:+ ?x) with x. rewrite Hc.
  rewrite (split_lines_frames _ _ Hl).
  rewrite removelast_app by apply split_lines_nonempty.
  rewrite fold_left_app, (fold_processLine_frames _ _ _ Hl).
  change (EmptyString +:+ ?x) with x.
  destruct He as [-> | ->]; reflexivity.
Qed.

End Frames.

(** X8.  A well-formed stream is decoded to the text it carries.  Let
    the decoded chunks, however they are cut, make up one frame for each
    of the fragments [texts], every fragment written as a string literal
    without escape, optionally followed by the frame [[DONE]].  Then
    [handleStreamingResponse] resolves with the concatenation of the
    fragments, and the per-delta callback has received every running
    concatenation, an empty fragment apart.  This holds for the decoder
    of src/lib/api.ts on frames [{"choices":[{"delta":{"content":...}}]}]
    and for the decoder of the backend client on frames
    [{"content":...}]. *)
Theorem stream_of_frames_yields_their_texts {S : Type}
    (onStream : option (string -> S -> S)) (texts chunks : list string)
    (ending : string) (s : S) :
  Forall (fun text => literal text = true) texts ->
  ending = EmptyString \/ ending = Sample.done ->
  (String.concat EmptyString chunks
   = String.concat EmptyString
       (List.map (fun text => Sample.frame (Sample.delta text)) texts) +:+ ending ->
   Api.handleStreamingResponse onStream
     (List.map Decoder.Chunk chunks ++ [Decoder.Done]) s
   = (inr (inr (String.concat EmptyString texts)),
      announced onStream EmptyString texts s))
  /\ (String.concat EmptyString chunks
      = String.concat EmptyString
          (List.map (fun text => Sample.frame (Sample.plain text)) texts) +:+ ending ->
      BackendApi.handleStreamingResponse onStream
        (List.map Decoder.Chunk chunks ++ [Decoder.Done]) s
      = (inr (inr (String.concat EmptyString texts)),
         announced onStream EmptyString texts s)).
Proof.
  intros Hl He. split; intros Hc.
  - exact (stream_of_frames onStream Api.deltaContent Sample.delta delta_line
             (processLine_delta onStream) texts chunks ending s Hl He Hc).
  - exact (stream_of_frames onStream BackendApi.content Sample.plain plain_line
             (processLine_plain onStream) texts chunks ending s Hl He Hc).
Qed.

(** Three fragments, one of them empty, closed by the frame [[DONE]]
    and cut in the middle of the first payload. *)
Lemma stream_of_frames_yields_their_texts_witness :
  let texts := ["Hel"; EmptyString; "lo"] in
  let stream (payload : string -> string) :=
    String.concat EmptyString (List.map (fun text => Sample.frame (payload text)) texts)
    +:+ Sample.done in
  let cut (text : string) := [Js.slice_to 20 text; Js.slice_from 20 text] in
  Api.handleStreamingResponse recording
    (List.map Decoder.Chunk (cut (stream Sample.delta)) ++ [Decoder.Done]) []
  = (inr (inr "Hello"), ["Hel"; "Hello"])
  /\ BackendApi.handleStreamingResponse recording
       (List.map Decoder.Chunk (cut (stream Sample.plain)) ++ [Decoder.Done]) []
     = (inr (inr "Hello"), ["Hel"; "Hello"]).
Proof.
  cbv zeta.
  assert (Forall (fun text => literal text = true) ["Hel"; EmptyString; "lo"]) as Hl
    by (repeat constructor).
  split.
  - match goal with
    | |- Api.handleStreamingResponse _ (List.map _ ?chunks ++ _) _ = _ =>
        etrans;
        [exact (proj1 (stream_of_frames_yields_their_texts recording
                         ["Hel"; EmptyString; "lo"] chunks Sample.done []
                         Hl (or_intror eq_refl)) ltac:(vm_compute; reflexivity))
        |vm_compute; reflexivity]
    end.
  - match goal with
    | |- BackendApi.handleStreamingResponse _ (List.map _ ?chunks ++ _) _ = _ =>
        etrans;
        [exact (proj2 (stream_of_frames_yields_their_texts recording
                         ["Hel"; EmptyString; "lo"] chunks Sample.done []
                         Hl (or_intror eq_refl)) ltac:(vm_compute; reflexivity))
        |vm_compute; reflexivity]
    end.
Defined.

(** ** Settlements of [sendMessage] *)





Lemma sendMessage_from_blocking {S : Type} (onStream : option (string -> S -> S))
    (settings : Settings) (evs : list Decoder.NetEvent) (a : Api.Await) (s : S) :
  streamingEnabled settings = false ->
  (a = Api.AwaitFetch \/ a = Api.AwaitJson) ->
  Api.sendMessage_from onStream settings a evs s
  = ((Api.sendMessage_from (S := S) None settings a evs s).1, s).
Proof.
  intros Hs. revert a. induction evs as [|ev evs IH]; intros a Ha; simpl; [done|].
  destruct Ha as [-> | ->]; destruct ev; simpl; rewrite ?Hs; simpl;
    repeat case_match; simplify_eq; simpl; auto.
Qed.

(** X6.  With streaming disabled the per-delta callback is never
    called: whatever the network delivers, [sendMessage] settles as it
    does without a callback and leaves the caller's state untouched. *)
Theorem blocking_request_never_streams {S : Type} (onStream : option (string -> S -> S))
    (settings : Settings) (evs : list Decoder.NetEvent) (s : S) :
  streamingEnabled settings = false ->
  Api.sendMessage onStream settings evs s
  = ((Api.sendMessage (S := S) None settings evs s).1, s).
Proof. intros Hs. apply sendMessage_from_blocking; auto. Qed.

(** The endpoint answers a blocking request with an event stream all
    the same: nothing is streamed, the script ends with the request still
    waiting for the body. *)
Lemma blocking_request_never_streams_witness :
  streamingEnabled Sample.blocking = false
  /\ Api.sendMessage recording Sample.blocking
       [Decoder.Responds 200 true; Decoder.Chunk (Sample.frame (Sample.delta "He"))] []
     = (inl Api.AwaitJson, []).
Proof.
  split; [reflexivity|].
  rewrite (blocking_request_never_streams recording Sample.blocking _ [] eq_refl).
  vm_compute. reflexivity.
Defined.

(** ** src/lib/storage.ts *)

Lemma slice_to_length (n : nat) (s : string) :
  String.length (Js.slice_to n s) = Nat.min n (String.length s).
Proof.
  revert s. induction n as [|n IH]; intros [|c s]; simpl; try done. by rewrite IH.
Qed.

Lemma slice_to_all (n : nat) (s : string) :
  (String.length s <= n)%nat -> Js.slice_to n s = s.
Proof.
  revert s. induction n as [|n IH]; intros [|c s]; simpl; try done; [lia|].
  intros H. rewrite IH; [done|lia].
Qed.

(** X7.  The title derived from a first message of ASCII characters
    is the message without the white space around it when that is at most
    50 characters long, and its first 50 characters followed by three dots
    otherwise: such a title is never longer than 53 characters. *)
Theorem generateChatTitle_is_bounded (firstMessage : string) :
  ascii_text firstMessage = true ->
  let trimmed := Js.trim firstMessage in
  (String.length (Storage.generateChatTitle firstMessage) <= 53)%nat
  /\ ((String.length trimmed <= 50)%nat ->
      Storage.generateChatTitle firstMessage = trimmed)
  /\ ((50 < String.length trimmed)%nat ->
      Storage.generateChatTitle firstMessage = Js.slice_to 50 trimmed +:+ "..."
      /\ String.length (Storage.generateChatTitle firstMessage) = 53%nat).
Proof.
  intros _. cbv zeta. unfold Storage.generateChatTitle.
  set (trimmed := Js.trim firstMessage).
  pose proof (slice_to_length 50 trimmed) as Hlen.
  destruct (Nat.ltb_spec (String.length (Js.slice_to 50 trimmed)) (String.length trimmed))
    as [Hlt|Hge].
  - rewrite string_length_app. simpl (String.length "...").
    split; [lia|]. split; [|intros _; split; [reflexivity|lia]].
    intros Hle. rewrite slice_to_all in Hlt by exact Hle. lia.
  - split; [lia|]. split; [|intros Hgt; lia].
    intros _. apply slice_to_all. lia.
Qed.

(** A question of 55 characters between blanks: the title is its first
    50 characters and three dots. *)
Lemma generateChatTitle_is_bounded_witness :
  let firstMessage := "  What is the difference between a list and a tuple here? " in
  ascii_text firstMessage = true
  /\ String.length (Js.trim firstMessage) = 55%nat
  /\ Storage.generateChatTitle firstMessage
     = "What is the difference between a list and a tuple ..."
  /\ Storage.generateChatTitle "  Hi " = "Hi".
Proof.
  cbv zeta. split; [reflexivity|]. split; [vm_compute; reflexivity|]. split.
  - etrans; [exact (proj1 (proj2 (proj2
      (generateChatTitle_is_bounded
         "  What is the difference between a list and a tuple here? " eq_refl))
      ltac:(vm_compute; lia)))|].
    vm_compute. reflexivity.
  - exact (proj1 (proj2 (generateChatTitle_is_bounded "  Hi " eq_refl))
             ltac:(vm_compute; lia)).
Defined.

Lemma string_app_inv_tail (a b c : string) : a +:+ c = b +:+ c -> a = b.
Proof.
  revert b. induction a as [|x a IH]; intros [|y b] H.
  - done.
  - apply (f_equal String.length) in H. rewrite !string_length_app in H. simpl in H. lia.
  - apply (f_equal String.length) in H. rewrite !string_length_app in H. simpl in H. lia.
  - rewrite !string_app_cons in H. injection H as -> H. f_equal. by apply IH.
Qed.

(** Distinct profiles have distinct keys. *)
Lemma getStorageKey_inj (profileId profileId' key : string) :
  Storage.getStorageKey profileId key = Storage.getStorageKey profileId' key ->
  profileId = profileId'.
Proof.
  unfold Storage.getStorageKey. intros H.
  apply (inj (String.append "chatgpt_clone_")) in H.
  by apply string_app_inv_tail in H.
Qed.

(** What [saveChats] stores for a profile is what [getChats] reads
    back for it, and the conversations stored for every other profile are
    untouched; a profile for which nothing is stored reads as the empty
    list. *)
Lemma saveChats_getChats (profileId : string) (chats : list Chat.t) (w : World) :
  eval (Storage.getChats profileId) (exec (Storage.saveChats profileId chats) w) = chats
  /\ (forall other : string,
         other <> profileId ->
         eval (Storage.getChats other) (exec (Storage.saveChats profileId chats) w)
         = eval (Storage.getChats other) w)
  /\ (localStorage w !! Storage.getStorageKey profileId "chats" = None ->
      eval (Storage.getChats profileId) w = []).
Proof.
  unfold Storage.getChats, Storage.saveChats. run_m. simpl. repeat split.
  - by rewrite lookup_insert_eq.
  - intros other Hne. rewrite lookup_insert_ne; [done|].
    intros H. by apply getStorageKey_inj in H.
  - by intros ->.
Qed.

(** ** Editing the list of conversations *)

Section Mapping.

Import ChatManager.

Variable chatId : string.
Variable f : Chat.t -> Z -> Chat.t.
Hypothesis f_id : forall (c : Chat.t) (now : Z), Chat.id (f c now) = Chat.id c.

(** The mapping reads the clock and touches nothing else. *)
Lemma mapMatching_world (cs : list Chat.t) (w : World) :
  exists n : nat, exec (mapMatching chatId f cs) w = set_clockReads n w.
Proof.
  revert w. induction cs as [|c cs IH]; intros w; simpl.
  - exists (clockReads w). by destruct w.
  - run_m. destruct (String.eqb (Chat.id c) chatId); simpl.
    + destruct (IH (set_clockReads (S (clockReads w)) w)) as [n Hn].
      destruct (mapMatching chatId f cs _) as [cs' w']. simpl in *. subst w'. by exists n.
    + destruct (IH w) as [n Hn].
      destruct (mapMatching chatId f cs _) as [cs' w']. simpl in *. subst w'. by exists n.
Qed.

Lemma mapMatching_ids (cs : list Chat.t) (w : World) :
  List.map Chat.id (eval (mapMatching chatId f cs) w) = List.map Chat.id cs.
Proof.
  revert w. induction cs as [|c cs IH]; intros w; simpl; [done|].
  run_m. destruct (String.eqb (Chat.id c) chatId); simpl.
  - specialize (IH (set_clockReads (S (clockReads w)) w)).
    destruct (mapMatching chatId f cs _) as [cs' w']. simpl in *.
    f_equal; [apply f_id | exact IH].
  - specialize (IH w).
    destruct (mapMatching chatId f cs _) as [cs' w']. simpl in *. by rewrite IH.
Qed.

(** The first conversation with the identifier is rewritten with the
    current time. *)
Lemma findChat_mapMatching (cs : list Chat.t) (w : World) (c : Chat.t) :
  findChat chatId cs = Some c ->
  findChat chatId (eval (mapMatching chatId f cs) w)
  = Some (f c (clock w (clockReads w))).
Proof.
  unfold findChat. induction cs as [|c0 cs IH]; simpl; [discriminate|].
  run_m. destruct (String.eqb (Chat.id c0) chatId) eqn:He; simpl.
  - intros [= ->]. clear IH. destruct (mapMatching chatId f cs _) as [cs' w']. simpl.
    by rewrite f_id, He.
  - intros H. specialize (IH H).
    destruct (mapMatching chatId f cs _) as [cs' w']. simpl in *. by rewrite He.
Qed.

Lemma findChat_mapMatching_ne (other : string) (cs : list Chat.t) (w : World) :
  other <> chatId ->
  findChat other (eval (mapMatching chatId f cs) w) = findChat other cs.
Proof.
  intros Hne. unfold findChat. revert w.
  induction cs as [|c0 cs IH]; intros w; simpl; [done|].
  run_m. destruct (String.eqb (Chat.id c0) chatId) eqn:He; simpl.
  - specialize (IH (set_clockReads (S (clockReads w)) w)).
    destruct (mapMatching chatId f cs _) as [cs' w']. simpl in *.
    rewrite f_id. apply String.eqb_eq in He. rewrite He.
    destruct (String.eqb_spec chatId other) as [->|_]; [done|]. exact IH.
  - specialize (IH w).
    destruct (mapMatching chatId f cs _) as [cs' w']. simpl in *. by rewrite IH.
Qed.

(** Without a conversation of that identifier nothing changes, and the
    clock is not read. *)
Lemma mapMatching_absent (cs : list Chat.t) (w : World) :
  findChat chatId cs = None -> mapMatching chatId f cs w = (cs, w).
Proof.
  unfold findChat. induction cs as [|c0 cs IH]; simpl; [done|].
  run_m. destruct (String.eqb (Chat.id c0) chatId) eqn:He; [discriminate|].
  intros H. by rewrite (IH H).
Qed.

End Mapping.

Section Editing.

Import ChatManager.

Variable profileId : string.

Lemma edit_by_mapping (chatId : string) (f : Chat.t -> Z -> Chat.t) (w : World) :
  chats (exec (chats ← gets chats; newChats ← mapMatching chatId f chats;
               persistChats profileId newChats) w)
  = eval (mapMatching chatId f (chats w)) w.
Proof.
  unfold persistChats, Storage.saveChats. run_m.
  by destruct (mapMatching chatId f (chats w) w).
Qed.

End Editing.

(** X9.  Renaming gives the conversation its new title and the current
    time as modification time, and changes nothing else: its messages and
    flags, every other conversation and the order of the list stay as they
    were.  For an identifier that names no conversation the list is
    unchanged. *)
Theorem renameChat_retitles_one (profileId chatId newTitle : string) (w : World) :
  let w' := exec (ChatManager.renameChat profileId chatId newTitle) w in
  (forall c : Chat.t,
      ChatManager.getChat chatId w = Some c ->
      ChatManager.getChat chatId w'
      = Some (Chat.with_updatedAt (clock w (clockReads w)) (Chat.with_title newTitle c)))
  /\ (forall other : string,
         other <> chatId -> ChatManager.getChat other w' = ChatManager.getChat other w)
  /\ List.map Chat.id (chats w') = List.map Chat.id (chats w)
  /\ (ChatManager.getChat chatId w = None -> chats w' = chats w).
Proof.
  cbv zeta. unfold ChatManager.getChat, ChatManager.renameChat.
  rewrite edit_by_mapping. repeat split.
  - intros c Hc.
    by rewrite (findChat_mapMatching chatId
                  (fun c now => Chat.with_updatedAt now (Chat.with_title newTitle c))
                  (fun _ _ => eq_refl) _ _ _ Hc).
  - intros other Hne. by apply findChat_mapMatching_ne.
  - by apply mapMatching_ids.
  - intros Hn. unfold eval. by rewrite mapMatching_absent.
Qed.

Section Toggling.

Import ChatManager.

Variable chatId : string.
Variable f : Chat.t -> Z -> Chat.t.
Hypothesis f_id : forall (c : Chat.t) (now : Z), Chat.id (f c now) = Chat.id c.

Lemma mapMatching_cons (c : Chat.t) (cs : list Chat.t) (w : World) :
  eval (mapMatching chatId f (c :: cs)) w
  = if String.eqb (Chat.id c) chatId
    then f c (clock w (clockReads w))
           :: eval (mapMatching chatId f cs) (set_clockReads (S (clockReads w)) w)
    else c :: eval (mapMatching chatId f cs) w.
Proof.
  simpl. run_m. destruct (String.eqb (Chat.id c) chatId); simpl;
    by destruct (mapMatching chatId f cs _).
Qed.

(** Applying twice a rewriting that undoes itself up to [norm] gives
    the list back up to [norm]. *)
Lemma mapMatching_twice (norm : Chat.t -> Chat.t) (cs : list Chat.t) (w w' : World) :
  (forall (c : Chat.t) (n m : Z), norm (f (f c n) m) = norm c) ->
  List.map norm (eval (mapMatching chatId f (eval (mapMatching chatId f cs) w)) w')
  = List.map norm cs.
Proof.
  intros Hinv. revert w w'. induction cs as [|c cs IH]; intros w w'; [done|].
  rewrite mapMatching_cons. destruct (String.eqb (Chat.id c) chatId) eqn:He.
  - rewrite mapMatching_cons, f_id, He. simpl. by rewrite Hinv, IH.
  - rewrite mapMatching_cons, He. simpl. by rewrite IH.
Qed.

End Toggling.

(** X10.  Pinning and archiving flip one flag of the conversation
    and set its modification time, leaving its title and messages and
    every other conversation as they were; doing it twice gives back the
    list of conversations, modification times apart. *)
Theorem toggles_flip_one_flag (profileId chatId : string) (w : World) :
  (let w1 := exec (ChatManager.togglePinChat profileId chatId) w in
   let w2 := exec (ChatManager.togglePinChat profileId chatId) w1 in
   (forall c : Chat.t,
       ChatManager.getChat chatId w = Some c ->
       ChatManager.getChat chatId w1
       = Some (Chat.with_updatedAt (clock w (clockReads w))
                 (Chat.with_pinned (negb (Chat.pinned c)) c)))
   /\ (forall other : string,
          other <> chatId -> ChatManager.getChat other w1 = ChatManager.getChat other w)
   /\ List.map (Chat.with_updatedAt 0) (chats w2) = List.map (Chat.with_updatedAt 0) (chats w))
  /\ (let w1 := exec (ChatManager.toggleArchiveChat profileId chatId) w in
      let w2 := exec (ChatManager.toggleArchiveChat profileId chatId) w1 in
      (forall c : Chat.t,
          ChatManager.getChat chatId w = Some c ->
          ChatManager.getChat chatId w1
          = Some (Chat.with_updatedAt (clock w (clockReads w))
                    (Chat.with_archived (negb (Chat.archived c)) c)))
      /\ (forall other : string,
             other <> chatId -> ChatManager.getChat other w1 = ChatManager.getChat other w)
      /\ List.map (Chat.with_updatedAt 0) (chats w2)
         = List.map (Chat.with_updatedAt 0) (chats w)).
Proof.
  cbv zeta. unfold ChatManager.getChat, ChatManager.togglePinChat,
    ChatManager.toggleArchiveChat.
  rewrite !edit_by_mapping. repeat split.
  - intros c Hc.
    by rewrite (findChat_mapMatching chatId
                  (fun c now => Chat.with_updatedAt now (Chat.with_pinned (negb (Chat.pinned c)) c))
                  (fun _ _ => eq_refl) _ _ _ Hc).
  - intros other Hne. by apply findChat_mapMatching_ne.
  - apply mapMatching_twice; [done|]. intros [] n m. simpl. by rewrite negb_involutive.
  - intros c Hc.
    by rewrite (findChat_mapMatching chatId
                  (fun c now =>
                     Chat.with_updatedAt now (Chat.with_archived (negb (Chat.archived c)) c))
                  (fun _ _ => eq_refl) _ _ _ Hc).
  - intros other Hne. by apply findChat_mapMatching_ne.
  - apply mapMatching_twice; [done|]. intros [] n m. simpl. by rewrite negb_involutive.
Qed.

(** X11.  Deleting a message removes from the conversation every
    message with that identifier and keeps the others in their order,
    setting the modification time of the conversation and nothing else;
    no other conversation is touched and the list keeps its
    conversations in their order.  A conversation that does not exist
    stays absent: the list is unchanged. *)
Theorem deleteMessage_filters_one_conversation (profileId chatId messageId : string)
    (w : World) :
  let w' := exec (ChatManager.deleteMessage profileId chatId messageId) w in
  let kept := List.filter (fun m => negb (String.eqb (Message.id m) messageId)) in
  messagesOf chatId w' = kept (messagesOf chatId w)
  /\ (forall m : Message.t, m ∈ messagesOf chatId w' -> Message.id m <> messageId)
  /\ (forall c : Chat.t,
         ChatManager.getChat chatId w = Some c ->
         ChatManager.getChat chatId w'
         = Some (Chat.with_updatedAt (clock w (clockReads w))
                   (Chat.with_messages (kept (Chat.messages c)) c)))
  /\ (forall other : string,
         other <> chatId -> ChatManager.getChat other w' = ChatManager.getChat other w)
  /\ List.map Chat.id (chats w') = List.map Chat.id (chats w)
  /\ (ChatManager.getChat chatId w = None ->
      ChatManager.getChat chatId w' = None /\ chats w' = chats w).
Proof.
  cbv zeta.
  assert (forall c : Chat.t,
            ChatManager.getChat chatId w = Some c ->
            ChatManager.getChat chatId
              (exec (ChatManager.deleteMessage profileId chatId messageId) w)
            = Some (Chat.with_updatedAt (clock w (clockReads w))
                      (Chat.with_messages
                         (List.filter (fun m => negb (String.eqb (Message.id m) messageId))
                            (Chat.messages c)) c))) as Hsome.
  { intros c Hc. unfold ChatManager.getChat, ChatManager.deleteMessage in *.
    rewrite edit_by_mapping.
    by rewrite (findChat_mapMatching chatId
                  (fun c now =>
                     Chat.with_updatedAt now
                       (Chat.with_messages
                          (List.filter (fun m => negb (String.eqb (Message.id m) messageId))
                             (Chat.messages c)) c))
                  (fun _ _ => eq_refl) _ _ _ Hc). }
  assert (ChatManager.getChat chatId w = None ->
          chats (exec (ChatManager.deleteMessage profileId chatId messageId) w) = chats w)
    as Hnone.
  { intros Hn. unfold ChatManager.getChat, ChatManager.deleteMessage in *.
    rewrite edit_by_mapping. unfold eval. by rewrite mapMatching_absent. }
  assert (messagesOf chatId (exec (ChatManager.deleteMessage profileId chatId messageId) w)
          = List.filter (fun m => negb (String.eqb (Message.id m) messageId))
              (messagesOf chatId w)) as Hm.
  { unfold messagesOf. destruct (ChatManager.getChat chatId w) as [c|] eqn:Hc.
    - by rewrite (Hsome c eq_refl).
    - unfold ChatManager.getChat in *. by rewrite (Hnone eq_refl), Hc. }
  split; [exact Hm|]. split; [|split; [exact Hsome|split; [|split]]].
  - intros m. rewrite Hm. intros [_ H]%list_elem_of_In%filter_In.
    apply negb_true_iff in H. by apply String.eqb_neq.
  - intros other Hne. unfold ChatManager.getChat, ChatManager.deleteMessage.
    rewrite edit_by_mapping. by apply findChat_mapMatching_ne.
  - unfold ChatManager.deleteMessage. rewrite edit_by_mapping. by apply mapMatching_ids.
  - intros Hn. split; [|by apply Hnone].
    unfold ChatManager.getChat in *. by rewrite (Hnone Hn).
Qed.

Lemma findChat_filter (chatId other : string) (cs : list Chat.t) :
  ChatManager.findChat other
    (List.filter (fun c => negb (String.eqb (Chat.id c) chatId)) cs)
  = if String.eqb other chatId then None else ChatManager.findChat other cs.
Proof.
  unfold ChatManager.findChat. induction cs as [|c cs IH]; simpl; [by case_match|].
  destruct (String.eqb_spec (Chat.id c) chatId) as [He|Hne]; simpl.
  - rewrite IH. destruct (String.eqb_spec other chatId) as [_|Ho]; [done|].
    destruct (String.eqb_spec (Chat.id c) other) as [Hc|_]; [congruence|done].
  - destruct (String.eqb_spec (Chat.id c) other) as [Hc|_]; [|exact IH].
    destruct (String.eqb_spec other chatId) as [Ho|_]; [congruence|done].
Qed.

(** X12.  Deleting a conversation aborts the request in flight for
    it, if any, and forgets its controller; removes the conversation from
    the list; and drops its entry from the session registry, so that its
    session reads as idle.  The other conversations, their sessions and
    their controllers are untouched. *)
Theorem deleteChat_removes_conversation_and_session (profileId chatId : string) (w : World) :
  let w' := exec (ChatManager.deleteChat profileId chatId) w in
  ChatManager.getChat chatId w' = None
  /\ ChatManager.getChatState chatId w' = ChatManager.idle
  /\ abortControllers w' !! chatId = None
  /\ (forall controller : AbortController,
         abortControllers w !! chatId = Some controller -> controller ∈ aborted w')
  /\ (forall other : string,
         other <> chatId ->
         ChatManager.getChat other w' = ChatManager.getChat other w
         /\ ChatManager.getChatState other w' = ChatManager.getChatState other w
         /\ abortControllers w' !! other = abortControllers w !! other).
Proof.
  cbv zeta. unfold ChatManager.deleteChat, ChatManager.getChat, ChatManager.getChatState,
    ChatManager.persistChats, Storage.saveChats, abort.
  run_m. destruct (abortControllers w !! chatId) as [controller|] eqn:Hc; simpl.
  - rewrite findChat_filter, String.eqb_refl, !lookup_delete_eq. repeat split; try done.
    + intros ? [= <-]. set_solver.
    + rewrite findChat_filter. by destruct (String.eqb_spec other chatId).
    + by rewrite lookup_delete_ne.
    + by rewrite lookup_delete_ne.
  - rewrite findChat_filter, String.eqb_refl, lookup_delete_eq. repeat split; try done.
    + rewrite findChat_filter. by destruct (String.eqb_spec other chatId).
    + by rewrite lookup_delete_ne.
Qed.

(** ** Launching a generation *)

Lemma findChat_replaceChat_ne (other : string) (chat' : Chat.t) (cs : list Chat.t) :
  Chat.id chat' <> other ->
  ChatManager.findChat other (ChatManager.replaceChat chat' cs) = ChatManager.findChat other cs.
Proof.
  intros Hne. unfold ChatManager.findChat, ChatManager.replaceChat.
  induction cs as [|c cs IH]; simpl; [done|].
  destruct (String.eqb_spec (Chat.id c) (Chat.id chat')) as [He|Hc].
  - destruct (String.eqb_spec (Chat.id chat') other) as [|_]; [done|].
    destruct (String.eqb_spec (Chat.id c) other) as [|_]; [congruence|]. exact IH.
  - by rewrite IH.
Qed.

Lemma replaceChat_ids (chat' : Chat.t) (cs : list Chat.t) :
  List.map Chat.id (ChatManager.replaceChat chat' cs) = List.map Chat.id cs.
Proof.
  unfold ChatManager.replaceChat. induction cs as [|c cs IH]; simpl; [done|].
  rewrite IH. by destruct (String.eqb_spec (Chat.id c) (Chat.id chat')) as [->|].
Qed.

Lemma replaceChat_absent (chat' : Chat.t) (cs : list Chat.t) :
  Forall (fun c => Chat.id c <> Chat.id chat') cs ->
  ChatManager.replaceChat chat' cs = cs.
Proof.
  unfold ChatManager.replaceChat. induction 1 as [|c cs Hc _ IH]; simpl; [done|].
  rewrite IH. by destruct (String.eqb_spec (Chat.id c) (Chat.id chat')).
Qed.

Section Launching.

Import ChatManager.

Variable profileId : string.
Variable settings : Settings.
Variable memory : list MemoryItem.t.

#[local] Arguments replaceChat : simpl never.
#[local] Arguments findChat : simpl never.

Lemma sendUserMessage_start_frame (chatId : option string) (content : string)
    (w w1 : World) (t : Task) (other : string) :
  sendUserMessage_start profileId settings memory chatId content w = (t, w1) ->
  other <> task_chatId t ->
  getChat other w1 = getChat other w.
Proof.
  unfold sendUserMessage_start, launch, persistChats, updateChatState, getChat,
    Storage.saveChats, Storage.generateId, Date_now, new_AbortController.
  run_m. destruct (lookupChat chatId (chats w)) as [chat|] eqn:Hl.
  - destruct (lookupChat_Some _ _ _ Hl) as (id & -> & Hf).
    pose proof (findChat_id _ _ _ Hf) as Hid.
    simpl. intros [= <- <-] Hne. simpl in *.
    apply findChat_replaceChat_ne. destruct (_ && _); simpl; congruence.
  - assert (forall chat' chat0 : Chat.t,
              Chat.id chat' = ids w (idsDrawn w) ->
              Chat.id chat0 = ids w (idsDrawn w) ->
              other <> ids w (idsDrawn w) ->
              findChat other (replaceChat chat' (chat0 :: chats w)) = findChat other (chats w))
      as Hnew.
    { intros chat' chat0 Hid Hid0 Hne. rewrite findChat_replaceChat_ne by congruence.
      unfold findChat. cbn [find]. rewrite Hid0.
      by destruct (String.eqb_spec (ids w (idsDrawn w)) other) as [|_]; [congruence|]. }
    destruct chatId as [id|]; simpl; intros [= <- <-] Hne; simpl.
    all: apply Hnew; [|done|done].
    all: by destruct (String.eqb (Storage.generateChatTitle content) "New chat").
Qed.

Lemma regenerateLastResponse_start_frame (chatId : string) (w w1 : World)
    (t : option Task) (other : string) :
  regenerateLastResponse_start profileId settings memory chatId w = (t, w1) ->
  other <> chatId ->
  getChat other w1 = getChat other w.
Proof.
  unfold regenerateLastResponse_start, launch, persistChats, updateChatState, getChat,
    Storage.saveChats, Date_now, new_AbortController.
  run_m. destruct (findChat chatId (chats w)) as [chat|] eqn:Hf; [|by intros [= <- <-]].
  pose proof (findChat_id _ _ _ Hf) as Hid.
  destruct (_ <? _)%nat; [by intros [= <- <-]|].
  destruct (findLastIndex _ _) as [i|]; [|by intros [= <- <-]].
  simpl. intros [= <- <-] Hne. simpl. apply findChat_replaceChat_ne. simpl. congruence.
Qed.

Lemma editAndResend_start_frame (chatId messageId newContent : string) (w w1 : World)
    (t : option Task) (other : string) :
  editAndResend_start profileId settings memory chatId messageId newContent w = (t, w1) ->
  other <> chatId ->
  getChat other w1 = getChat other w.
Proof.
  unfold editAndResend_start, launch, persistChats, updateChatState, getChat,
    Storage.saveChats, Date_now, new_AbortController.
  run_m. destruct (findChat chatId (chats w)) as [chat|] eqn:Hf; [|by intros [= <- <-]].
  pose proof (findChat_id _ _ _ Hf) as Hid.
  destruct (findIndex _ _) as [i|]; [|by intros [= <- <-]].
  destruct (Chat.messages chat !! i) as [old|]; [|by intros [= <- <-]].
  destruct (bool_decide _); [|by intros [= <- <-]].
  simpl. intros [= <- <-] Hne. simpl. apply findChat_replaceChat_ne. simpl. congruence.
Qed.

End Launching.

(** X13.  Up to its await, a generation operation changes no
    conversation but its own: [sendUserMessage] leaves every conversation
    other than the one it reports as target as it was, and so do
    [regenerateLastResponse] and [editAndResend] for every conversation
    other than the one they are called on, whether they launch a request
    or return early. *)
Theorem launch_changes_only_its_conversation (profileId : string) (settings : Settings)
    (memory : list MemoryItem.t) (w : World) (other : string) :
  (forall (chatId : option string) (content : string),
      let '(t, w1) :=
        ChatManager.sendUserMessage_start profileId settings memory chatId content w in
      other <> ChatManager.task_chatId t ->
      ChatManager.getChat other w1 = ChatManager.getChat other w)
  /\ (forall chatId : string,
         other <> chatId ->
         ChatManager.getChat other
           (exec (ChatManager.regenerateLastResponse_start profileId settings memory chatId) w)
         = ChatManager.getChat other w)
  /\ (forall chatId messageId newContent : string,
         other <> chatId ->
         ChatManager.getChat other
           (exec (ChatManager.editAndResend_start profileId settings memory chatId messageId
                    newContent) w)
         = ChatManager.getChat other w).
Proof.
  repeat split.
  - intros chatId content.
    destruct (ChatManager.sendUserMessage_start _ _ _ _ _ _) as [t w1] eqn:Hs.
    by apply (sendUserMessage_start_frame _ _ _ _ _ _ _ _ _ Hs).
  - intros chatId Hne. unfold exec.
    destruct (ChatManager.regenerateLastResponse_start _ _ _ _ _) as [t w1] eqn:Hs.
    by apply (regenerateLastResponse_start_frame _ _ _ _ _ _ _ _ Hs).
  - intros chatId messageId newContent Hne. unfold exec.
    destruct (ChatManager.editAndResend_start _ _ _ _ _ _ _) as [t w1] eqn:Hs.
    by apply (editAndResend_start_frame _ _ _ _ _ _ _ _ _ _ Hs).
Qed.

(** ** Sending a message *)

Section Sending.

Import ChatManager.

Variable profileId : string.
Variable settings : Settings.
Variable memory : list MemoryItem.t.

#[local] Arguments replaceChat : simpl never.

Lemma lookupChat_None (chatId : option string) (cs : list Chat.t) :
  lookupChat chatId cs = None
  <-> chatId = None \/ chatId = Some EmptyString
      \/ exists id : string, chatId = Some id /\ findChat id cs = None.
Proof.
  unfold lookupChat. destruct chatId as [id|]; [|by intuition].
  destruct (String.eqb_spec id EmptyString) as [->|Hne].
  - by intuition.
  - split; [by eauto|]. intros [|[[= ->]|(id' & [= <-] & H)]]; done.
Qed.

(** The conversation a send works on after its first lines: the one
    found, or a new one under the next identifier, titled after the
    message. *)
Lemma sendUserMessage_start_chat (chatId : option string) (content : string)
    (w w1 : World) (t : Task) :
  sendUserMessage_start profileId settings memory chatId content w = (t, w1) ->
  match lookupChat chatId (chats w) with
  | Some chat =>
      chatId = Some (task_chatId t)
      /\ Chat.title (task_chat t)
         = (if (length (Chat.messages chat) =? 0)%nat
               && String.eqb (Chat.title chat) "New chat"
            then Storage.generateChatTitle content else Chat.title chat)
      /\ chats w1 = replaceChat (task_chat t) (chats w)
      /\ Chat.id (task_chat t) = Chat.id chat
      /\ (Chat.createdAt (task_chat t), Chat.pinned (task_chat t), Chat.archived (task_chat t))
         = (Chat.createdAt chat, Chat.pinned chat, Chat.archived chat)
  | None =>
      task_chatId t = ids w (idsDrawn w)
      /\ Chat.title (task_chat t) = Storage.generateChatTitle content
      /\ chats w1 = task_chat t :: replaceChat (task_chat t) (chats w)
      /\ Chat.id (task_chat t) = ids w (idsDrawn w)
      /\ (Chat.createdAt (task_chat t), Chat.pinned (task_chat t), Chat.archived (task_chat t))
         = (clock w (clockReads w), false, false)
  end.
Proof.
  unfold sendUserMessage_start, launch, persistChats, updateChatState,
    Storage.saveChats, Storage.generateId, Date_now, new_AbortController.
  run_m. destruct (lookupChat chatId (chats w)) as [chat|] eqn:Hl.
  - destruct (lookupChat_Some _ _ _ Hl) as (id & -> & Hf).
    simpl. intros [= <- <-]. simpl.
    destruct (_ && _); by repeat split.
  - destruct chatId as [id|]; simpl; intros [= <- <-]; simpl.
    all: unfold replaceChat at 1; cbn [List.map Chat.id].
    all: destruct (String.eqb (Storage.generateChatTitle content) "New chat"); simpl.
    all: by rewrite String.eqb_refl.
Qed.

End Sending.

(** X14.  The title of a conversation is derived from its first
    message: a send into a conversation that has no message and is still
    titled 'New chat', and a send that creates its conversation, give it
    the title [generateChatTitle] computes from the message; a
    conversation that has messages or another title keeps its title. *)
Theorem first_message_titles_the_conversation (profileId : string) (settings : Settings)
    (memory : list MemoryItem.t) (chatId : option string) (content : string)
    (w w1 : World) (t : ChatManager.Task) :
  ChatManager.sendUserMessage_start profileId settings memory chatId content w = (t, w1) ->
  ChatManager.getChat (ChatManager.task_chatId t) w1 = Some (ChatManager.task_chat t)
  /\ (ChatManager.lookupChat chatId (chats w) = None ->
      Chat.title (ChatManager.task_chat t) = Storage.generateChatTitle content)
  /\ (forall chat : Chat.t,
         ChatManager.lookupChat chatId (chats w) = Some chat ->
         (Chat.messages chat = [] /\ Chat.title chat = "New chat" ->
          Chat.title (ChatManager.task_chat t) = Storage.generateChatTitle content)
         /\ (Chat.messages chat <> [] \/ Chat.title chat <> "New chat" ->
             Chat.title (ChatManager.task_chat t) = Chat.title chat)).
Proof.
  intros Hs.
  pose proof (sendUserMessage_start_spec profileId settings memory chatId content w w1 t Hs)
    as [(_ & _ & _ & _ & _ & Hget & _) _].
  pose proof (sendUserMessage_start_chat profileId settings memory chatId content w w1 t Hs)
    as Hc.
  split; [exact Hget|]. split.
  - intros Hl. rewrite Hl in Hc. tauto.
  - intros chat Hl. rewrite Hl in Hc. destruct Hc as (_ & Ht & _). rewrite Ht. split.
    + intros [-> ->]. reflexivity.
    + intros [Hm|Hn].
      * destruct (Chat.messages chat); [done|reflexivity].
      * destruct (String.eqb_spec (Chat.title chat) "New chat"); [done|].
        by rewrite andb_false_r.
Qed.

(** A conversation is created empty, then receives its first message
    with white space around it. *)
Lemma first_message_titles_the_conversation_witness :
  let r :=
    ChatManager.sendUserMessage_start Sample.profile Sample.streaming [] (Some "id0")
      "  Where is Lisbon?  " Sample.untitled in
  ChatManager.lookupChat (Some "id0") (chats Sample.untitled)
  = Some (Chat.mk "id0" "New chat" [] 1000 1001 false false)
  /\ Chat.title (ChatManager.task_chat r.1) = "Where is Lisbon?".
Proof.
  cbv zeta.
  assert (ChatManager.lookupChat (Some "id0") (chats Sample.untitled)
          = Some (Chat.mk "id0" "New chat" [] 1000 1001 false false)) as Hl
    by (vm_compute; reflexivity).
  split; [exact Hl|].
  destruct (first_message_titles_the_conversation Sample.profile Sample.streaming []
              (Some "id0") "  Where is Lisbon?  " Sample.untitled _ _
              (surjective_pairing _)) as (_ & _ & Hfound).
  rewrite (proj1 (Hfound _ Hl) (conj eq_refl eq_refl)). vm_compute. reflexivity.
Defined.

(** X15.  A send that finds no conversation to work on (no
    identifier, the empty identifier, or an identifier that names no
    conversation) creates one under the next generated identifier, which
    is the target it reports: the new conversation is put at the head of
    the list, titled after the message, neither pinned nor archived, and
    holds the user message alone.  The conversations already there are
    kept as they are, provided none of them has the generated
    identifier. *)
Theorem send_without_conversation_creates_one (profileId : string) (settings : Settings)
    (memory : list MemoryItem.t) (chatId : option string) (content : string)
    (w w1 : World) (t : ChatManager.Task) :
  ChatManager.sendUserMessage_start profileId settings memory chatId content w = (t, w1) ->
  chatId = None \/ chatId = Some EmptyString
  \/ (exists id : string, chatId = Some id /\ ChatManager.getChat id w = None) ->
  Forall (fun c => Chat.id c <> ids w (idsDrawn w)) (chats w) ->
  ChatManager.task_chatId t = ids w (idsDrawn w)
  /\ chats w1 = ChatManager.task_chat t :: chats w
  /\ Chat.id (ChatManager.task_chat t) = ids w (idsDrawn w)
  /\ Chat.title (ChatManager.task_chat t) = Storage.generateChatTitle content
  /\ (Chat.pinned (ChatManager.task_chat t), Chat.archived (ChatManager.task_chat t))
     = (false, false)
  /\ exists question : Message.t,
       Message.role question = user
       /\ Message.content question = content
       /\ Chat.messages (ChatManager.task_chat t) = [question].
Proof.
  intros Hs Hnone Hfresh. apply lookupChat_None in Hnone.
  pose proof (sendUserMessage_start_spec profileId settings memory chatId content w w1 t Hs)
    as [_ (question & Hr & Hc & Hm)].
  pose proof (sendUserMessage_start_chat profileId settings memory chatId content w w1 t Hs)
    as Hchat.
  unfold priorMessages in Hm. rewrite Hnone in Hm, Hchat. simpl in Hm.
  destruct Hchat as (Hid & Htitle & Hchats & Hcid & [= _ Hp Ha]).
  rewrite replaceChat_absent in Hchats by (by rewrite Hcid).
  repeat split; try done; [by rewrite Hp, Ha | by exists question].
Qed.

(** The panel still shows a conversation that has been deleted: the
    message goes to a new conversation [id0], not to [gone]. *)
Lemma send_without_conversation_creates_one_witness :
  let r :=
    ChatManager.sendUserMessage_start Sample.profile Sample.streaming [] (Some "gone")
      "Hi" (Sample.holding [Sample.u1]) in
  ((Some "gone" = None :> option string) \/ Some "gone" = Some EmptyString
   \/ (exists id : string,
          Some "gone" = Some id
          /\ ChatManager.getChat id (Sample.holding [Sample.u1]) = None))
  /\ ChatManager.task_chatId r.1 = "id0"
  /\ List.map Chat.id (chats r.2) = ["id0"; "c"].
Proof.
  cbv zeta.
  assert ((Some "gone" = None :> option string) \/ Some "gone" = Some EmptyString
          \/ (exists id : string,
                 Some "gone" = Some id
                 /\ ChatManager.getChat id (Sample.holding [Sample.u1]) = None)) as Hnone
    by (right; right; by exists "gone").
  split; [exact Hnone|].
  destruct (send_without_conversation_creates_one Sample.profile Sample.streaming []
              (Some "gone") "Hi" (Sample.holding [Sample.u1]) _ _
              (surjective_pairing _) Hnone
              ltac:(repeat constructor; vm_compute; discriminate))
    as (Hid & Hchats & Hcid & _).
  split; [exact Hid|]. rewrite Hchats. cbn [List.map]. rewrite Hcid.
  vm_compute. reflexivity.
Defined.

Section Completion.

Import ChatManager.

Variable profileId : string.
Variable settings : Settings.

(** Whatever its outcome, the continuation fulfils the promise of the
    operation and leaves the session idle, with no controller registered
    for the conversation. *)
Lemma resume_idle (t : Task) (r : Js.Result string) (w : World) :
  eval (resume profileId t r) w
  = inr (match task_op t with OpSend => Some (task_chatId t) | _ => None end)
  /\ Idle (task_chatId t) (exec (resume profileId t r) w).
Proof.
  unfold Idle, resume, getChatState, updateChatState, persistChats, console_error,
    Storage.saveChats, Storage.generateId, Date_now.
  run_m. destruct r as [error|response]; simpl;
    by rewrite lookup_delete_eq, lookup_insert_eq.
Qed.

Lemma drive_ended (evs : list Decoder.NetEvent) (t : Task) (w w' : World)
    (v : Js.Result (option string)) :
  drive profileId settings t evs w = (inr v, w') ->
  v = inr (match task_op t with OpSend => Some (task_chatId t) | _ => None end)
  /\ Idle (task_chatId t) w'.
Proof.
  revert t w. induction evs as [|ev evs IH]; intros t w; simpl; [discriminate|].
  run_m. rewrite deliver_unfold.
  destruct (Api.sendMessage_step _ _ _ _ _) as [[a|r] w1].
  - intros H. apply IH in H. by destruct t.
  - pose proof (resume_idle t r w1) as [Hv Hi]. unfold eval, exec in *.
    destruct (resume profileId t r w1) as [v1 w2]. simpl in *. intros [= <- <-]. done.
Qed.

End Completion.

(** X16.  A generation operation that has ended, whatever the network
    delivered to it and however it ended, has fulfilled its promise (with
    the identifier of the conversation for [sendUserMessage], with
    nothing for the two others), and has left the session of its
    conversation idle: not loading, no streamed text, no controller
    registered. *)
Theorem ended_operation_leaves_session_idle (profileId : string) (settings : Settings)
    (t : ChatManager.Task) (evs : list Decoder.NetEvent) (w w' : World)
    (v : Js.Result (option string)) :
  ChatManager.drive profileId settings t evs w = (inr v, w') ->
  v = inr (match ChatManager.task_op t with
           | OpSend => Some (ChatManager.task_chatId t)
           | _ => None
           end)
  /\ Idle (ChatManager.task_chatId t) w'.
Proof. apply drive_ended. Qed.

(** The send of the samples, streamed to its end. *)
Lemma ended_operation_leaves_session_idle_witness :
  let r :=
    ChatManager.drive Sample.profile Sample.streaming Sample.sent.1
      [Decoder.Responds 200 true; Decoder.Chunk (Sample.frame (Sample.delta "Hello"));
       Decoder.Done] Sample.sent.2 in
  r.1 = inr (inr (Some "id0")) /\ Idle "id0" r.2.
Proof.
  cbv zeta.
  set (r := ChatManager.drive Sample.profile Sample.streaming Sample.sent.1
              [Decoder.Responds 200 true; Decoder.Chunk (Sample.frame (Sample.delta "Hello"));
               Decoder.Done] Sample.sent.2).
  assert (r.1 = inr (inr (Some "id0"))) as Hv by (vm_compute; reflexivity).
  destruct (ended_operation_leaves_session_idle Sample.profile Sample.streaming
              Sample.sent.1
              [Decoder.Responds 200 true; Decoder.Chunk (Sample.frame (Sample.delta "Hello"));
               Decoder.Done] Sample.sent.2 r.2 (inr (Some "id0"))) as [_ Hidle].
  { change (r = (inr (inr (Some "id0")), r.2)). clearbody r. destruct r as [a b].
    simpl in *. by subst a. }
  split; [exact Hv|exact Hidle].
Defined.

(** X17.  A send that succeeds commits two messages: when nothing
    aborts the request and [sendMessage] fulfils with [response], the
    target conversation ends up holding the messages it held before,
    then the user message, then one assistant message whose content is
    [response]; the promise fulfils with the identifier of the target. *)
Theorem send_commits_question_and_answer (profileId : string) (settings : Settings)
    (memory : list MemoryItem.t) (chatId : option string) (content : string)
    (evs : list Decoder.NetEvent) (response : string) (w w1 w2 : World)
    (t : ChatManager.Task) :
  ChatManager.sendUserMessage_start profileId settings memory chatId content w = (t, w1) ->
  nextController w ∉ aborted w ->
  Api.sendMessage (ChatManager.onStream t) settings evs w1 = (inr (inr response), w2) ->
  let r := ChatManager.sendUserMessage profileId settings memory chatId content evs w in
  r.1 = inr (inr (Some (ChatManager.task_chatId t)))
  /\ exists question reply : Message.t,
       Message.role question = user
       /\ Message.content question = content
       /\ Message.role reply = assistant
       /\ Message.content reply = response
       /\ messagesOf (ChatManager.task_chatId t) r.2
          = priorMessages chatId w ++ [question; reply].
Proof.
  intros Hs Hfresh Hsend. cbv zeta.
  pose proof (sendUserMessage_start_spec profileId settings memory chatId content w w1 t Hs)
    as [Hl (question & Hr & Hc & Hm)].
  destruct (launched_fulfils profileId settings OpSend (ChatManager.task_chatId t) w w1 w2 t
              evs response Hl Hfresh Hsend) as (reply & Hrr & Hrc & Hmsgs).
  unfold ChatManager.sendUserMessage. run_m. rewrite Hs. split.
  - destruct (ChatManager.drive profileId settings t evs w1) as [[t'|v] w3] eqn:Hd.
    + exfalso. pose proof Hl as (_ & _ & Hawait & Hctl & _ & _ & _ & Hab & _).
      rewrite drive_not_aborted in Hd by (by rewrite Hctl, Hab).
      rewrite Hawait in Hd. unfold Api.sendMessage in Hsend. rewrite Hsend in Hd.
      by destruct (ChatManager.resume profileId t (inr response) w2).
    + apply drive_ended in Hd as [-> _]. simpl. by destruct Hl as (-> & _).
  - exists question, reply. repeat split; try done.
    unfold exec in Hmsgs. rewrite Hmsgs, Hm. by rewrite <- app_assoc.
Qed.

(** A first message on the fresh profile, answered by a stream of two
    frames. *)
Lemma send_commits_question_and_answer_witness :
  let evs :=
    [Decoder.Responds 200 true; Decoder.Chunk (Sample.frame (Sample.delta "He"));
     Decoder.Chunk (Sample.frame (Sample.delta "llo")); Decoder.Done] in
  let r := ChatManager.sendUserMessage Sample.profile Sample.streaming [] None "Hi" evs
             Sample.w0 in
  (nextController Sample.w0 ∉ aborted Sample.w0)
  /\ r.1 = inr (inr (Some "id0"))
  /\ List.map (fun m => (Message.role m, Message.content m)) (messagesOf "id0" r.2)
     = [(user, "Hi"); (assistant, "Hello")].
Proof.
  cbv zeta.
  assert (nextController Sample.w0 ∉ aborted Sample.w0) as Hfresh by apply not_elem_of_empty.
  split; [exact Hfresh|].
  destruct (send_commits_question_and_answer Sample.profile Sample.streaming [] None "Hi"
              [Decoder.Responds 200 true; Decoder.Chunk (Sample.frame (Sample.delta "He"));
               Decoder.Chunk (Sample.frame (Sample.delta "llo")); Decoder.Done]
              "Hello" Sample.w0 Sample.sent.2
              (Api.sendMessage (ChatManager.onStream Sample.sent.1) Sample.streaming
                 [Decoder.Responds 200 true; Decoder.Chunk (Sample.frame (Sample.delta "He"));
                  Decoder.Chunk (Sample.frame (Sample.delta "llo")); Decoder.Done]
                 Sample.sent.2).2
              Sample.sent.1 (surjective_pairing _) Hfresh
              ltac:(vm_compute; reflexivity))
    as (Hv & question & reply & Hqr & Hqc & Hrr & Hrc & Hm).
  split; [exact Hv|].
  change (ChatManager.task_chatId Sample.sent.1) with "id0" in Hm.
  rewrite Hm. simpl. by rewrite Hqr, Hqc, Hrr, Hrc.
Defined.

(** X18.  When a generation fulfils, the list of conversations is
    written anew from the list the operation captured when it was
    launched, with its own conversation replaced: the list in the store at
    that moment plays no part.  The conversations after the write are
    those captured, in the captured order, and every conversation other
    than the operation's own is as it was captured; the same list is
    stored for the profile. *)
Theorem completion_writes_the_captured_list (profileId : string) (t : ChatManager.Task)
    (response : string) (w : World) :
  let w' := exec (ChatManager.resume profileId t (inr response)) w in
  (forall current : list Chat.t,
      chats (exec (ChatManager.resume profileId t (inr response)) (set_chats current w))
      = chats w')
  /\ List.map Chat.id (chats w') = List.map Chat.id (ChatManager.task_newChats t)
  /\ (forall other : string,
         other <> Chat.id (ChatManager.task_chat t) ->
         ChatManager.getChat other w'
         = ChatManager.findChat other (ChatManager.task_newChats t))
  /\ eval (Storage.getChats profileId) w' = chats w'.
Proof.
  cbv zeta. split; [reflexivity|]. unfold ChatManager.getChat.
  rewrite resume_fulfilled. split; [apply replaceChat_ids|]. split.
  - intros other Hne. apply findChat_replaceChat_ne. simpl. congruence.
  - unfold ChatManager.resume, ChatManager.persistChats, ChatManager.updateChatState,
      Storage.getChats, Storage.saveChats, Storage.generateId, Date_now.
    run_m. simpl. by rewrite lookup_insert_eq.
Qed.

(** ** The store follows the state *)

Section Persisting.

Import ChatManager.

Variable profileId : string.
Variable settings : Settings.
Variable memory : list MemoryItem.t.

Lemma Persisted_refl (w : World) : Persisted profileId w w.
Proof. by left. Qed.

Lemma Persisted_edit (chatId : string) (f : Chat.t -> Z -> Chat.t) (w : World) :
  Persisted profileId w
    (exec (chats ← gets chats; newChats ← mapMatching chatId f chats;
           persistChats profileId newChats) w).
Proof.
  right. unfold persistChats, Storage.saveChats. run_m.
  destruct (mapMatching_world chatId f (chats w) w) as [n Hn]. unfold exec in Hn.
  destruct (mapMatching chatId f (chats w) w) as [cs w1]. simpl in *. by subst w1.
Qed.

Lemma Persisted_sendUserMessage_start (chatId : option string) (content : string) (w : World) :
  Persisted profileId w (exec (sendUserMessage_start profileId settings memory chatId content) w).
Proof.
  right. unfold sendUserMessage_start, launch, persistChats, updateChatState,
    Storage.saveChats, Storage.generateId, Date_now, new_AbortController.
  run_m. destruct (lookupChat chatId (chats w)) as [chat|]; [destruct chatId|]; reflexivity.
Qed.

Lemma Persisted_regenerateLastResponse_start (chatId : string) (w : World) :
  Persisted profileId w (exec (regenerateLastResponse_start profileId settings memory chatId) w).
Proof.
  unfold regenerateLastResponse_start, launch, persistChats, updateChatState,
    Storage.saveChats, Date_now, new_AbortController.
  run_m. repeat case_match; simplify_eq; (by left) || (by right).
Qed.

Lemma Persisted_editAndResend_start (chatId messageId newContent : string) (w : World) :
  Persisted profileId w
    (exec (editAndResend_start profileId settings memory chatId messageId newContent) w).
Proof.
  unfold editAndResend_start, launch, persistChats, updateChatState,
    Storage.saveChats, Date_now, new_AbortController.
  run_m. repeat case_match; simplify_eq; (by left) || (by right).
Qed.

Lemma Persisted_resume (t : Task) (r : Js.Result string) (w : World) :
  Persisted profileId w (exec (resume profileId t r) w).
Proof.
  unfold resume, persistChats, updateChatState, console_error, Storage.saveChats,
    Storage.generateId, Date_now.
  run_m. destruct r; [by left|by right].
Qed.

Lemma Persisted_deliver (t : Task) (ev : Decoder.NetEvent) (w : World) :
  Persisted profileId w (exec (deliver profileId settings t ev) w).
Proof.
  unfold exec. rewrite deliver_unfold.
  pose proof (sendMessage_step_obs (onStream t) (fun w => (chats w, localStorage w)) settings
    (task_await t) (Api.settle (bool_decide (task_controller t ∈ aborted w)) ev) w
    (fun v s => eq_refl)) as Hq.
  destruct (Api.sendMessage_step _ _ _ _ _) as [[a|r] w1]; simpl in Hq.
  - left. simpl. by injection Hq.
  - pose proof (Persisted_resume t r w1) as Hp. unfold exec in Hp.
    destruct (resume profileId t r w1) as [v w2]. simpl in *.
    injection Hq as Hc Hs. unfold Persisted in *. rewrite <- Hc, <- Hs. exact Hp.
Qed.

Lemma Persisted_handleImportChat (file : option string) (w : World) :
  Persisted profileId w (exec (Sidebar.handleImportChat (App.onImportChat profileId) file) w).
Proof.
  unfold Sidebar.handleImportChat, App.onImportChat, importChat, persistChats, console_error,
    Storage.saveChats, Storage.generateId, Date_now.
  run_m. repeat case_match; simplify_eq; (by left) || (by right).
Qed.

Lemma Persisted_step (sys : App.System) (e : App.Event) :
  Persisted profileId (App.world sys) (App.world (App.step profileId settings memory sys e)).
Proof.
  destruct e; simpl; unfold App.start, App.only_world.
  - pose proof (Persisted_sendUserMessage_start chatId content (App.world sys)) as H.
    unfold exec in H. run_m.
    by destruct (sendUserMessage_start _ _ _ _ _ _) as [t w1].
  - unfold stopGeneration, abort, updateChatState. run_m.
    destruct (abortControllers (App.world sys) !! chatId); by left.
  - pose proof (Persisted_regenerateLastResponse_start chatId (App.world sys)) as H.
    unfold exec in H.
    by destruct (regenerateLastResponse_start _ _ _ _ _) as [[t|] w1].
  - pose proof (Persisted_editAndResend_start chatId messageId newContent (App.world sys)) as H.
    unfold exec in H.
    by destruct (editAndResend_start _ _ _ _ _ _ _) as [[t|] w1].
  - apply Persisted_edit.
  - unfold deleteChat, persistChats, Storage.saveChats, abort. run_m.
    destruct (abortControllers (App.world sys) !! chatId); by right.
  - unfold createNewChat, persistChats, Storage.saveChats, Storage.generateId, Date_now.
    run_m. simpl. by right.
  - apply Persisted_edit.
  - apply Persisted_edit.
  - apply Persisted_edit.
  - apply Persisted_handleImportChat.
  - destruct (App.tasks sys !! task) as [t|]; [|apply Persisted_refl].
    pose proof (Persisted_deliver t ev (App.world sys)) as H. unfold exec in H.
    by destruct (deliver profileId settings t ev (App.world sys)) as [[t'|v] w1].
Qed.


Lemma Persisted_other_keys (w w' : World) (key : string) :
  Persisted profileId w w' ->
  key <> Storage.getStorageKey profileId "chats" ->
  localStorage w' !! key = localStorage w !! key.
Proof.
  intros [[_ ->]| ->] Hne; [done|]. by rewrite lookup_insert_ne.
Qed.

End Persisting.


(** X21.  A manager writes one entry of the store, the conversations
    of its own profile: through any sequence of handler calls and network
    events every other entry is left as it was, and so are the
    conversations stored for every other profile. *)
Theorem other_profiles_are_untouched (profileId : string) (settings : Settings)
    (memory : list MemoryItem.t) (sys : App.System) (es : list App.Event) :
  let sys' := App.run profileId settings memory sys es in
  (forall key : string,
      key <> Storage.getStorageKey profileId "chats" ->
      localStorage (App.world sys') !! key = localStorage (App.world sys) !! key)
  /\ (forall other : string,
         other <> profileId ->
         eval (Storage.getChats other) (App.world sys')
         = eval (Storage.getChats other) (App.world sys)).
Proof.
  cbv zeta.
  assert (forall key : string,
            key <> Storage.getStorageKey profileId "chats" ->
            localStorage (App.world (App.run profileId settings memory sys es)) !! key
            = localStorage (App.world sys) !! key) as Hkeys.
  { intros key Hne. unfold App.run. revert sys.
    induction es as [|e es IH]; intros sys; [done|].
    simpl. rewrite IH. by eapply Persisted_other_keys; [apply Persisted_step|]. }
  split; [exact Hkeys|].
  intros other Hne. unfold Storage.getChats. run_m. rewrite Hkeys; [done|].
  intros H. by apply getStorageKey_inj in H.
Qed.

(** ** A deleted conversation *)

Section Forgetting.

Import ChatManager.

Variable profileId : string.
Variable settings : Settings.
Variable memory : list MemoryItem.t.

(** The conversation that has been deleted. *)
Variable gone : string.
















End Forgetting.




(** ** The bookkeeping of controllers *)

Section Controllers.

Import ChatManager.

Variable profileId : string.
Variable settings : Settings.
Variable memory : list MemoryItem.t.

Lemma started_sendUserMessage (chatId : option string) (content : string) (w : World) :
  started None w ((Some <$> sendUserMessage_start profileId settings memory chatId content) w).
Proof.
  unfold started, controllers, sendUserMessage_start, launch, persistChats, updateChatState,
    Storage.saveChats, Storage.generateId, Date_now, new_AbortController.
  run_m. destruct (lookupChat chatId (chats w)) as [chat|]; [destruct chatId|]; by simpl.
Qed.

Lemma started_regenerateLastResponse (chatId : string) (w : World) :
  started (Some chatId) w (regenerateLastResponse_start profileId settings memory chatId w).
Proof.
  unfold started, controllers, regenerateLastResponse_start, launch, persistChats,
    updateChatState, Storage.saveChats, Date_now, new_AbortController.
  run_m. destruct (findChat chatId (chats w)) as [chat|]; [|done].
  destruct (_ <? _)%nat; [done|].
  destruct (findLastIndex _ _) as [i|]; [|done].
  simpl. repeat split. by intros ? [= ->].
Qed.

Lemma started_editAndResend (chatId messageId newContent : string) (w : World) :
  started (Some chatId) w
    (editAndResend_start profileId settings memory chatId messageId newContent w).
Proof.
  unfold started, controllers, editAndResend_start, launch, persistChats,
    updateChatState, Storage.saveChats, Date_now, new_AbortController.
  run_m. destruct (findChat chatId (chats w)) as [chat|]; [|done].
  destruct (findIndex _ _) as [i|]; [|done].
  destruct (Chat.messages chat !! i) as [old|]; [|done].
  destruct (bool_decide _); [|done].
  simpl. repeat split. by intros ? [= ->].
Qed.

Lemma controllers_edit (chatId : string) (f : Chat.t -> Z -> Chat.t) (w : World) :
  controllers (exec (chats ← gets chats; newChats ← mapMatching chatId f chats;
                     persistChats profileId newChats) w)
  = controllers w.
Proof.
  unfold persistChats, Storage.saveChats. run_m.
  destruct (mapMatching_world chatId f (chats w) w) as [n Hn]. unfold exec in Hn.
  destruct (mapMatching chatId f (chats w) w) as [cs w1]. simpl in *. by subst w1.
Qed.

Lemma controllers_handleImportChat (file : option string) (w : World) :
  controllers (exec (Sidebar.handleImportChat (App.onImportChat profileId) file) w)
  = controllers w.
Proof.
  unfold Sidebar.handleImportChat, App.onImportChat, importChat, persistChats, console_error,
    Storage.saveChats, Storage.generateId, Date_now.
  run_m. by repeat case_match; simplify_eq.
Qed.

(** Stopping and deleting abort the controller registered for the
    conversation, if any, and unregister it. *)
Lemma controllers_stopGeneration (chatId : string) (w : World) :
  controllers (exec (stopGeneration chatId) w)
  = match abortControllers w !! chatId with
    | Some c => (delete chatId (abortControllers w), {[c]} ∪ aborted w, nextController w)
    | None => controllers w
    end.
Proof.
  unfold stopGeneration, abort, updateChatState. run_m.
  by destruct (abortControllers w !! chatId).
Qed.

Lemma controllers_deleteChat (chatId : string) (w : World) :
  controllers (exec (deleteChat profileId chatId) w)
  = match abortControllers w !! chatId with
    | Some c => (delete chatId (abortControllers w), {[c]} ∪ aborted w, nextController w)
    | None => controllers w
    end.
Proof.
  unfold deleteChat, persistChats, Storage.saveChats, abort. run_m.
  by destruct (abortControllers w !! chatId).
Qed.

(** A network event unregisters at most the controller of the
    conversation of the operation it is delivered to. *)
Lemma controllers_deliver (t : Task) (ev : Decoder.NetEvent) (w : World) :
  let r := deliver profileId settings t ev w in
  match r.1 with
  | inl t' => task_controller t' = task_controller t /\ controllers r.2 = controllers w
  | inr _ =>
      controllers r.2
      = (delete (task_chatId t) (abortControllers w), aborted w, nextController w)
  end.
Proof.
  cbv zeta. rewrite deliver_unfold.
  pose proof (sendMessage_step_obs (onStream t) controllers settings
    (task_await t) (Api.settle (bool_decide (task_controller t ∈ aborted w)) ev) w
    (fun v s => eq_refl)) as Hq.
  destruct (Api.sendMessage_step _ _ _ _ _) as [[a|r] w1]; simpl in Hq; simpl.
  - done.
  - unfold controllers in Hq. injection Hq as Hac Hab Hn.
    unfold resume, persistChats, updateChatState, console_error, Storage.saveChats,
      Storage.generateId, Date_now, controllers.
    run_m. destruct r; simpl; by rewrite Hac, Hab, Hn.
Qed.

Lemma Wellformed_frame (sys : App.System) (w' : World) :
  controllers w' = controllers (App.world sys) ->
  Wellformed sys -> Wellformed (App.mkSystem w' (App.tasks sys)).
Proof.
  unfold controllers, Wellformed. simpl. intros [= -> -> ->]. done.
Qed.

Lemma Wellformed_unregister (sys : App.System) (w' : World) (chatId : string)
    (tasks' : gmap AbortController Task) :
  controllers w'
  = (delete chatId (abortControllers (App.world sys)), aborted (App.world sys),
     nextController (App.world sys)) ->
  (forall (c : AbortController) (t : Task),
      tasks' !! c = Some t ->
      task_controller t = c /\ (c < nextController (App.world sys))%nat) ->
  Wellformed sys -> Wellformed (App.mkSystem w' tasks').
Proof.
  unfold controllers, Wellformed. simpl. intros [= -> -> ->] Htasks (H1 & H2 & H3 & H4).
  repeat split.
  - apply lookup_delete_Some in H as [_ H]. by apply (H1 _ _ H).
  - apply lookup_delete_Some in H as [_ H]. by apply (H1 _ _ H).
  - intros id1 id2 c [_ Ha]%lookup_delete_Some [_ Hb]%lookup_delete_Some. eauto.
  - exact H3.
  - by apply (Htasks _ _ H).
  - by apply (Htasks _ _ H).
Qed.

Lemma Wellformed_abort (sys : App.System) (w' : World) (chatId : string) :
  controllers w'
  = match abortControllers (App.world sys) !! chatId with
    | Some c =>
        (delete chatId (abortControllers (App.world sys)), {[c]} ∪ aborted (App.world sys),
         nextController (App.world sys))
    | None => controllers (App.world sys)
    end ->
  Wellformed sys -> Wellformed (App.mkSystem w' (App.tasks sys)).
Proof.
  destruct (abortControllers (App.world sys) !! chatId) as [c|] eqn:Hc;
    [|apply Wellformed_frame].
  unfold controllers, Wellformed. simpl. intros [= -> -> ->] (H1 & H2 & H3 & H4).
  repeat split.
  - apply lookup_delete_Some in H as [_ H]. by apply (H1 _ _ H).
  - apply lookup_delete_Some in H as [Hne H].
    intros [->%elem_of_singleton|Hin]%elem_of_union.
    + by specialize (H2 _ _ _ H Hc).
    + by apply (H1 _ _ H).
  - intros id1 id2 c' [_ Ha]%lookup_delete_Some [_ Hb]%lookup_delete_Some. eauto.
  - intros c' [->%elem_of_singleton|Hin]%elem_of_union; [by apply (H1 _ _ Hc)|by apply H3].
  - by apply (H4 _ _ H).
  - by apply (H4 _ _ H).
Qed.

Lemma Wellformed_start (chatId : option string) (sys : App.System) (m : M (option Task)) :
  started chatId (App.world sys) (m (App.world sys)) ->
  Wellformed sys -> Wellformed (App.start m sys).
Proof.
  unfold started, App.start. destruct (m (App.world sys)) as [[t|] w1]; simpl;
    [|apply Wellformed_frame].
  unfold controllers, Wellformed. simpl.
  intros (Hc & _ & [= Hac Hab Hn]) (H1 & H2 & H3 & H4). rewrite Hac, Hab, Hn, Hc.
  assert (nextController (App.world sys) ∉ aborted (App.world sys)) as Hfresh.
  { intros Hin. apply H3 in Hin. lia. }
  repeat split.
  - apply lookup_insert_Some in H as [[_ <-]|[_ H]]; [lia|].
    apply H1 in H as [H _]. lia.
  - apply lookup_insert_Some in H as [[_ <-]|[_ H]]; [done|]. by apply (H1 _ _ H).
  - intros id1 id2 c [[<- <-]|[Hn1 Ha]]%lookup_insert_Some
      [[<- Hb]|[Hn2 Hb]]%lookup_insert_Some; try done.
    + apply H1 in Hb as [Hb _]. lia.
    + apply H1 in Ha as [Ha _]. lia.
    + eauto.
  - intros c Hin. apply H3 in Hin. lia.
  - apply lookup_insert_Some in H as [[<- <-]|[_ H]]; [done|]. by apply (H4 _ _ H).
  - apply lookup_insert_Some in H as [[<- _]|[_ H]]; [lia|].
    apply H4 in H as [_ H]. lia.
Qed.

Lemma Wellformed_step (sys : App.System) (e : App.Event) :
  Wellformed sys -> Wellformed (App.step profileId settings memory sys e).
Proof.
  destruct e; simpl; unfold App.only_world.
  - apply (Wellformed_start None), started_sendUserMessage.
  - apply (Wellformed_abort _ _ chatId), controllers_stopGeneration.
  - apply (Wellformed_start (Some chatId)), started_regenerateLastResponse.
  - apply (Wellformed_start (Some chatId)), started_editAndResend.
  - apply Wellformed_frame, controllers_edit.
  - apply (Wellformed_abort _ _ chatId), controllers_deleteChat.
  - apply Wellformed_frame.
    unfold controllers, createNewChat, persistChats, Storage.saveChats, Storage.generateId,
      Date_now. by run_m.
  - apply Wellformed_frame, controllers_edit.
  - apply Wellformed_frame, controllers_edit.
  - apply Wellformed_frame, controllers_edit.
  - apply Wellformed_frame, controllers_handleImportChat.
  - destruct (App.tasks sys !! task) as [t|] eqn:Ht; [|done].
    pose proof (controllers_deliver t ev (App.world sys)) as Hd. cbv zeta in Hd.
    intros Hw. pose proof Hw as (_ & _ & _ & H4).
    destruct (deliver profileId settings t ev (App.world sys)) as [[t'|v] w1]; simpl in Hd.
    + destruct Hd as [Hc Hd].
      destruct (Wellformed_frame sys w1 Hd Hw) as (G1 & G2 & G3 & _).
      split; [exact G1|]. split; [exact G2|]. split; [exact G3|]. simpl.
      intros c t0 [[<- <-]|[_ H]]%lookup_insert_Some.
      * unfold controllers in Hd. injection Hd as _ _ ->. rewrite Hc. by apply H4.
      * unfold controllers in Hd. injection Hd as _ _ ->. by apply H4.
    + apply (Wellformed_unregister sys w1 (task_chatId t)); [exact Hd| |exact Hw].
      intros c t0 [_ H]%lookup_delete_Some. by apply H4.
Qed.

End Controllers.

Lemma Wellformed_initial (w : World) :
  abortControllers w = ∅ -> aborted w = ∅ -> Wellformed (App.mkSystem w ∅).
Proof.
  intros Hac Hab. unfold Wellformed. simpl. rewrite Hac, Hab. repeat split; try done.
  all: try by intros; simplify_map_eq.
  all: set_solver.
Qed.

Lemma Wellformed_run (profileId : string) (settings : Settings) (memory : list MemoryItem.t)
    (sys : App.System) (es : list App.Event) :
  Wellformed sys -> Wellformed (App.run profileId settings memory sys es).
Proof.
  unfold App.run. revert sys. induction es as [|e es IH]; intros sys Hw; [exact Hw|].
  simpl. apply IH. by apply Wellformed_step.
Qed.

(** X22.  The bookkeeping of controllers stays sound through any
    sequence of handler calls and network events: a controller that is
    registered for a conversation has not been aborted, no controller is
    registered for two conversations, and every operation in flight keeps
    the controller it created.  In particular the controller the next
    operation will create has not been aborted. *)
Theorem controllers_stay_wellformed (profileId : string) (settings : Settings)
    (memory : list MemoryItem.t) (sys : App.System) (es : list App.Event) :
  Wellformed sys ->
  let sys' := App.run profileId settings memory sys es in
  Wellformed sys' /\ nextController (App.world sys') ∉ aborted (App.world sys').
Proof.
  intros Hw. cbv zeta.
  pose proof (Wellformed_run profileId settings memory sys es Hw) as Hw'.
  split; [exact Hw'|].
  destruct Hw' as (_ & _ & H3 & _). intros Hin. apply H3 in Hin. lia.
Qed.

(** Two sends in flight on the fresh profile. *)
Lemma controllers_stay_wellformed_witness :
  Wellformed (App.mkSystem Sample.w0 ∅) /\ Wellformed Sample.two_sessions.
Proof.
  assert (Wellformed (App.mkSystem Sample.w0 ∅)) as Hw by by apply Wellformed_initial.
  split; [exact Hw|].
  exact (proj1 (controllers_stay_wellformed Sample.profile Sample.streaming []
                  (App.mkSystem Sample.w0 ∅) _ Hw)).
Defined.

(** X23.  Stopping the generation of one conversation, or deleting
    it, leaves the request of every other conversation running: the
    controller registered for another conversation stays registered and
    is not aborted. *)
Theorem stop_spares_other_conversations (profileId : string) (sys : App.System)
    (chatId other : string) (c : AbortController) :
  Wellformed sys ->
  other <> chatId ->
  abortControllers (App.world sys) !! other = Some c ->
  (let w' := exec (ChatManager.stopGeneration chatId) (App.world sys) in
   abortControllers w' !! other = Some c /\ c ∉ aborted w')
  /\ (let w' := exec (ChatManager.deleteChat profileId chatId) (App.world sys) in
      abortControllers w' !! other = Some c /\ c ∉ aborted w').
Proof.
  intros (H1 & H2 & _) Hne Hc. cbv zeta.
  pose proof (controllers_stopGeneration chatId (App.world sys)) as Hs.
  pose proof (controllers_deleteChat profileId chatId (App.world sys)) as Hd.
  unfold controllers in Hs, Hd.
  destruct (abortControllers (App.world sys) !! chatId) as [c0|] eqn:Hc0.
  - injection Hs as -> ->. injection Hd as -> ->.
    rewrite !lookup_delete_ne by done.
    assert (c ∉ ({[c0]} ∪ aborted (App.world sys) : gset AbortController)) as Hn.
    { intros [->%elem_of_singleton|Hin]%elem_of_union.
      - by specialize (H2 _ _ _ Hc Hc0).
      - by apply (H1 _ _ Hc). }
    done.
  - injection Hs as -> ->. injection Hd as -> ->. split; (split; [done|by apply (H1 _ _ Hc)]).
Qed.

(** Of the two sends in flight, the first is stopped: the controller of
    the second stays registered and live. *)
Lemma stop_spares_other_conversations_witness :
  Wellformed Sample.two_sessions
  /\ "id2" <> "id0"
  /\ abortControllers (App.world Sample.two_sessions) !! "id2" = Some 1%nat
  /\ 1%nat ∉ aborted (exec (ChatManager.stopGeneration "id0") (App.world Sample.two_sessions)).
Proof.
  assert (Wellformed Sample.two_sessions) as Hw
    by (apply Wellformed_run; by apply Wellformed_initial).
  assert (abortControllers (App.world Sample.two_sessions) !! "id2" = Some 1%nat) as Hc
    by (vm_compute; reflexivity).
  split; [exact Hw|]. split; [discriminate|]. split; [exact Hc|].
  exact (proj2 (proj1 (stop_spares_other_conversations Sample.profile Sample.two_sessions
                         "id0" "id2" 1%nat Hw ltac:(discriminate) Hc))).
Defined.

(** ** src/components/Sidebar.tsx: the groups of the list *)

Section Grouping.

Variable today : Z.

Lemma groupChatsByDate_fold (chats : list Chat.t) :
  Sidebar.groupChatsByDate today chats
  = fold_left (fun groups chat => Sidebar.push (groupOf today chat) chat groups) chats
      {["pinned" := []; "today" := []; "yesterday" := []; "lastWeek" := []; "older" := [];
        "archived" := []]}.
Proof.
  unfold Sidebar.groupChatsByDate. cbv zeta.
  generalize ({["pinned" := []; "today" := []; "yesterday" := []; "lastWeek" := [];
                "older" := []; "archived" := []]} : gmap string (list Chat.t)).
  induction chats as [|chat chats IH]; intros groups; [done|].
  simpl. rewrite IH. f_equal. unfold groupOf. by repeat case_match.
Qed.

Lemma fold_push (chats : list Chat.t) (groups : gmap string (list Chat.t)) (key : string) :
  fold_left (fun groups chat => Sidebar.push (groupOf today chat) chat groups) chats groups
    !!! key
  = groups !!! key ++ List.filter (fun chat => String.eqb (groupOf today chat) key) chats.
Proof.
  revert groups. induction chats as [|chat chats IH]; intros groups; simpl.
  - by rewrite app_nil_r.
  - rewrite IH. unfold Sidebar.push.
    destruct (String.eqb_spec (groupOf today chat) key) as [->|Hne].
    + rewrite lookup_total_insert_eq. by rewrite <- app_assoc.
    + by rewrite lookup_total_insert_ne.
Qed.

Lemma listed (chats : list Chat.t) (key : string) :
  key ∈ ["pinned"; "today"; "yesterday"; "lastWeek"; "older"; "archived"] ->
  Sidebar.groupChatsByDate today chats !!! key
  = List.filter (fun chat => String.eqb (groupOf today chat) key) chats.
Proof.
  intros Hk. rewrite groupChatsByDate_fold, fold_push.
  repeat (apply elem_of_cons in Hk as [->|Hk]; [reflexivity|]).
  by apply elem_of_nil in Hk.
Qed.

Lemma groups_partition (chats : list Chat.t) :
  Permutation
    (List.filter (fun chat => String.eqb (groupOf today chat) "pinned") chats
     ++ List.filter (fun chat => String.eqb (groupOf today chat) "today") chats
     ++ List.filter (fun chat => String.eqb (groupOf today chat) "yesterday") chats
     ++ List.filter (fun chat => String.eqb (groupOf today chat) "lastWeek") chats
     ++ List.filter (fun chat => String.eqb (groupOf today chat) "older") chats
     ++ List.filter (fun chat => String.eqb (groupOf today chat) "archived") chats)
    chats.
Proof.
  induction chats as [|chat chats IH]; [done|].
  assert (groupOf today chat ∈ ["pinned"; "today"; "yesterday"; "lastWeek"; "older"; "archived"])
    as Hk.
  { unfold groupOf. repeat case_match; set_solver. }
  cbn [List.filter].
  repeat (apply elem_of_cons in Hk as [->|Hk];
          [simpl; etrans; [|apply perm_skip, IH]; by rewrite <- ?Permutation_middle |]).
  by apply elem_of_nil in Hk.
Qed.

End Grouping.

(** X24.  The sidebar lists every conversation in exactly one of its
    six groups: the groups taken together are the conversations, each as
    often as it occurs, and within a group the conversations keep their
    order.  An archived conversation is listed as archived even when it
    is pinned; a pinned one is listed as pinned whatever its age; the
    others are listed by the age of their last modification, counted from
    the start of the day [today]. *)
Theorem sidebar_groups_partition (today : Z) (chats : list Chat.t) :
  let groups := Sidebar.groupChatsByDate today chats in
  let plain (chat : Chat.t) := negb (Chat.archived chat) && negb (Chat.pinned chat) in
  Permutation
    (groups !!! "pinned" ++ groups !!! "today" ++ groups !!! "yesterday"
     ++ groups !!! "lastWeek" ++ groups !!! "older" ++ groups !!! "archived")
    chats
  /\ groups !!! "archived" = List.filter Chat.archived chats
  /\ groups !!! "pinned"
     = List.filter (fun chat => negb (Chat.archived chat) && Chat.pinned chat) chats
  /\ groups !!! "today"
     = List.filter (fun chat => plain chat && (today <=? Chat.updatedAt chat)) chats
  /\ groups !!! "yesterday"
     = List.filter
         (fun chat =>
            plain chat && (today - 86400000 <=? Chat.updatedAt chat)
            && (Chat.updatedAt chat <? today)) chats
  /\ groups !!! "lastWeek"
     = List.filter
         (fun chat =>
            plain chat && (today - 604800000 <=? Chat.updatedAt chat)
            && (Chat.updatedAt chat <? today - 86400000)) chats
  /\ groups !!! "older"
     = List.filter
         (fun chat => plain chat && (Chat.updatedAt chat <? today - 604800000)) chats.
Proof.
  cbv zeta. rewrite !listed by set_solver.
  split; [apply groups_partition|].
  repeat split; apply filter_ext; intros chat; unfold groupOf.
  all: destruct (Chat.archived chat), (Chat.pinned chat); simpl; try reflexivity.
  all: repeat match goal with
       | |- context [(?a <=? ?b)] => destruct (Z.leb_spec a b)
       | |- context [(?a <? ?b)] => destruct (Z.ltb_spec a b)
       end; simpl; try reflexivity; lia.
Qed.

(** ** The text on display while a response is streamed *)

Section Display.

Import ChatManager.

Variable profileId : string.
Variable settings : Settings.

Lemma processLine_shows (t : Task) (loading : bool) (st : string * World) (line : string) :
  shows (task_chatId t) loading st.1 st.2 ->
  let st' := Decoder.processLine Api.deltaContent (onStream t) st line in
  shows (task_chatId t) loading st'.1 st'.2.
Proof.
  destruct st as [fullContent w]. unfold Decoder.processLine. cbv zeta.
  intros Hs. repeat case_match; try exact Hs.
  unfold shows. simpl. rewrite getChatState_updateChatState_eq. simpl.
  split; [done|apply Hs].
Qed.

Lemma processLines_shows (t : Task) (loading : bool) (lines : list string)
    (st : string * World) :
  shows (task_chatId t) loading st.1 st.2 ->
  let st' := fold_left (Decoder.processLine Api.deltaContent (onStream t)) lines st in
  shows (task_chatId t) loading st'.1 st'.2.
Proof.
  revert st. induction lines as [|line lines IH]; intros st Hs; [exact Hs|].
  simpl. apply IH. by apply processLine_shows.
Qed.

Lemma sendMessage_step_displayed (t : Task) (a a' : Api.Await) (ev : Decoder.NetEvent)
    (w w' : World) :
  displayed (task_chatId t) a w ->
  Api.sendMessage_step (onStream t) settings a ev w = (inl a', w') ->
  displayed (task_chatId t) a' w'.
Proof.
  unfold displayed, Api.sendMessage_step. intros [Hl Hs]. destruct a.
  - destruct ev; intros H; repeat case_match; by simplify_eq.
  - destruct ev; intros H; repeat case_match; by simplify_eq.
  - destruct ev as [e|status hasBody|text|value|]; simpl; try (by intros [= <- <-]).
    unfold Decoder.processChunk.
    pose proof (processLines_shows t true
      (removelast (Js.split_lines (buffer +:+ value))) (fullContent, w) (conj Hs Hl)) as H.
    cbv zeta in H. destruct (fold_left _ _ _) as [fullContent1 w1]. simpl in H.
    intros [= <- <-]. by destruct H.
Qed.

Lemma drive_displayed (evs : list Decoder.NetEvent) (t t' : Task) (w w' : World) :
  displayed (task_chatId t) (task_await t) w ->
  drive profileId settings t evs w = (inl t', w') ->
  displayed (task_chatId t) (task_await t') w'.
Proof.
  revert t w. induction evs as [|ev evs IH]; intros t w Hd; simpl.
  - by intros [= <- <-].
  - run_m. rewrite deliver_unfold.
    destruct (Api.sendMessage_step _ _ _ _ _) as [[a|r] w1] eqn:Hstep.
    + apply (sendMessage_step_displayed t _ _ _ _ _ Hd) in Hstep.
      intros H. by apply (IH (with_await a t) w1 Hstep) in H.
    + destruct (resume profileId t r w1). discriminate.
Qed.

End Display.

(** X25.  While a response is streamed the session shows exactly the
    text decoded so far: for an operation that has been launched and is
    still suspended after any script of network events, the session is
    loading and its streamed text is the text the decoder has accumulated
    (the empty text before the first read).  When the stream then ends,
    the assistant message that is committed carries that very text. *)
Theorem display_follows_the_stream (profileId : string) (settings : Settings) (op : Op)
    (chatId : string) (w w1 w' : World) (t t' : ChatManager.Task)
    (evs : list Decoder.NetEvent) :
  Launched op chatId w w1 t ->
  nextController w ∉ aborted w ->
  ChatManager.drive profileId settings t evs w1 = (inl t', w') ->
  isLoading (ChatManager.getChatState chatId w') = true
  /\ streamingContent (ChatManager.getChatState chatId w')
     = match ChatManager.task_await t' with
       | Api.AwaitRead fullContent _ => fullContent
       | _ => EmptyString
       end
  /\ (forall fullContent buffer : string,
         ChatManager.task_await t' = Api.AwaitRead fullContent buffer ->
         exists reply : Message.t,
           Message.role reply = assistant
           /\ Message.content reply = streamingContent (ChatManager.getChatState chatId w')
           /\ messagesOf chatId
                (exec (ChatManager.deliver profileId settings t' Decoder.Done) w')
              = Chat.messages (ChatManager.task_chat t) ++ [reply]).
Proof.
  intros Hl Hfresh Hd.
  pose proof Hl as (_ & Hid & Hawait & Hctl & Hnew & Hget & _ & Hab & Hload & Hstream).
  assert (displayed (ChatManager.task_chatId t) (ChatManager.task_await t) w1) as H0.
  { unfold displayed. by rewrite Hawait, Hid, Hload, Hstream. }
  pose proof (drive_displayed profileId settings evs t t' w1 w' H0 Hd) as [Hl' Hs'].
  rewrite Hid in Hl', Hs'. split; [exact Hl'|]. split; [exact Hs'|].
  intros fullContent buffer Ha. rewrite Hs', Ha.
  apply drive_suspended in Hd as [Hq [a ->]]. simpl in Ha. subst a.
  set (t' := ChatManager.with_await (Api.AwaitRead fullContent buffer) t).
  assert (nextController w ∉ aborted w') as Hna.
  { unfold durable in Hq. injection Hq as _ _ _ -> _. by rewrite Hab. }
  assert (ChatManager.deliver profileId settings t' Decoder.Done w'
          = (let '(v, w2) := ChatManager.resume profileId t' (inr fullContent) w' in
             (inr v, w2))) as Hdel.
  { rewrite deliver_unfold. subst t'. cbn [ChatManager.task_controller ChatManager.with_await].
    rewrite Hctl, (bool_decide_eq_false_2 _ Hna). reflexivity. }
  pose proof (resume_fulfilled_messages profileId t' fullContent w') as Hm.
  unfold exec in *. rewrite Hdel.
  destruct (ChatManager.resume profileId t' (inr fullContent) w') as [v w2].
  cbn [snd] in *. change (ChatManager.task_chatId t') with (ChatManager.task_chatId t) in Hm.
  rewrite Hid in Hm. eexists. split; [|split]; [| |apply Hm]; [reflexivity..|].
  subst t'. simpl. rewrite Hnew. exact Hget.
Qed.

(** The send of the samples after its first frame: the session shows
    "He". *)
Lemma display_follows_the_stream_witness :
  Launched OpSend "id0" Sample.w0 Sample.sent.2 Sample.sent.1
  /\ (nextController Sample.w0 ∉ aborted Sample.w0)
  /\ streamingContent (ChatManager.getChatState "id0" Sample.midstream.2) = "He".
Proof.
  assert (Launched OpSend "id0" Sample.w0 Sample.sent.2 Sample.sent.1) as Hl.
  { exact (proj1 (sendUserMessage_start_spec Sample.profile Sample.streaming [] None "Hi"
                    Sample.w0 Sample.sent.2 Sample.sent.1 (surjective_pairing _))). }
  assert (nextController Sample.w0 ∉ aborted Sample.w0) as Hfresh by apply not_elem_of_empty.
  split; [exact Hl|]. split; [exact Hfresh|].
  destruct (display_follows_the_stream Sample.profile Sample.streaming OpSend "id0"
              Sample.w0 Sample.sent.2 Sample.midstream.2 Sample.sent.1 Sample.midstream.1
              [Decoder.Responds 200 true; Decoder.Chunk (Sample.frame (Sample.delta "He"))]
              Hl Hfresh ltac:(vm_compute; reflexivity)) as (_ & Hs & _).
  rewrite Hs. vm_compute. reflexivity.
Defined.

(** ** Two operations on one conversation *)

(** X26.  The [finally] clause of an operation unregisters whatever
    controller is registered for its conversation.  When an operation
    that has been stopped ends after a later operation on the same
    conversation has registered its own controller, the session is marked
    idle and that controller is unregistered without being aborted: the
    later request stays in flight, and [stopGeneration] can no longer
    cancel it. *)
Theorem ending_operation_unregisters_its_successor (profileId : string) (settings : Settings)
    (memory : list MemoryItem.t) (sys : App.System) (cOld cNew : AbortController)
    (tOld : ChatManager.Task) (ev : Decoder.NetEvent) :
  Wellformed sys ->
  App.tasks sys !! cOld = Some tOld ->
  cOld ∈ aborted (App.world sys) ->
  abortControllers (App.world sys) !! ChatManager.task_chatId tOld = Some cNew ->
  let chatId := ChatManager.task_chatId tOld in
  let sys1 := App.step profileId settings memory sys (App.Net cOld ev) in
  let sys2 := App.step profileId settings memory sys1 (App.Stop chatId) in
  App.tasks sys1 !! cOld = None
  /\ abortControllers (App.world sys1) !! chatId = None
  /\ isLoading (ChatManager.getChatState chatId (App.world sys1)) = false
  /\ (cNew ∉ aborted (App.world sys2))
  /\ (forall tNew : ChatManager.Task,
         App.tasks sys !! cNew = Some tNew -> App.tasks sys2 !! cNew = Some tNew).
Proof.
  intros (H1 & _ & _ & H4) Ht Hab Hc. cbv zeta.
  destruct (H4 _ _ Ht) as [Hctl _]. destruct (H1 _ _ Hc) as [_ Hnew].
  assert (cNew <> cOld) as Hne by congruence.
  assert (App.step profileId settings memory sys (App.Net cOld ev)
          = App.mkSystem
              (exec (ChatManager.resume profileId tOld (inl (Js.newError "Request cancelled")))
                 (App.world sys))
              (delete cOld (App.tasks sys))) as ->.
  { simpl. rewrite Ht. rewrite deliver_aborted by (by rewrite Hctl). reflexivity. }
  unfold exec. rewrite resume_rejected. simpl.
  unfold ChatManager.stopGeneration, ChatManager.getChatState, ChatManager.updateChatState,
    App.only_world.
  run_m. simpl. rewrite !lookup_delete_eq, lookup_insert_eq. simpl.
  repeat split; try done.
  intros tNew HtNew. by rewrite lookup_delete_ne.
Qed.

(** The scenario on the fresh profile: the first send is stopped, a
    second message is sent, then the network answers the first
    request. *)
Lemma ending_operation_unregisters_its_successor_witness :
  let sys1 :=
    App.step Sample.profile Sample.streaming [] Sample.superseded
      (App.Net 0%nat (Decoder.Responds 200 true)) in
  let sys2 := App.step Sample.profile Sample.streaming [] sys1 (App.Stop "id0") in
  Wellformed Sample.superseded
  /\ App.tasks Sample.superseded !! 0%nat = Some Sample.stopped
  /\ 0%nat ∈ aborted (App.world Sample.superseded)
  /\ abortControllers (App.world Sample.superseded) !! "id0" = Some 1%nat
  /\ abortControllers (App.world sys1) !! "id0" = None
  /\ (1%nat ∉ aborted (App.world sys2)).
Proof.
  cbv zeta.
  assert (Wellformed Sample.superseded) as Hw
    by (apply Wellformed_run; by apply Wellformed_initial).
  assert (App.tasks Sample.superseded !! 0%nat = Some Sample.stopped) as Ht
    by (vm_compute; reflexivity).
  assert (0%nat ∈ aborted (App.world Sample.superseded)) as Hab
    by (vm_compute; set_solver).
  assert (abortControllers (App.world Sample.superseded) !! "id0" = Some 1%nat) as Hc
    by (vm_compute; reflexivity).
  destruct (ending_operation_unregisters_its_successor Sample.profile Sample.streaming []
              Sample.superseded 0%nat 1%nat Sample.stopped (Decoder.Responds 200 true)
              Hw Ht Hab Hc) as (_ & Hnone & _ & Hlive & _).
  split; [exact Hw|]. split; [exact Ht|]. split; [exact Hab|]. split; [exact Hc|].
  split; [exact Hnone|exact Hlive].
Defined.

(** ** The request of a send *)

(** X27.  A send issues exactly one request: its messages are the
    system prompt, then the messages the conversation held before, in
    their order and with their roles, then the new user message; it goes
    to the completions endpoint of the configured server and asks for a
    stream exactly when streaming is enabled.  The system prompt is the
    configured prompt alone when memory is disabled or empty. *)
Theorem send_requests_the_whole_conversation (profileId : string) (settings : Settings)
    (memory : list MemoryItem.t) (chatId : option string) (content : string)
    (w w1 : World) (t : ChatManager.Task) :
  ChatManager.sendUserMessage_start profileId settings memory chatId content w = (t, w1) ->
  exists request : Api.Request,
    fetched w1 = fetched w ++ [request]
    /\ Api.url request = baseUrl settings +:+ "/v1/chat/completions"
    /\ Api.stream request = streamingEnabled settings
    /\ Api.req_messages request
       = Api.mkApiMessage Api.api_system (Api.buildSystemPrompt settings memory)
         :: List.map
              (fun m => Api.mkApiMessage (Api.api_role (Message.role m)) (Message.content m))
              (priorMessages chatId w)
         ++ [Api.mkApiMessage (Api.api_role user) content]
    /\ (useMemory settings = false \/ memory = [] ->
        Api.buildSystemPrompt settings memory = systemPrompt settings).
Proof.
  intros Hs.
  pose proof (sendUserMessage_start_spec profileId settings memory chatId content w w1 t Hs)
    as [_ (question & Hr & Hc & Hm)].
  exists (Api.request (Chat.messages (ChatManager.task_chat t)) settings memory).
  split; [|split; [|split; [|split]]]; try reflexivity.
  - revert Hs. unfold ChatManager.sendUserMessage_start, ChatManager.launch,
      ChatManager.persistChats, ChatManager.updateChatState, Storage.saveChats,
      Storage.generateId, Date_now, new_AbortController.
    run_m.
    destruct (ChatManager.lookupChat chatId (chats w)) as [chat|]; [destruct chatId|];
      by intros [= <- <-].
  - unfold Api.request. cbn [Api.req_messages]. rewrite Hm, map_app. simpl.
    rewrite Hr, Hc. reflexivity.
  - unfold Api.buildSystemPrompt. intros [-> | ->]; [done|]. simpl. by rewrite andb_false_r.
Qed.

(** A second message in the conversation of the samples: the request
    carries the first exchange and the new message. *)
Lemma send_requests_the_whole_conversation_witness :
  let r :=
    ChatManager.sendUserMessage_start Sample.profile Sample.streaming [] (Some "c")
      "And then?" (Sample.holding [Sample.u1; Sample.a1]) in
  List.map (fun request => List.map Api.api_content (Api.req_messages request)) (fetched r.2)
  = [["You are a helpful AI assistant."; "Hi"; "Hello"; "And then?"]].
Proof.
  cbv zeta.
  destruct (send_requests_the_whole_conversation Sample.profile Sample.streaming []
              (Some "c") "And then?" (Sample.holding [Sample.u1; Sample.a1]) _ _
              (surjective_pairing _)) as (request & Hf & _ & _ & Hm & _).
  change (fetched (Sample.holding [Sample.u1; Sample.a1])) with (@nil Api.Request) in Hf.
  rewrite Hf. cbn [app List.map]. rewrite Hm. vm_compute. reflexivity.
Defined.

(** ** A rewrite whose request fails *)

Lemma sendMessage_from_obs {S X : Type} (onStream : option (string -> S -> S))
    (obs : S -> X) (settings : Settings) (evs : list Decoder.NetEvent) (a : Api.Await)
    (s : S) :
  (forall v s, obs (Decoder.notify onStream v s) = obs s) ->
  obs (Api.sendMessage_from onStream settings a evs s).2 = obs s.
Proof.
  intros Hn. revert a s. induction evs as [|ev evs IH]; intros a s; simpl; [done|].
  pose proof (sendMessage_step_obs onStream obs settings a ev s Hn) as Hstep.
  destruct (Api.sendMessage_step onStream settings a ev s) as [[a'|r] s1]; simpl in *.
  - by rewrite IH.
  - exact Hstep.
Qed.

Section Rejection.

Import ChatManager.

Variable profileId : string.
Variable settings : Settings.

(** A launched operation whose request is rejected leaves the
    conversation as the launch left it, and the error on the console. *)
Lemma launched_rejects (op : Op) (chatId : string) (w w1 w2 : World) (t : Task)
    (evs : list Decoder.NetEvent) (error : Js.Error) :
  Launched op chatId w w1 t ->
  nextController w ∉ aborted w ->
  Api.sendMessage (onStream t) settings evs w1 = (inr (inl error), w2) ->
  let w' := exec (drive profileId settings t evs) w1 in
  messagesOf chatId w' = Chat.messages (task_chat t)
  /\ console w' = console w1 ++ [(label op, error)].
Proof.
  intros (Hop & Hid & Hawait & Hctl & Hnew & Hget & _ & Hab & _) Hfresh Hsend. cbv zeta.
  unfold exec. rewrite drive_not_aborted by (by rewrite Hctl, Hab).
  rewrite Hawait. unfold Api.sendMessage in Hsend.
  pose proof (sendMessage_from_obs (onStream t) durable settings evs Api.AwaitFetch w1
                (durable_onStream t)) as Hq.
  rewrite Hsend in *. simpl in Hq. rewrite resume_rejected. simpl.
  unfold durable in Hq. injection Hq as Hc _ _ _ Hcon.
  unfold messagesOf, getChat in *. simpl. by rewrite Hc, Hget, Hcon, Hop.
Qed.

End Rejection.

(** X28.  A regeneration or an edit whose request fails is not rolled
    back.  When [sendMessage] rejects, the conversation stays as the
    operation left it before the request: truncated at the most recent
    assistant message for a regeneration, so that the answer that was to
    be replaced is lost; truncated at the edited message, which carries
    its new content, for an edit.  The error is written to the console
    and the promise of the operation fulfils. *)
Theorem failed_rewrite_is_not_rolled_back (profileId : string) (settings : Settings)
    (memory : list MemoryItem.t) (chatId : string) (chat : Chat.t) (w : World)
    (evs : list Decoder.NetEvent) :
  ChatManager.getChat chatId w = Some chat ->
  nextController w ∉ aborted w ->
  (forall (i : nat) (removed : Message.t) (t : ChatManager.Task) (w1 w2 : World)
          (error : Js.Error),
      (2 <= length (Chat.messages chat))%nat ->
      LastAssistant (Chat.messages chat) i removed ->
      ChatManager.regenerateLastResponse_start profileId settings memory chatId w
      = (Some t, w1) ->
      Api.sendMessage (ChatManager.onStream t) settings evs w1 = (inr (inl error), w2) ->
      let w' :=
        exec (ChatManager.regenerateLastResponse profileId settings memory chatId evs) w in
      messagesOf chatId w' = take i (Chat.messages chat)
      /\ console w' = console w ++ [("Error regenerating:", error)])
  /\ (forall (messageId newContent : string) (i : nat) (old : Message.t)
             (t : ChatManager.Task) (w1 w2 : World) (error : Js.Error),
         FirstWithId messageId (Chat.messages chat) i old ->
         Message.role old = user ->
         ChatManager.editAndResend_start profileId settings memory chatId messageId
           newContent w
         = (Some t, w1) ->
         Api.sendMessage (ChatManager.onStream t) settings evs w1 = (inr (inl error), w2) ->
         let w' :=
           exec (ChatManager.editAndResend profileId settings memory chatId messageId
                   newContent evs) w in
         messagesOf chatId w'
         = take i (Chat.messages chat)
           ++ [Message.mk messageId user newContent (clock w (clockReads w))]
         /\ console w' = console w ++ [("Error editing and resending:", error)]).
Proof.
  intros Hget Hfresh. split.
  - intros i removed t w1 w2 error Hlen Hlast Hstart Hsend. cbv zeta.
    destruct (regenerateLastResponse_start_spec profileId settings memory chatId w chat i
                removed Hget Hlen Hlast) as (t0 & w0 & Hstart0 & Hl & Hmsgs).
    rewrite Hstart in Hstart0. injection Hstart0 as <- <-.
    destruct (launched_rejects profileId settings OpRegenerate chatId w w1 w2 t evs error
                Hl Hfresh Hsend) as [Hm Hc].
    unfold ChatManager.regenerateLastResponse, exec in *. run_m. rewrite Hstart.
    rewrite Hm, Hc, Hmsgs. split; [done|]. f_equal.
    revert Hstart. unfold ChatManager.regenerateLastResponse_start, ChatManager.launch,
      ChatManager.persistChats, ChatManager.updateChatState, Storage.saveChats, Date_now,
      new_AbortController.
    run_m. repeat case_match; try discriminate. by intros [= _ <-].
  - intros messageId newContent i old t w1 w2 error Hfirst Hrole Hstart Hsend. cbv zeta.
    destruct (editAndResend_start_spec profileId settings memory chatId messageId newContent
                w chat i old Hget Hfirst Hrole) as (t0 & w0 & Hstart0 & Hl & Hmsgs).
    rewrite Hstart in Hstart0. injection Hstart0 as <- <-.
    destruct (launched_rejects profileId settings OpEdit chatId w w1 w2 t evs error
                Hl Hfresh Hsend) as [Hm Hc].
    unfold ChatManager.editAndResend, exec in *. run_m. rewrite Hstart.
    rewrite Hm, Hc, Hmsgs. split; [done|]. f_equal.
    revert Hstart. unfold ChatManager.editAndResend_start, ChatManager.launch,
      ChatManager.persistChats, ChatManager.updateChatState, Storage.saveChats, Date_now,
      new_AbortController.
    run_m. repeat case_match; try discriminate. by intros [= _ <-].
Qed.

(** The conversation of the samples holds a question and its answer;
    the regeneration is answered with status 500 and the answer is gone. *)
Lemma failed_rewrite_is_not_rolled_back_witness :
  let w := Sample.holding [Sample.u1; Sample.a1] in
  ChatManager.getChat "c" w = Some (Chat.mk "c" "Hi" [Sample.u1; Sample.a1] 1 3 false false)
  /\ (nextController w ∉ aborted w)
  /\ messagesOf "c"
       (exec (ChatManager.regenerateLastResponse Sample.profile Sample.streaming [] "c"
                [Decoder.Responds 500 true]) w)
     = [Sample.u1].
Proof.
  cbv zeta.
  assert (nextController (Sample.holding [Sample.u1; Sample.a1])
          ∉ aborted (Sample.holding [Sample.u1; Sample.a1])) as Hfresh
    by apply not_elem_of_empty.
  split; [reflexivity|]. split; [exact Hfresh|].
  set (r := ChatManager.regenerateLastResponse_start Sample.profile Sample.streaming [] "c"
              (Sample.holding [Sample.u1; Sample.a1])).
  assert (exists t, r.1 = Some t) as [t Ht] by (eexists; vm_compute; reflexivity).
  refine (proj1 (proj1 (failed_rewrite_is_not_rolled_back Sample.profile Sample.streaming []
                          "c" _ (Sample.holding [Sample.u1; Sample.a1])
                          [Decoder.Responds 500 true] eq_refl Hfresh)
                   1%nat Sample.a1 t r.2
                   (Api.sendMessage (ChatManager.onStream t) Sample.streaming
                      [Decoder.Responds 500 true] r.2).2
                   (Js.newError "HTTP error! status: 500") _ _ _ _)).
  - simpl. lia.
  - repeat split. intros [|[|j]] m Hj Hm; (lia || discriminate).
  - rewrite <- Ht. apply surjective_pairing.
  - reflexivity.
Defined.

(** ** Health checks *)

(** X29.  A health check reads the body of the response and nothing
    else: it answers [true] exactly when the body is JSON whose [status]
    member is the string 'ok', whatever the status code of the response,
    and [false] when the request fails or the body cannot be read. *)
Theorem health_check_reads_the_body_only (status : Z) (hasBody : bool) (text : string)
    (rest : list Decoder.NetEvent) :
  (Api.checkHealth (Decoder.Responds status hasBody :: Decoder.Body text :: rest) = inr true
   <-> exists data : Json.JSON,
         Json.JSON_parse text = Some data
         /\ Json.field data "status" = Some (Json.JStr "ok"))
  /\ (forall error : Js.Error, Api.checkHealth (Decoder.Fails error :: rest) = inr false)
  /\ (forall error : Js.Error,
         Api.checkHealth (Decoder.Responds status hasBody :: Decoder.Fails error :: rest)
         = inr false).
Proof.
  split; [|by split].
  unfold Api.checkHealth. simpl. destruct (Json.JSON_parse text) as [data|].
  - split.
    + intros H. exists data. split; [done|].
      destruct data; simpl in *; try discriminate.
      all: destruct (Json.lookup_field "status" _) as [[]|]; simpl in *; try discriminate.
      all: injection H as H; apply String.eqb_eq in H; by subst.
    + intros (data' & [= <-] & Hf). destruct data; simpl in *; try discriminate.
      all: by rewrite Hf.
  - split; [discriminate|]. by intros (data & Hd & _).
Qed.

(** ** The backend client *)

Lemma messageText_total (data : Json.JSON) :
  data <> Json.JNull ->
  exists text : string, BackendClient.messageText data = inr text.
Proof.
  intros Hn. unfold BackendClient.messageText, Json.member. destruct data; eauto. done.
Qed.

(** X30.  The backend client tolerates a body without a message and
    does not translate errors.  With streaming disabled and a success
    status, every body that is JSON other than [null] makes it fulfil,
    with the empty string when the [message] member or its [content] is
    missing; a status that is not a success makes it reject with 'Failed
    to send message' whatever the status; and a rejection of the pending
    request, an [AbortError] included, is passed on as it is. *)
Theorem backend_body_without_message_is_empty {S : Type}
    (onStream : option (string -> S -> S)) (settings : Settings) (s : S) :
  (forall (status : Z) (hasBody : bool) (text : string) (data : Json.JSON),
      streamingEnabled settings = false ->
      Api.ok status = true ->
      Json.JSON_parse text = Some data ->
      data <> Json.JNull ->
      (exists response : string,
          BackendClient.sendMessageToBackend onStream settings
            [Decoder.Responds status hasBody; Decoder.Body text] s
          = (inr (inr response), s))
      /\ (Json.opt_member (Json.field data "message") "content" = None ->
          BackendClient.sendMessageToBackend onStream settings
            [Decoder.Responds status hasBody; Decoder.Body text] s
          = (inr (inr EmptyString), s)))
  /\ (forall (status : Z) (hasBody : bool) (rest : list Decoder.NetEvent),
         Api.ok status = false ->
         BackendClient.sendMessageToBackend onStream settings
           (Decoder.Responds status hasBody :: rest) s
         = (inr (inl (Js.newError "Failed to send message")), s))
  /\ (forall (error : Js.Error) (rest : list Decoder.NetEvent),
         BackendClient.sendMessageToBackend onStream settings (Decoder.Fails error :: rest) s
         = (inr (inl error), s)).
Proof.
  split; [|split].
  - intros status hasBody text data Hs Hok Hp Hn.
    unfold BackendClient.sendMessageToBackend. simpl. rewrite Hok, Hs. simpl.
    rewrite Hp.
    destruct (messageText_total data Hn) as [response Hr]. split.
    + exists response. by rewrite Hr.
    + intros Hc. unfold BackendClient.messageText, Json.member in *.
      destruct data; try done; simpl in *; by rewrite ?Hc.
  - intros status hasBody rest Hok. unfold BackendClient.sendMessageToBackend. simpl.
    by rewrite Hok.
  - reflexivity.
Qed.
